(** * Finit: boot orchestration of the PID 1 process (src/finit.c)

    A shallow embedding of [finit.c]: the filesystem check and mount phase,
    the emergency shell, [finalize], the two work-queue callbacks
    [crank_worker] and [final_worker], and [main].

    Every function of the file becomes a state-passing function.  The state
    holds the globals the file reads or writes, the work queue of the event
    loop and the trace of the calls made to the rest of Finit and to the
    operating system.  What those calls answer is read from an environment;
    every answer may depend on the whole trace so far. *)

From Stdlib Require Import ZArith List String Bool Lia.
Import ListNotations.
Local Open Scope Z_scope.

(** ** C integers *)

Definition INT_MIN : Z := - 2147483648.
Definition INT_MAX : Z := 2147483647.

(** A 32-bit [int] after an arithmetic operation, wrapped into its range. *)
Definition int_wrap (z : Z) : Z := (z + 2147483648) mod 4294967296 - 2147483648.

(** ** Data *)

(** The hook points [finit.c] runs (plugin.h declares more). *)
Inductive hook_point : Type :=
| HOOK_BANNER
| HOOK_ROOTFS_UP
| HOOK_MOUNT_ERROR
| HOOK_MOUNT_POST
| HOOK_BASEFS_UP
| HOOK_SVC_UP
| HOOK_SYSTEM_UP.

Inductive svc_type : Type := SVC_TYPE_ANY.

(** [struct fstab] of <fstab.h>. *)
Record fstab : Type := mk_fstab {
  fs_spec : string;
  fs_file : string;
  fs_vfstype : string;
  fs_mntops : string;
  fs_type : string;
  fs_freq : Z;
  fs_passno : Z
}.

(** [struct wq]: the callback and the delay in milliseconds. *)
Inductive callback : Type := cb_crank_worker | cb_final_worker.

Record wq : Type := mk_wq { cb : callback; delay : Z }.

(** An argument of a log format. *)
Inductive arg : Type := AStr (s : string) | AInt (n : Z).

(** One call leaving [finit.c], with the answer where the code uses it. *)
Inductive event : Type :=
| EvGetpid (pid : Z)
| EvClient
| EvConfParseCmdline
| EvUevInit
| EvSetenv (name value : string)
| EvChdir (path : string)
| EvUmask (mask : Z)
| EvLogIsDebug (r : bool)
| EvScreenInit
| EvFork (pid : Z)
| EvWaitpid (id : Z)
| EvFprintf (msg : string)
| EvSetsid
| EvIoctl
| EvExecl (path : string) (replaced : bool)
| EvPluginInit
| EvHook (h : hook_point)
| EvCallback (h : hook_point) (id : nat)
| EvLogIsSilent (r : bool)
| EvPrintBanner (heading : string)
| EvSigInit
| EvCgroupInit
| EvSetfsent (ok : bool)
| EvEndfsent
| EvStat (spec : string) (isblk : bool)
| EvIsmnt (file dir mode : string) (r : bool)
| EvRunInteractive (cmd desc : string) (rc : Z)
| EvRun (cmd : string)
| EvD (fmt : string) (args : list arg)
| EvPe (msg : string)
| EvPrint (lvl : Z) (msg : string)
| EvConfInit
| EvCondInit
| EvCondSetOneshot (name : string)
| EvSigSetup
| EvConfMonitor
| EvApiInit
| EvScheduleWork (w : wq)
| EvUevRun
| EvSmInit
| EvSmStep
| EvServiceStepAll (t : svc_type)
| EvServiceCompleted (r : bool)
| EvFisdir (path : string) (r : bool)
| EvRunParts (dir : string)
| EvServiceRunlevel (level : Z)
| EvSvcPruneBootstrap
| EvAccess (path : string) (rc : Z)
| EvLogSilent
| EvTtyRunlevel.

Definition history : Type := list event.

(** What is outside [finit.c]: the constants of config.h and paths.h, the
    helpers of libite and plugin.c, the kernel command line, the
    configuration, and the answers of the system.  [env_hooks] lists, per hook
    point, the callbacks the plugins registered, in registration order. *)
Record environment : Type := mk_environment {
  EMERGENCY_SHELL : bool;
  RUNLEVEL : Z;
  INIT_HEADING : string;
  FINIT_RC_LOCAL : string;
  PATH_STDPATH : string;
  PATH_BSHELL : string;
  string_match : string -> string -> bool;
  plugin_hook_str : hook_point -> string;
  env_hooks : hook_point -> list nat;
  env_cmdline_rescue : Z;
  env_conf_runlevel : option Z;
  env_conf_runparts : option string;
  env_getpid : history -> Z;
  env_log_is_debug : history -> bool;
  env_log_is_silent : history -> bool;
  env_fork : history -> Z;
  env_waitpid : history -> Z;
  env_execl : history -> bool;
  env_setfsent : history -> bool;
  env_fstab : history -> list fstab;
  env_stat_isblk : history -> string -> bool;
  env_strerror : history -> string;
  env_ismnt : history -> string -> string -> string -> bool;
  env_run_interactive : history -> string -> Z;
  env_fisdir : history -> string -> bool;
  env_access : history -> string -> Z;
  env_service_completed : history -> bool
}.

(** The globals of [finit.c] that the file reads ([rescue], [cfglevel],
    [runparts]), the static counter [cnt] of [final_worker], the condition
    store ([None] until [cond_init]), and the work queue of the event loop with
    its clock. *)
Record state : Type := mk_state {
  trace : history;
  rescue : Z;
  cfglevel : Z;
  runparts : option string;
  cnt : Z;
  conds : option (list string);
  clock : Z;
  pending : list (Z * wq)
}.

Definition emits (evs : list event) (s : state) : state :=
  mk_state (trace s ++ evs) (rescue s) (cfglevel s) (runparts s) (cnt s)
           (conds s) (clock s) (pending s).

Definition set_rescue (v : Z) (s : state) : state :=
  mk_state (trace s) v (cfglevel s) (runparts s) (cnt s) (conds s) (clock s) (pending s).

Definition set_cfglevel (v : Z) (s : state) : state :=
  mk_state (trace s) (rescue s) v (runparts s) (cnt s) (conds s) (clock s) (pending s).

Definition set_runparts (v : option string) (s : state) : state :=
  mk_state (trace s) (rescue s) (cfglevel s) v (cnt s) (conds s) (clock s) (pending s).

Definition set_cnt (v : Z) (s : state) : state :=
  mk_state (trace s) (rescue s) (cfglevel s) (runparts s) v (conds s) (clock s) (pending s).

Definition set_conds (v : option (list string)) (s : state) : state :=
  mk_state (trace s) (rescue s) (cfglevel s) (runparts s) (cnt s) v (clock s) (pending s).

Definition set_clock (v : Z) (s : state) : state :=
  mk_state (trace s) (rescue s) (cfglevel s) (runparts s) (cnt s) (conds s) v (pending s).

Definition set_pending (v : list (Z * wq)) (s : state) : state :=
  mk_state (trace s) (rescue s) (cfglevel s) (runparts s) (cnt s) (conds s) (clock s) v.

(** ** The state monad *)

Definition M (A : Type) : Type := state -> A * state.

Definition ret {A : Type} (a : A) : M A := fun s => (a, s).

Definition bind {A B : Type} (m : M A) (k : A -> M B) : M B :=
  fun s => let r := m s in k (fst r) (snd r).

Notation "x <- m ;; k" := (bind m (fun x => k))
  (at level 61, m at next level, right associativity).
Notation "m ;; k" := (bind m (fun _ => k))
  (at level 61, right associativity).

Definition gets {A : Type} (f : state -> A) : M A := fun s => (f s, s).
Definition modify (f : state -> state) : M unit := fun s => (tt, f s).
Definition emit (e : event) : M unit := modify (emits [e]).
Definition emit_all (evs : list event) : M unit := modify (emits evs).

(** A call whose answer the code uses: the environment answers from the trace
    so far and the call is recorded with its answer. *)
Definition ask {R : Type} (oracle : history -> R) (ev : R -> event) : M R :=
  fun s => (oracle (trace s), emits [ev (oracle (trace s))] s).

Definition exec {A : Type} (m : M A) (s : state) : state := snd (m s).

(** How a function ends: it returns, the process image is replaced by
    [execl], or the loop it is in is still going when the fuel is spent. *)
Inductive outcome : Type :=
| Returned (s : state)
| Replaced (s : state)
| Waiting (s : state).

Definition outcome_state (o : outcome) : state :=
  match o with Returned s | Replaced s | Waiting s => s end.

(** ** Readings of a trace *)

Definition hook_of (e : event) : list hook_point :=
  match e with EvHook h => [h] | _ => [] end.

(** The hook points run, in order. *)
Definition hooks_fired (tr : history) : list hook_point := flat_map hook_of tr.

Definition is_poll (e : event) : bool :=
  match e with EvServiceCompleted _ => true | _ => false end.

(** The number of evaluations of [service_completed]. *)
Definition polls (tr : history) : nat := List.length (filter is_poll tr).

Definition is_step (e : event) : bool :=
  match e with EvServiceStepAll _ => true | _ => false end.

Definition steps (tr : history) : nat := List.length (filter is_step tr).

Definition FINALIZE_ENTRY : string := "Change to default runlevel, start all services ...".

(** [finalize] logs [FINALIZE_ENTRY] each time it runs, and nothing else in
    the file logs it. *)
Definition is_finalize_entry (e : event) : bool :=
  match e with
  | EvD fmt [] => String.eqb fmt FINALIZE_ENTRY
  | _ => false
  end.

(** The number of runs of [finalize]. *)
Definition finalize_entries (tr : history) : nat := List.length (filter is_finalize_entry tr).

Definition is_cond_init (e : event) : bool :=
  match e with EvCondInit => true | _ => false end.

(** The number of calls of cond_init. *)
Definition cond_inits (tr : history) : nat := List.length (filter is_cond_init tr).

(** [Subseq l tr]: the events of [l] occur in [tr] in the order of [l]. *)
Inductive Subseq : list event -> list event -> Prop :=
| Subseq_nil : forall tr, Subseq [] tr
| Subseq_skip : forall l e tr, Subseq l tr -> Subseq l (e :: tr)
| Subseq_take : forall l e tr, Subseq l tr -> Subseq (e :: l) (e :: tr).

(** ** The functions of finit.c *)

Section Finit.

Variable E : environment.

(** *** Calls that leave the file

    A call to the rest of Finit, to a library or to the system is recorded in
    the trace.  Such a call is taken to leave the globals of the file, the
    counter and the work queue alone, but for the four that are there to change
    them: conf_parse_cmdline, conf_init, the condition store and
    schedule_work. *)

Definition _d (fmt : string) (args : list arg) : M unit := emit (EvD fmt args).
Definition _pe (msg : string) : M unit := emit (EvPe msg).
Definition print (lvl : Z) (msg : string) : M unit := emit (EvPrint lvl msg).
Definition fprintf_stderr (msg : string) : M unit := emit (EvFprintf msg).

(** Modelled from the spec: plugin_run_hooks of plugin.c, which is not part of
    the file.  It runs the callbacks registered for the hook point, one after
    the other, in registration order. *)
Definition plugin_run_hooks (h : hook_point) : M unit :=
  emit (EvHook h) ;; emit_all (map (EvCallback h) (env_hooks E h)).

Definition log_is_silent : M bool := ask (env_log_is_silent E) EvLogIsSilent.
Definition log_is_debug : M bool := ask (env_log_is_debug E) EvLogIsDebug.
Definition print_banner (heading : string) : M unit := emit (EvPrintBanner heading).

Definition setfsent : M bool := ask (env_setfsent E) EvSetfsent.
Definition endfsent : M unit := emit EvEndfsent.

(** The entries the successive calls of getfsent return, up to the NULL. *)
Definition getfsent_all : M (list fstab) := gets (fun s => env_fstab E (trace s)).

(** [stat(spec, &st) || !S_ISBLK(st.st_mode)] is false exactly when the
    answer is [true]: the path exists and is a block device. *)
Definition stat_isblk (spec : string) : M bool :=
  ask (fun h => env_stat_isblk E h spec) (EvStat spec).

Definition strerror_errno : M string := gets (fun s => env_strerror E (trace s)).

Definition ismnt (file dir mode : string) : M bool :=
  ask (fun h => env_ismnt E h file dir mode) (EvIsmnt file dir mode).

(** [run_interactive(cmd, fmt, ...)]: runs [cmd] while showing the progress
    text [desc], and returns the exit status. *)
Definition run_interactive (cmd desc : string) : M Z :=
  ask (fun h => env_run_interactive E h cmd) (EvRunInteractive cmd desc).

Definition run (cmd : string) : M unit := emit (EvRun cmd).
Definition umask (mask : Z) : M unit := emit (EvUmask mask).

Definition fisdir (path : string) : M bool :=
  ask (fun h => env_fisdir E h path) (EvFisdir path).

(** [access(path, X_OK)]: 0 when the file may be executed. *)
Definition access_X_OK (path : string) : M Z :=
  ask (fun h => env_access E h path) (EvAccess path).

Definition run_parts (dir : string) : M unit := emit (EvRunParts dir).
Definition service_runlevel (level : Z) : M unit := emit (EvServiceRunlevel level).
Definition svc_prune_bootstrap : M unit := emit EvSvcPruneBootstrap.
Definition service_step_all (t : svc_type) : M unit := emit (EvServiceStepAll t).
Definition service_completed : M bool := ask (env_service_completed E) EvServiceCompleted.
Definition log_silent : M unit := emit EvLogSilent.
Definition tty_runlevel : M unit := emit EvTtyRunlevel.
Definition sm_init : M unit := emit EvSmInit.
Definition sm_step : M unit := emit EvSmStep.

(** Modelled from the spec: schedule_work of schedule.c, which is not part of
    the file.  The item is queued, never run inline; it becomes due [delay]
    milliseconds from now and the event loop runs the pending items by due
    time, items due at the same time in the order they were submitted. *)
Fixpoint enqueue (due : Z) (w : wq) (q : list (Z * wq)) : list (Z * wq) :=
  match q with
  | [] => [(due, w)]
  | (t, w') :: q' =>
      if due <? t then (due, w) :: q else (t, w') :: enqueue due w q'
  end.

Definition schedule_work (w : wq) : M unit :=
  emit (EvScheduleWork w) ;;
  modify (fun s => set_pending (enqueue (clock s + delay w) w (pending s)) s).

(** Modelled from the spec: conf_parse_cmdline of conf.c, which is not part of
    the file.  It reads the kernel command line; of what it sets, the file uses
    the rescue flag. *)
Definition conf_parse_cmdline : M unit :=
  emit EvConfParseCmdline ;; modify (set_rescue (env_cmdline_rescue E)).

(** Modelled from the spec: conf_init of conf.c, which is not part of the
    file.  It loads the static /etc/finit.conf; the configured runlevel
    replaces the compiled default when the configuration gives one, and the
    run-parts directory is set when the configuration names one. *)
Definition conf_init : M unit :=
  emit EvConfInit ;;
  modify (fun s =>
            set_runparts (env_conf_runparts E)
              (set_cfglevel (match env_conf_runlevel E with
                             | Some l => l
                             | None => cfglevel s
                             end) s)).

(** Modelled from the spec: the condition store of cond.c, which is not part
    of the file.  [cond_init] creates the empty store, [cond_set_oneshot]
    marks a name as set, once and for all, and [cond_is_set] is the pure
    query. *)
Definition cond_init : M unit :=
  emit EvCondInit ;; modify (set_conds (Some [])).

Definition cond_set_oneshot (name : string) : M unit :=
  emit (EvCondSetOneshot name) ;;
  modify (fun s =>
            set_conds (match conds s with
                       | Some l => Some (if existsb (String.eqb name) l then l
                                         else name :: l)
                       | None => None
                       end) s).

Definition cond_is_set (name : string) (s : state) : bool :=
  match conds s with
  | Some l => existsb (String.eqb name) l
  | None => false
  end.

(** *** banner *)

Definition banner : M unit :=
  plugin_run_hooks HOOK_BANNER ;;
  silent <- log_is_silent ;;
  if silent then ret tt
  else print_banner (INIT_HEADING E).

(** *** fsck *)

(** [snprintf(cmd, size, ...)] keeps at most [size - 1] characters. *)
Definition snprintf (size : nat) (text : string) : string :=
  String.substring 0 (size - 1) text.

(** The body of the [while ((fs = getfsent()))] loop of [fsck], over the
    entries still to come; [rc] is the sum so far. *)
Fixpoint fsck_entries (pass : Z) (entries : list fstab) (rc : Z) : M Z :=
  match entries with
  | [] => ret rc
  | fs :: rest =>
      if negb (fs_passno fs =? pass) then fsck_entries pass rest rc
      else
        isblk <- stat_isblk (fs_spec fs) ;;
        if negb isblk
           && (negb (string_match E (fs_spec fs) "UUID=")
               && negb (string_match E (fs_spec fs) "LABEL="))
        then
          err <- strerror_errno ;;
          _d "Cannot fsck %s, not a block device: %s" [AStr (fs_spec fs); AStr err] ;;
          fsck_entries pass rest rc
        else
          mounted <- ismnt "/proc/mounts" (fs_file fs) "rw" ;;
          if mounted then
            _d "Skipping fsck of %s, already mounted rw on %s."
               [AStr (fs_spec fs); AStr (fs_file fs)] ;;
            fsck_entries pass rest rc
          else
            r <- run_interactive
                   (snprintf 80 (String.append "fsck -a " (fs_spec fs)))
                   (String.append "Checking filesystem "
                                  (String.substring 0 13 (fs_spec fs))) ;;
            fsck_entries pass rest (int_wrap (rc + r))
  end.

Definition fsck (pass : Z) : M Z :=
  ok <- setfsent ;;
  if negb ok then
    _pe "Failed opening fstab" ;;
    ret 1
  else
    entries <- getfsent_all ;;
    rc <- fsck_entries pass entries 0 ;;
    endfsent ;;
    ret rc.

(** *** fsck_all *)

(** [for (pass = ...; pass < 10; pass++)], with [todo] the number of values of
    [pass] still below 10. *)
Fixpoint fsck_passes (todo : nat) (pass : Z) (rc : Z) : M Z :=
  match todo with
  | O => ret rc
  | S todo' =>
      rc' <- fsck pass ;;
      if negb (rc' =? 0) then ret rc'
      else fsck_passes todo' (pass + 1) rc'
  end.

Definition fsck_all : M Z := fsck_passes (Z.to_nat (10 - 1)) 1 0.

(** *** fs_remount_root (the variant without SYSROOT) *)

Definition is_root (fs : fstab) : bool := String.eqb (fs_file fs) "/".

Definition fs_remount_root (fsckerr : Z) : M unit :=
  ok <- setfsent ;;
  if negb ok then ret tt
  else
    entries <- getfsent_all ;;
    match find is_root entries with
    | None => endfsent
    | Some fs =>
        if String.eqb (fs_type fs) "ro" then endfsent
        else
          (if negb (fsckerr =? 0)
           then print 1 "Cannot remount / as read-write, fsck failed before"%string
           else run_interactive "mount -n -o remount,rw /"
                                "Remounting / as read-write" ;; ret tt) ;;
          endfsent
    end.

(** *** fs_init *)

Definition fs_init : M unit :=
  r <- gets rescue ;;
  (if r =? 0 then
     fsckerr <- fsck_all ;;
     fs_remount_root fsckerr
   else ret tt) ;;
  _d "Root FS up, calling hooks ..." [] ;;
  plugin_run_hooks HOOK_ROOTFS_UP ;;
  rc <- run_interactive "mount -na" "Mounting filesystems" ;;
  (if negb (rc =? 0) then plugin_run_hooks HOOK_MOUNT_ERROR else ret tt) ;;
  _d "Calling extra mount hook, after mount -a ..." [] ;;
  plugin_run_hooks HOOK_MOUNT_POST ;;
  run "swapon -ea" ;;
  umask 18.

(** *** emergency_shell *)

Definition fork : M Z := ask (env_fork E) EvFork.

(** [waitpid(-1, NULL, WNOHANG)]. *)
Definition waitpid : M Z := ask (env_waitpid E) EvWaitpid.

(** The [while (1)] loop of [emergency_shell]: it ends when [waitpid] answers
    [pid]; [Waiting] when the fuel is spent before that. *)
Fixpoint reap (fuel : nat) (pid : Z) (s : state) : outcome :=
  match fuel with
  | O => Waiting s
  | S fuel' =>
      let r := waitpid s in
      if fst r =? pid then Returned (snd r)
      else reap fuel' pid (snd r)
  end.

(** The line feed, and the two lines the process prints on stderr before it
    starts the shell. *)
Definition LF : string := String (Ascii.ascii_of_nat 10) EmptyString.

Definition MSG_CRASHED : string :=
  String.append LF
    (String.append "=> Embarrassingly, Finit has crashed.  Check /dev/kmsg for details." LF).

Definition MSG_DEBUG_HINT : string :=
  String.append "=> To debug, add 'debug' to the kernel command line."
    (String.append LF LF).

(** [execl(path, path, NULL)]: the answer is [true] when the image of the
    process is replaced, and then the call does not return; [false] when execl
    fails and returns. *)
Definition execl (path : string) : M bool := ask (env_execl E) (EvExecl path).

(** What the process that waited does once the loop has ended; the result is
    the answer of execl. *)
Definition become_shell : M bool :=
  fprintf_stderr MSG_CRASHED ;;
  fprintf_stderr MSG_DEBUG_HINT ;;
  emit EvSetsid ;;
  emit EvIoctl ;;
  execl (PATH_BSHELL E).

(** The body is compiled in only with EMERGENCY_SHELL.  [fork] answers the
    child's pid (or -1) in the parent and 0 in the child.  Nothing follows
    execl in the source: when it fails, the function returns like in the
    child. *)
Definition emergency_shell (fuel : nat) (s : state) : outcome :=
  if EMERGENCY_SHELL E then
    let r := fork s in
    if negb (fst r =? 0) then
      match reap fuel (fst r) (snd r) with
      | Returned s' =>
          let x := become_shell s' in
          if fst x then Replaced (snd x) else Returned (snd x)
      | o => o
      end
    else Returned (snd r)
  else Returned s.

(** *** finalize *)

Definition finalize : M unit :=
  rp <- gets runparts ;;
  (match rp with
   | Some dir =>
       isdir <- fisdir dir ;;
       r <- gets rescue ;;
       if isdir && (r =? 0) then run_parts dir else ret tt
   | None => ret tt
   end) ;;
  _d FINALIZE_ENTRY [] ;;
  level <- gets cfglevel ;;
  service_runlevel level ;;
  _d "Clean up all bootstrap-only tasks/services ..." [] ;;
  svc_prune_bootstrap ;;
  _d "Running svc up hooks ..." [] ;;
  plugin_run_hooks HOOK_SVC_UP ;;
  service_step_all SVC_TYPE_ANY ;;
  a <- access_X_OK (FINIT_RC_LOCAL E) ;;
  r <- gets rescue ;;
  (if (a =? 0) && (r =? 0)
   then run_interactive (FINIT_RC_LOCAL E)
                        (String.append "Calling " (FINIT_RC_LOCAL E)) ;; ret tt
   else ret tt) ;;
  _d "Calling all system up hooks ..." [] ;;
  plugin_run_hooks HOOK_SYSTEM_UP ;;
  service_step_all SVC_TYPE_ANY ;;
  _d "Going silent ..." [] ;;
  log_silent ;;
  _d "Launching all getty services ..." [] ;;
  tty_runlevel.

(** *** crank_worker *)

Definition crank_worker : M unit :=
  sm_init ;;
  sm_step.

(** *** final_worker *)

Definition MSG_COMPLETED : string := "All run/task have completed, resuming bootstrap.".
Definition MSG_TIMEOUT : string := "Timeout, resuming bootstrap.".

(** [cnt-- > 0 && !service_completed()]: the counter is decremented first,
    and the predicate is called only when the old value was positive. *)
Definition final_worker (work : wq) : M unit :=
  _d "Step all services ..." [] ;;
  service_step_all SVC_TYPE_ANY ;;
  old <- gets cnt ;;
  modify (set_cnt (int_wrap (old - 1))) ;;
  again <- (if 0 <? old
            then completed <- service_completed ;; ret (negb completed)
            else ret false) ;;
  if again then
    c <- gets cnt ;;
    _d "Not all bootstrap run/tasks have completed yet ... %d" [AInt c] ;;
    schedule_work work
  else
    c <- gets cnt ;;
    (if 0 <? c then _d MSG_COMPLETED [] else _d MSG_TIMEOUT []) ;;
    finalize.

(** *** The event loop *)

Definition run_callback (w : wq) : M unit :=
  match cb w with
  | cb_crank_worker => crank_worker
  | cb_final_worker => final_worker w
  end.

(** Modelled from the spec: uev_run of libuEv with the work queue of
    schedule.c, neither part of the file.  Each turn takes the pending item
    that is due first off the queue, moves the clock to its due time and runs
    its callback once.  The loop itself has no end: [Returned] stands for the
    idle loop, with no item pending, and [Waiting] for a loop with work left
    after [fuel] turns. *)
Fixpoint uev_run (fuel : nat) (s : state) : outcome :=
  match pending s with
  | [] => Returned s
  | (due, w) :: rest =>
      match fuel with
      | O => Waiting s
      | S fuel' =>
          uev_run fuel'
            (exec (run_callback w)
                  (set_clock (Z.max (clock s) due) (set_pending rest s)))
      end
  end.

(** *** main *)

Definition crank : wq := {| cb := cb_crank_worker; delay := 0 |}.
Definition final : wq := {| cb := cb_final_worker; delay := 1000 |}.

Definition getpid : M Z := ask (env_getpid E) EvGetpid.
Definition client : M unit := emit EvClient.

(** From [conf_parse_cmdline] to [screen_init]. *)
Definition main_setup : M unit :=
  conf_parse_cmdline ;;
  emit EvUevInit ;;
  emit (EvSetenv "PATH" (PATH_STDPATH E)) ;;
  emit (EvSetenv "SHELL" (PATH_BSHELL E)) ;;
  emit (EvChdir "/") ;;
  umask 0 ;;
  r <- gets rescue ;;
  if r =? 0 then
    debug <- log_is_debug ;;
    if negb debug then emit EvScreenInit else ret tt
  else ret tt.

(** From [plugin_init] to the last line before [uev_run]. *)
Definition main_boot : M unit :=
  emit EvPluginInit ;;
  banner ;;
  emit EvSigInit ;;
  emit EvCgroupInit ;;
  fs_init ;;
  conf_init ;;
  cond_init ;;
  cond_set_oneshot (plugin_hook_str E HOOK_BANNER) ;;
  cond_set_oneshot (plugin_hook_str E HOOK_ROOTFS_UP) ;;
  emit EvSigSetup ;;
  _d "Base FS up, calling hooks ..." [] ;;
  plugin_run_hooks HOOK_BASEFS_UP ;;
  emit EvConfMonitor ;;
  _d "Starting initctl API responder ..." [] ;;
  emit EvApiInit ;;
  umask 18 ;;
  _d "Starting the big state machine ..." [] ;;
  schedule_work crank ;;
  _d "Starting bootstrap finalize timer ..." [] ;;
  schedule_work final ;;
  _d "Entering main loop ..." [] ;;
  emit EvUevRun.

Definition main (wait_fuel loop_fuel : nat) (s0 : state) : outcome :=
  let r := getpid s0 in
  if negb (fst r =? 1) then Returned (exec client (snd r))
  else
    match emergency_shell wait_fuel (exec main_setup (snd r)) with
    | Returned s => uev_run loop_fuel (exec main_boot s)
    | o => o
    end.

(** The state at process start, as the initialisers of the file give it. *)
Definition initial_state : state :=
  {| trace := []; rescue := 0; cfglevel := RUNLEVEL E; runparts := None;
     cnt := 120; conds := None; clock := 0; pending := [] |}.

End Finit.

(** ** The traces of the straight-line functions

    The events each function adds, written out in their order; the answers of
    the environment are arguments. *)

(** plugin_run_hooks. *)
Definition hook_events (E : environment) (h : hook_point) : list event :=
  EvHook h :: map (EvCallback h) (env_hooks E h).

(** The first statement of [finalize]. *)
Definition runparts_events (rp : option string) (resc : Z) (isdir : bool) : list event :=
  match rp with
  | Some dir => EvFisdir dir isdir :: (if isdir && (resc =? 0) then [EvRunParts dir] else [])
  | None => []
  end.

(** The rc.local statement of [finalize]; [a] is the answer of access and
    [rc] the exit status of the script. *)
Definition rc_local_events (E : environment) (resc a rc : Z) : list event :=
  EvAccess (FINIT_RC_LOCAL E) a
  :: (if (a =? 0) && (resc =? 0)
      then [EvRunInteractive (FINIT_RC_LOCAL E)
                             (String.append "Calling " (FINIT_RC_LOCAL E)) rc]
      else []).

(** [finalize]. *)
Definition finalize_events (E : environment) (rp : option string) (resc level : Z)
    (isdir : bool) (a rc : Z) : list event :=
  runparts_events rp resc isdir
  ++ [EvD FINALIZE_ENTRY [];
      EvServiceRunlevel level;
      EvD "Clean up all bootstrap-only tasks/services ..." [];
      EvSvcPruneBootstrap;
      EvD "Running svc up hooks ..." []]
  ++ hook_events E HOOK_SVC_UP
  ++ [EvServiceStepAll SVC_TYPE_ANY]
  ++ rc_local_events E resc a rc
  ++ [EvD "Calling all system up hooks ..." []]
  ++ hook_events E HOOK_SYSTEM_UP
  ++ [EvServiceStepAll SVC_TYPE_ANY;
      EvD "Going silent ..." [];
      EvLogSilent;
      EvD "Launching all getty services ..." [];
      EvTtyRunlevel].

(** The two lines every run of [final_worker] starts with. *)
Definition step_events : list event :=
  [EvD "Step all services ..." []; EvServiceStepAll SVC_TYPE_ANY].

(** One run of [final_worker] that polls, is answered no, and resubmits
    itself; [c] is the counter the run starts with. *)
Definition poll_round (w : wq) (c : Z) : list event :=
  step_events
  ++ [EvServiceCompleted false;
      EvD "Not all bootstrap run/tasks have completed yet ... %d" [AInt (c - 1)];
      EvScheduleWork w].

Fixpoint poll_rounds (w : wq) (n : nat) (c : Z) : list event :=
  match n with
  | O => []
  | S n' => poll_round w c ++ poll_rounds w n' (c - 1)
  end.

(** The trace at the moment of the poll number [i + 1] of a gate that was
    started in [s] and answered no [i] times. *)
Definition poll_history (w : wq) (s : state) (i : nat) : history :=
  trace s ++ poll_rounds w i (cnt s) ++ step_events.

(** The state in which [final_worker] polls or gives up: after the step and
    the decrement of the counter. *)
Definition stepped (s : state) : state :=
  set_cnt (int_wrap (cnt s - 1)) (emits step_events s).

(** The message [final_worker] logs before [finalize], from the counter as it
    is after the decrement. *)
Definition resume_message (c : Z) : string :=
  if 0 <? c then MSG_COMPLETED else MSG_TIMEOUT.

(** The weakest precondition of a computation: the postcondition at its
    result. *)
Definition wp {A : Type} (m : M A) (s : state) (Q : A -> state -> Prop) : Prop :=
  Q (fst (m s)) (snd (m s)).

(** ** The vocabulary of the statements *)

(** [fsck] for each pass of a list in turn, without the early exit of
    [fsck_all], with the result of every pass. *)
Fixpoint fsck_each (E : environment) (passes : list Z) : M (list Z) :=
  match passes with
  | [] => ret []
  | pass :: rest =>
      rc <- fsck E pass ;;
      rcs <- fsck_each E rest ;;
      ret (rc :: rcs)
  end.

(** The passes [first], [first + 1], ..., [n] of them. *)
Definition pass_range (first : Z) (n : nat) : list Z :=
  map (fun i => first + Z.of_nat i) (seq 0 n).

(** Whether fstab lists / with a type other than "ro". *)
Definition root_writable (entries : list fstab) : bool :=
  match find is_root entries with
  | Some fs => negb (String.eqb (fs_type fs) "ro")
  | None => false
  end.

Definition MSG_NO_REMOUNT : string := "Cannot remount / as read-write, fsck failed before".

(** [fs_remount_root]; [ok] is the answer of setfsent, [entries] what
    getfsent returns and [rc] the exit status of the remount. *)
Definition remount_events (fsckerr : Z) (ok : bool) (entries : list fstab) (rc : Z)
  : list event :=
  EvSetfsent ok
  :: (if ok then
        (if root_writable entries then
           if fsckerr =? 0
           then [EvRunInteractive "mount -n -o remount,rw /" "Remounting / as read-write" rc]
           else [EvPrint 1 MSG_NO_REMOUNT]
         else [])
        ++ [EvEndfsent]
      else []).

(** [fs_init] from the rootfs-up hook on; [rc] is the exit status of
    mount -na. *)
Definition mount_events (E : environment) (rc : Z) : list event :=
  [EvD "Root FS up, calling hooks ..." []]
  ++ hook_events E HOOK_ROOTFS_UP
  ++ [EvRunInteractive "mount -na" "Mounting filesystems" rc]
  ++ (if rc =? 0 then [] else hook_events E HOOK_MOUNT_ERROR)
  ++ [EvD "Calling extra mount hook, after mount -a ..." []]
  ++ hook_events E HOOK_MOUNT_POST
  ++ [EvRun "swapon -ea"; EvUmask 18].

(** A stretch of trace without a hook, a poll, a step, a run of [finalize]
    or a call of cond_init. *)
Definition quiet (evs : list event) : Prop :=
  polls evs = 0%nat /\ steps evs = 0%nat
  /\ finalize_entries evs = 0%nat /\ hooks_fired evs = []
  /\ cond_inits evs = 0%nat.

(** [main] from [conf_parse_cmdline] to [screen_init]; [resc] is the rescue
    flag of the command line and [debug] the answer of log_is_debug. *)
Definition setup_events (E : environment) (resc : Z) (debug : bool) : list event :=
  [EvConfParseCmdline;
   EvUevInit;
   EvSetenv "PATH" (PATH_STDPATH E);
   EvSetenv "SHELL" (PATH_BSHELL E);
   EvChdir "/";
   EvUmask 0]
  ++ (if resc =? 0
      then EvLogIsDebug debug :: (if debug then [] else [EvScreenInit])
      else []).

(** [banner]; [silent] is the answer of log_is_silent. *)
Definition banner_events (E : environment) (silent : bool) : list event :=
  hook_events E HOOK_BANNER
  ++ EvLogIsSilent silent
  :: (if silent then [] else [EvPrintBanner (INIT_HEADING E)]).

(** [main] from [conf_init] to the last line before [uev_run]. *)
Definition config_events (E : environment) : list event :=
  [EvConfInit;
   EvCondInit;
   EvCondSetOneshot (plugin_hook_str E HOOK_BANNER);
   EvCondSetOneshot (plugin_hook_str E HOOK_ROOTFS_UP);
   EvSigSetup;
   EvD "Base FS up, calling hooks ..." []]
  ++ hook_events E HOOK_BASEFS_UP
  ++ [EvConfMonitor;
      EvD "Starting initctl API responder ..." [];
      EvApiInit;
      EvUmask 18;
      EvD "Starting the big state machine ..." [];
      EvScheduleWork crank;
      EvD "Starting bootstrap finalize timer ..." [];
      EvScheduleWork final;
      EvD "Entering main loop ..." [];
      EvUevRun].

(** [main_boot]; [fsevs] are the events of the checks and of the remount. *)
Definition boot_events (E : environment) (silent : bool) (fsevs : list event) (rc : Z)
  : list event :=
  [EvPluginInit]
  ++ banner_events E silent
  ++ [EvSigInit; EvCgroupInit]
  ++ fsevs
  ++ mount_events E rc
  ++ config_events E.

(** [config_events] from the event after cond_init on. *)
Definition after_cond_init (E : environment) : list event := skipn 2 (config_events E).

(** [boot_events] up to the event before cond_init. *)
Definition before_cond_init (E : environment) (silent : bool) (fsevs : list event) (rc : Z)
  : list event :=
  [EvPluginInit]
  ++ banner_events E silent
  ++ [EvSigInit; EvCgroupInit]
  ++ fsevs
  ++ mount_events E rc
  ++ [EvConfInit].

(** The condition store after the two [cond_set_oneshot] of [main]. *)
Definition boot_conds (E : environment) : list string :=
  if String.eqb (plugin_hook_str E HOOK_ROOTFS_UP) (plugin_hook_str E HOOK_BANNER)
  then [plugin_hook_str E HOOK_BANNER]
  else [plugin_hook_str E HOOK_ROOTFS_UP; plugin_hook_str E HOOK_BANNER].

(** What [emergency_shell] adds in the process that goes on with the boot:
    nothing without EMERGENCY_SHELL, the fork seen from the child with it. *)
Definition fork_events (E : environment) : list event :=
  if EMERGENCY_SHELL E then [EvFork 0] else [].

(** The process goes on with the boot after [emergency_shell]: the body is
    not compiled in, or the process is the child of the fork. *)
Definition continues (E : environment) : Prop :=
  EMERGENCY_SHELL E = false \/ forall h, env_fork E h = 0.

(** The hook points of the boot, up to the event loop; [rc] is the exit
    status of mount -na. *)
Definition boot_hooks (rc : Z) : list hook_point :=
  [HOOK_BANNER; HOOK_ROOTFS_UP]
  ++ (if rc =? 0 then [] else [HOOK_MOUNT_ERROR])
  ++ [HOOK_MOUNT_POST; HOOK_BASEFS_UP].

(** The calls of [main] that mark the boot phases, in the order of the
    source: the baseline of the environment, the loading of the plugins, the
    banner, the priming of the signals, the control groups, the filesystem
    phase, the configuration phase, the watcher and the API responder, the two
    work items, the event loop. *)
Definition boot_order (E : environment) : list event :=
  [EvConfParseCmdline;
   EvUevInit;
   EvSetenv "PATH" (PATH_STDPATH E);
   EvSetenv "SHELL" (PATH_BSHELL E);
   EvChdir "/";
   EvUmask 0;
   EvPluginInit;
   EvHook HOOK_BANNER;
   EvSigInit;
   EvCgroupInit;
   EvHook HOOK_ROOTFS_UP;
   EvHook HOOK_MOUNT_POST;
   EvRun "swapon -ea";
   EvUmask 18;
   EvConfInit;
   EvCondInit;
   EvCondSetOneshot (plugin_hook_str E HOOK_BANNER);
   EvCondSetOneshot (plugin_hook_str E HOOK_ROOTFS_UP);
   EvSigSetup;
   EvHook HOOK_BASEFS_UP;
   EvConfMonitor;
   EvApiInit;
   EvUmask 18;
   EvScheduleWork crank;
   EvScheduleWork final;
   EvUevRun].

(** The order the configuration phase would have with the configuration of
    the directory parsed before the condition store is set up.  In [main] the
    static /etc/finit.conf is loaded by conf_init, and the .conf files of
    /etc/finit.d are read by conf_monitor. *)
Definition config_order_directory_first : list event :=
  [EvConfInit; EvConfMonitor; EvCondInit; EvSigSetup; EvHook HOOK_BASEFS_UP].

(** The first [n] answers of waitpid, asked one after the other from the
    history [h] on. *)
Fixpoint wait_events (E : environment) (n : nat) (h : history) : list event :=
  match n with
  | O => []
  | S n' =>
      EvWaitpid (env_waitpid E h)
      :: wait_events E n' (h ++ [EvWaitpid (env_waitpid E h)])
  end.

(** The answer number [i + 1] of waitpid in the parent of the fork made in
    [s], when the fork answered [pid]. *)
Definition wait_answer (E : environment) (s : state) (pid : Z) (i : nat) : Z :=
  env_waitpid E ((trace s ++ [EvFork pid]) ++ wait_events E i (trace s ++ [EvFork pid])).

(** What [become_shell] adds before execl, and with it; [ok] is the answer
    of execl. *)
Definition shell_prelude : list event :=
  [EvFprintf MSG_CRASHED; EvFprintf MSG_DEBUG_HINT; EvSetsid; EvIoctl].

Definition shell_events (E : environment) (ok : bool) : list event :=
  shell_prelude ++ [EvExecl (PATH_BSHELL E) ok].

(** The two events by which [finalize] runs scripts: run_parts and
    run_interactive. *)
Definition runs_script (e : event) : bool :=
  match e with
  | EvRunParts _ | EvRunInteractive _ _ _ => true
  | _ => false
  end.

(** The environment [E] with [f] in the place of the answers of
    service_completed. *)
Definition with_service_completed (f : history -> bool) (E : environment) : environment :=
  {| EMERGENCY_SHELL := EMERGENCY_SHELL E;
     RUNLEVEL := RUNLEVEL E;
     INIT_HEADING := INIT_HEADING E;
     FINIT_RC_LOCAL := FINIT_RC_LOCAL E;
     PATH_STDPATH := PATH_STDPATH E;
     PATH_BSHELL := PATH_BSHELL E;
     string_match := string_match E;
     plugin_hook_str := plugin_hook_str E;
     env_hooks := env_hooks E;
     env_cmdline_rescue := env_cmdline_rescue E;
     env_conf_runlevel := env_conf_runlevel E;
     env_conf_runparts := env_conf_runparts E;
     env_getpid := env_getpid E;
     env_log_is_debug := env_log_is_debug E;
     env_log_is_silent := env_log_is_silent E;
     env_fork := env_fork E;
     env_waitpid := env_waitpid E;
     env_execl := env_execl E;
     env_setfsent := env_setfsent E;
     env_fstab := env_fstab E;
     env_stat_isblk := env_stat_isblk E;
     env_strerror := env_strerror E;
     env_ismnt := env_ismnt E;
     env_run_interactive := env_run_interactive E;
     env_fisdir := env_fisdir E;
     env_access := env_access E;
     env_service_completed := f |}.

(** The answer of the last poll of a trace, with the events after it. *)
Fixpoint last_poll (tr : history) : option (bool * list event) :=
  match tr with
  | [] => None
  | e :: rest =>
      match last_poll rest with
      | Some r => Some r
      | None =>
          match e with
          | EvServiceCompleted b => Some (b, rest)
          | _ => None
          end
      end
  end.

(** Equality of events is decidable, and so is [Subseq]. *)
Definition arg_eq_dec (a b : arg) : {a = b} + {a <> b}.
Proof. decide equality; [apply string_dec | apply Z.eq_dec]. Defined.

Definition event_eq_dec (a b : event) : {a = b} + {a <> b}.
Proof.
  decide equality;
    try apply Z.eq_dec; try apply string_dec; try apply Bool.bool_dec;
    try apply Nat.eq_dec; try apply (list_eq_dec arg_eq_dec);
    decide equality; try apply Z.eq_dec; decide equality.
Defined.

Fixpoint subseqb (l tr : list event) : bool :=
  match l, tr with
  | [], _ => true
  | _ :: _, [] => false
  | x :: l', e :: tr' =>
      if event_eq_dec x e then subseqb l' tr' else subseqb l tr'
  end.

(** ** Sample environments *)

Definition sample_hook_str (h : hook_point) : string :=
  match h with
  | HOOK_BANNER => "hook/banner"
  | HOOK_ROOTFS_UP => "hook/rootfs/up"
  | HOOK_MOUNT_ERROR => "hook/mount/error"
  | HOOK_MOUNT_POST => "hook/mount/post"
  | HOOK_BASEFS_UP => "hook/basefs/up"
  | HOOK_SVC_UP => "hook/svc/up"
  | HOOK_SYSTEM_UP => "hook/system/up"
  end.

(** A machine on which every file is there and every question is answered
    the same way each time, but for what the arguments give: whether the
    emergency shell is compiled in, the rescue flag of the command line, the
    answers of fork and waitpid, the fstab, the exit status of each command and
    the answers of service_completed.  One plugin callback is registered on
    the banner hook and two on the system-up hook, and execl succeeds. *)
Definition sample_env (emergency : bool) (resc fork_answer : Z)
    (waitpid_answer : history -> Z) (table : list fstab) (status : string -> Z)
    (completed : history -> bool) : environment :=
  {| EMERGENCY_SHELL := emergency;
     RUNLEVEL := 2;
     INIT_HEADING := "Finit";
     FINIT_RC_LOCAL := "/etc/rc.local";
     PATH_STDPATH := "/usr/bin:/bin:/usr/sbin:/sbin";
     PATH_BSHELL := "/bin/sh";
     string_match := fun a b => String.prefix b a;
     plugin_hook_str := sample_hook_str;
     env_hooks := fun h => match h with
                           | HOOK_BANNER => [0%nat]
                           | HOOK_SYSTEM_UP => [1%nat; 2%nat]
                           | _ => []
                           end;
     env_cmdline_rescue := resc;
     env_conf_runlevel := Some 3;
     env_conf_runparts := Some "/etc/start.d"%string;
     env_getpid := fun _ => 1;
     env_log_is_debug := fun _ => false;
     env_log_is_silent := fun _ => false;
     env_fork := fun _ => fork_answer;
     env_waitpid := waitpid_answer;
     env_execl := fun _ => true;
     env_setfsent := fun _ => true;
     env_fstab := fun _ => table;
     env_stat_isblk := fun _ _ => true;
     env_strerror := fun _ => "Success"%string;
     env_ismnt := fun _ _ _ _ => false;
     env_run_interactive := fun _ cmd => status cmd;
     env_fisdir := fun _ _ => true;
     env_access := fun _ _ => 0;
     env_service_completed := completed |}.

(** / on /dev/sda1, checked in pass 1, and /home on /dev/sda2, checked in
    pass 2; [root_type] is the fs_type of /, "rw" or "ro". *)
Definition sample_fstab (root_type : string) : list fstab :=
  [ {| fs_spec := "/dev/sda1"; fs_file := "/"; fs_vfstype := "ext4";
       fs_mntops := root_type; fs_type := root_type; fs_freq := 0; fs_passno := 1 |};
    {| fs_spec := "/dev/sda2"; fs_file := "/home"; fs_vfstype := "ext4";
       fs_mntops := "rw"; fs_type := "rw"; fs_freq := 0; fs_passno := 2 |} ].

(** Every command succeeds. *)
Definition all_fine (cmd : string) : Z := 0.

(** The check of /dev/sda1 ends with status 4, every other command
    succeeds. *)
Definition sda1_damaged (cmd : string) : Z :=
  if String.eqb cmd "fsck -a /dev/sda1" then 4 else 0.

(** service_completed answers yes from poll number [k] on. *)
Definition completed_from (k : nat) (h : history) : bool := (k <=? S (polls h))%nat.

Definition never_completed (h : history) : bool := false.

(** waitpid answers 0 twice and [pid] from then on. *)
Definition child_ends_at_third (pid : Z) (h : history) : Z :=
  if (2 <=? List.length (filter (fun e => match e with EvWaitpid _ => true | _ => false end) h))%nat
  then pid else 0.

(** The usual machine: no emergency shell, no rescue, a clean fstab. *)
Definition plain_env (completed : history -> bool) : environment :=
  sample_env false 0 0 (fun _ => 0) (sample_fstab "rw") all_fine completed.

(** A gate about to run with [budget] attempts left: only the work item
    [final] is pending. *)
Definition gate_state (budget : Z) : state :=
  {| trace := []; rescue := 0; cfglevel := 2; runparts := None;
     cnt := budget; conds := Some []; clock := 0; pending := [(1000, final)] |}.

(** ** The vocabulary of the further properties *)

Definition is_fstab_open (e : event) : bool :=
  match e with EvSetfsent true => true | _ => false end.

(** The number of times setfsent opened fstab. *)
Definition fstab_opens (tr : history) : nat := List.length (filter is_fstab_open tr).

Definition is_fstab_close (e : event) : bool :=
  match e with EvEndfsent => true | _ => false end.

(** The number of calls of endfsent. *)
Definition fstab_closes (tr : history) : nat := List.length (filter is_fstab_close tr).

Definition status_of (e : event) : Z :=
  match e with EvRunInteractive _ _ rc => rc | _ => 0 end.

(** The sum of the exit statuses of the commands run_interactive ran. *)
Definition status_sum (evs : list event) : Z :=
  fold_right (fun e acc => status_of e + acc) 0 evs.

Definition is_run_interactive (e : event) : bool :=
  match e with EvRunInteractive _ _ _ => true | _ => false end.

(** The number of commands run through run_interactive. *)
Definition commands (tr : history) : nat := List.length (filter is_run_interactive tr).

(** What the loop of [fsck] may add to the trace: the stat of an entry, the
    question whether it is mounted, one of the two debug lines, and the check
    itself, whose command is cut by snprintf and whose status is an answer of
    the environment. *)
Inductive fsck_loop_event (E : environment) : event -> Prop :=
| fle_stat : forall spec b, fsck_loop_event E (EvStat spec b)
| fle_ismnt : forall file b, fsck_loop_event E (EvIsmnt "/proc/mounts" file "rw" b)
| fle_debug : forall fmt a args, fsck_loop_event E (EvD fmt (a :: args))
| fle_run :
    forall h spec desc,
      fsck_loop_event E
        (EvRunInteractive (snprintf 80 (String.append "fsck -a " spec)) desc
           (env_run_interactive E h (snprintf 80 (String.append "fsck -a " spec)))).

(** An entry of fstab that no pass of [fsck_all] looks at. *)
Definition outside_passes (fs : fstab) : Prop := fs_passno fs < 1 \/ 9 < fs_passno fs.

(** What one pass adds when fstab opens and no entry is of that pass. *)
Definition idle_pass : list event := [EvSetfsent true; EvEndfsent].

(** The environment [E] with [f] in the place of the answers of setfsent. *)
Definition with_setfsent (f : history -> bool) (E : environment) : environment :=
  {| EMERGENCY_SHELL := EMERGENCY_SHELL E;
     RUNLEVEL := RUNLEVEL E;
     INIT_HEADING := INIT_HEADING E;
     FINIT_RC_LOCAL := FINIT_RC_LOCAL E;
     PATH_STDPATH := PATH_STDPATH E;
     PATH_BSHELL := PATH_BSHELL E;
     string_match := string_match E;
     plugin_hook_str := plugin_hook_str E;
     env_hooks := env_hooks E;
     env_cmdline_rescue := env_cmdline_rescue E;
     env_conf_runlevel := env_conf_runlevel E;
     env_conf_runparts := env_conf_runparts E;
     env_getpid := env_getpid E;
     env_log_is_debug := env_log_is_debug E;
     env_log_is_silent := env_log_is_silent E;
     env_fork := env_fork E;
     env_waitpid := env_waitpid E;
     env_execl := env_execl E;
     env_setfsent := f;
     env_fstab := env_fstab E;
     env_stat_isblk := env_stat_isblk E;
     env_strerror := env_strerror E;
     env_ismnt := env_ismnt E;
     env_run_interactive := env_run_interactive E;
     env_fisdir := env_fisdir E;
     env_access := env_access E;
     env_service_completed := env_service_completed E |}.

(** The environment [E] with [pid] as the answer of getpid. *)
Definition with_getpid (pid : Z) (E : environment) : environment :=
  {| EMERGENCY_SHELL := EMERGENCY_SHELL E;
     RUNLEVEL := RUNLEVEL E;
     INIT_HEADING := INIT_HEADING E;
     FINIT_RC_LOCAL := FINIT_RC_LOCAL E;
     PATH_STDPATH := PATH_STDPATH E;
     PATH_BSHELL := PATH_BSHELL E;
     string_match := string_match E;
     plugin_hook_str := plugin_hook_str E;
     env_hooks := env_hooks E;
     env_cmdline_rescue := env_cmdline_rescue E;
     env_conf_runlevel := env_conf_runlevel E;
     env_conf_runparts := env_conf_runparts E;
     env_getpid := fun _ => pid;
     env_log_is_debug := env_log_is_debug E;
     env_log_is_silent := env_log_is_silent E;
     env_fork := env_fork E;
     env_waitpid := env_waitpid E;
     env_execl := env_execl E;
     env_setfsent := env_setfsent E;
     env_fstab := env_fstab E;
     env_stat_isblk := env_stat_isblk E;
     env_strerror := env_strerror E;
     env_ismnt := env_ismnt E;
     env_run_interactive := env_run_interactive E;
     env_fisdir := env_fisdir E;
     env_access := env_access E;
     env_service_completed := env_service_completed E |}.

(** An fstab whose entries are checked in no pass: proc with pass number 0
    and a disk with pass number 12. *)
Definition unchecked_fstab : list fstab :=
  [ {| fs_spec := "proc"; fs_file := "/proc"; fs_vfstype := "proc";
       fs_mntops := "defaults"; fs_type := "rw"; fs_freq := 0; fs_passno := 0 |};
    {| fs_spec := "/dev/sdb1"; fs_file := "/data"; fs_vfstype := "ext4";
       fs_mntops := "rw"; fs_type := "rw"; fs_freq := 0; fs_passno := 12 |} ].

(** Whether an entry of fstab belongs to the pass [pass] of [fsck]. *)
Definition in_pass (pass : Z) (fs : fstab) : bool := fs_passno fs =? pass.

(** Whether the pass number of an entry is one of the [n] passes from
    [first] on. *)
Definition due_in (first : Z) (n : nat) (fs : fstab) : bool :=
  (first <=? fs_passno fs) && (fs_passno fs <? first + Z.of_nat n).

(** The test that lets an entry through to the check: the device is a block
    device, or it is named by UUID= or LABEL=. *)
Definition checkable (E : environment) (isblk : bool) (spec : string) : bool :=
  isblk || string_match E spec "UUID=" || string_match E spec "LABEL=".

(** The command line and the progress text [fsck] builds for a device. *)
Definition fsck_command (spec : string) : string :=
  snprintf 80 (String.append "fsck -a " spec).

Definition fsck_description (spec : string) : string :=
  String.append "Checking filesystem " (String.substring 0 13 spec).

(** What the loop of [fsck] does with one entry of its pass: it skips the
    entry as no block device, skips it as mounted read-write, or checks it. *)
Inductive entry_events (E : environment) (fs : fstab) : list event -> Prop :=
| ee_not_block : forall err,
    checkable E false (fs_spec fs) = false ->
    entry_events E fs
      [EvStat (fs_spec fs) false;
       EvD "Cannot fsck %s, not a block device: %s" [AStr (fs_spec fs); AStr err]]
| ee_mounted : forall isblk,
    checkable E isblk (fs_spec fs) = true ->
    entry_events E fs
      [EvStat (fs_spec fs) isblk;
       EvIsmnt "/proc/mounts" (fs_file fs) "rw" true;
       EvD "Skipping fsck of %s, already mounted rw on %s."
           [AStr (fs_spec fs); AStr (fs_file fs)]]
| ee_checked : forall isblk rc,
    checkable E isblk (fs_spec fs) = true ->
    entry_events E fs
      [EvStat (fs_spec fs) isblk;
       EvIsmnt "/proc/mounts" (fs_file fs) "rw" false;
       EvRunInteractive (fsck_command (fs_spec fs)) (fsck_description (fs_spec fs)) rc].

(** A device path of 81 characters. *)
Definition long_spec : string :=
  "/dev/disk/by-id/ata-EXAMPLE_DISK_MODEL_0123456789_SERIALNUMBER0123456789ABC-part1".

(** The calls [main] makes up to and including [emergency_shell]. *)
Definition early_call (e : event) : bool :=
  match e with
  | EvGetpid _ | EvConfParseCmdline | EvUevInit | EvSetenv _ _ | EvChdir _ | EvUmask _
  | EvLogIsDebug _ | EvScreenInit | EvFork _ | EvWaitpid _ | EvFprintf _ | EvSetsid
  | EvIoctl | EvExecl _ _ => true
  | _ => false
  end.

(** The run of [final_worker] that ends a gate started in [s], after [n]
    polls answered no, with [finalize] after it. *)
Definition gate_tail (E : environment) (s : state) (n : nat) (isdir : bool) (a rc : Z)
  : list event :=
  step_events
  ++ (if 0 <? cnt s - Z.of_nat n then [EvServiceCompleted true] else [])
  ++ [EvD (resume_message (cnt s - Z.of_nat n - 1)) []]
  ++ finalize_events E (runparts s) (rescue s) (cfglevel s) isdir a rc.

(** The event loop on a gate started in [s], at some moment: [n] polls were
    answered no, and either the work item is still pending or the last run of
    [final_worker] and [finalize] are done and nothing is pending. *)
Inductive gate_outcome (E : environment) (w : wq) (s : state) : outcome -> Prop :=
| gate_waiting : forall n clk t,
    Z.of_nat n <= cnt s ->
    gate_outcome E w s
      (Waiting (mk_state (trace s ++ poll_rounds w n (cnt s)) (rescue s) (cfglevel s)
                         (runparts s) (cnt s - Z.of_nat n) (conds s) clk [(t, w)]))
| gate_done : forall n isdir a rc clk,
    Z.of_nat n <= cnt s ->
    gate_outcome E w s
      (Returned (mk_state (trace s ++ poll_rounds w n (cnt s) ++ gate_tail E s n isdir a rc)
                          (rescue s) (cfglevel s) (runparts s) (cnt s - Z.of_nat n - 1)
                          (conds s) clk [])).

(** The calls a boot in rescue mode leaves out: the question whether the log
    is in debug mode and the set-up of the screen, all that [fsck_all] and
    [fs_remount_root] do, run_parts, and every command other than mount -na. *)
Definition left_out_in_rescue (e : event) : bool :=
  match e with
  | EvLogIsDebug _ | EvScreenInit | EvSetfsent _ | EvEndfsent | EvStat _ _
  | EvIsmnt _ _ _ _ | EvPe _ | EvPrint _ _ | EvRunParts _ => true
  | EvRunInteractive cmd _ _ => negb (String.eqb cmd "mount -na")
  | _ => false
  end.

Definition is_sm_init (e : event) : bool :=
  match e with EvSmInit => true | _ => false end.

(** An fstab that lists / twice: read-only first, read-write after it. *)
Definition root_listed_twice : list fstab :=
  [ {| fs_spec := "/dev/sda1"; fs_file := "/"; fs_vfstype := "ext4";
       fs_mntops := "ro"; fs_type := "ro"; fs_freq := 0; fs_passno := 1 |};
    {| fs_spec := "/dev/sdb1"; fs_file := "/"; fs_vfstype := "ext4";
       fs_mntops := "rw"; fs_type := "rw"; fs_freq := 0; fs_passno := 1 |} ].

(** The environment [E] with [f] in the place of the answers of execl. *)
Definition with_execl (f : history -> bool) (E : environment) : environment :=
  {| EMERGENCY_SHELL := EMERGENCY_SHELL E;
     RUNLEVEL := RUNLEVEL E;
     INIT_HEADING := INIT_HEADING E;
     FINIT_RC_LOCAL := FINIT_RC_LOCAL E;
     PATH_STDPATH := PATH_STDPATH E;
     PATH_BSHELL := PATH_BSHELL E;
     string_match := string_match E;
     plugin_hook_str := plugin_hook_str E;
     env_hooks := env_hooks E;
     env_cmdline_rescue := env_cmdline_rescue E;
     env_conf_runlevel := env_conf_runlevel E;
     env_conf_runparts := env_conf_runparts E;
     env_getpid := env_getpid E;
     env_log_is_debug := env_log_is_debug E;
     env_log_is_silent := env_log_is_silent E;
     env_fork := env_fork E;
     env_waitpid := env_waitpid E;
     env_execl := f;
     env_setfsent := env_setfsent E;
     env_fstab := env_fstab E;
     env_stat_isblk := env_stat_isblk E;
     env_strerror := env_strerror E;
     env_ismnt := env_ismnt E;
     env_run_interactive := env_run_interactive E;
     env_fisdir := env_fisdir E;
     env_access := env_access E;
     env_service_completed := env_service_completed E |}.

(** The history at which the parent of the fork made in [s] calls execl,
    after [n] answers of waitpid; [pid] is the answer of fork. *)
Definition shell_history (E : environment) (s : state) (pid : Z) (n : nat) : history :=
  trace s ++ [EvFork pid] ++ wait_events E n (trace s ++ [EvFork pid]) ++ shell_prelude.

(** The calls by which [main] marks the phases of the boot, by kind and
    whatever their arguments: the calls listed in [boot_order], with the four
    hook points that are run on every boot before the event loop. *)
Definition boot_call (e : event) : bool :=
  match e with
  | EvConfParseCmdline | EvUevInit | EvSetenv _ _ | EvChdir _ | EvUmask _ | EvPluginInit
  | EvSigInit | EvCgroupInit | EvRun _ | EvConfInit | EvCondInit | EvCondSetOneshot _
  | EvSigSetup | EvConfMonitor | EvApiInit | EvScheduleWork _ | EvUevRun => true
  | EvHook h =>
      match h with
      | HOOK_BANNER | HOOK_ROOTFS_UP | HOOK_MOUNT_POST | HOOK_BASEFS_UP => true
      | _ => false
      end
  | _ => false
  end.

(** The calls of the checks of [fsck_all] and of [fs_remount_root]. *)
Definition fs_call (e : event) : bool :=
  match e with
  | EvSetfsent _ | EvEndfsent | EvStat _ _ | EvIsmnt _ _ _ _ | EvRunInteractive _ _ _
  | EvPe _ | EvPrint _ _ | EvD _ (_ :: _) => true
  | _ => false
  end.

(** The calls of the configuration phase named by [config_order_directory_first]. *)
Definition config_call (e : event) : bool :=
  match e with
  | EvConfInit | EvConfMonitor | EvCondInit | EvSigSetup | EvHook HOOK_BASEFS_UP => true
  | _ => false
  end.

(** * Proofs *)

(** ** Traces *)

Lemma emits_emits : forall a b s, emits b (emits a s) = emits (a ++ b) s.
Proof. intros. unfold emits; simpl. now rewrite app_assoc. Qed.

Lemma emits_set_cnt :
  forall a b c s, emits a (set_cnt c (emits b s)) = set_cnt c (emits (b ++ a) s).
Proof. intros. unfold emits, set_cnt; simpl. now rewrite app_assoc. Qed.

Lemma emits_set_rescue : forall a v s, emits a (set_rescue v s) = set_rescue v (emits a s).
Proof. reflexivity. Qed.

Lemma emits_set_cfglevel : forall a v s, emits a (set_cfglevel v s) = set_cfglevel v (emits a s).
Proof. reflexivity. Qed.

Lemma emits_set_runparts : forall a v s, emits a (set_runparts v s) = set_runparts v (emits a s).
Proof. reflexivity. Qed.

Lemma emits_set_conds : forall a v s, emits a (set_conds v s) = set_conds v (emits a s).
Proof. reflexivity. Qed.

Lemma emits_set_pending : forall a v s, emits a (set_pending v s) = set_pending v (emits a s).
Proof. reflexivity. Qed.

Lemma emits_set_clock : forall a v s, emits a (set_clock v s) = set_clock v (emits a s).
Proof. reflexivity. Qed.

Lemma state_ext :
  forall s1 s2,
    trace s1 = trace s2 -> rescue s1 = rescue s2 -> cfglevel s1 = cfglevel s2 ->
    runparts s1 = runparts s2 -> cnt s1 = cnt s2 -> conds s1 = conds s2 ->
    clock s1 = clock s2 -> pending s1 = pending s2 ->
    s1 = s2.
Proof. intros [ ] [ ]; cbn; intros; subst; reflexivity. Qed.

Ltac fields :=
  cbn [rescue cfglevel runparts cnt conds clock pending trace
       emits set_rescue set_cfglevel set_runparts set_cnt set_conds set_clock set_pending].

Ltac evs_eq := repeat first [rewrite <- app_assoc | rewrite app_nil_r | progress cbn [app]].

Ltac state_eq := apply state_ext; fields; try reflexivity; try solve [evs_eq; reflexivity].

Lemma emits_nil : forall s, emits [] s = s.
Proof. intros [ ]. unfold emits; simpl. now rewrite app_nil_r. Qed.

Lemma polls_app : forall a b, polls (a ++ b) = (polls a + polls b)%nat.
Proof. intros. unfold polls. now rewrite filter_app, length_app. Qed.

Lemma steps_app : forall a b, steps (a ++ b) = (steps a + steps b)%nat.
Proof. intros. unfold steps. now rewrite filter_app, length_app. Qed.

Lemma finalize_entries_app :
  forall a b, finalize_entries (a ++ b) = (finalize_entries a + finalize_entries b)%nat.
Proof. intros. unfold finalize_entries. now rewrite filter_app, length_app. Qed.

Lemma cond_inits_app : forall a b, cond_inits (a ++ b) = (cond_inits a + cond_inits b)%nat.
Proof. intros. unfold cond_inits. now rewrite filter_app, length_app. Qed.

Lemma hooks_fired_app : forall a b, hooks_fired (a ++ b) = hooks_fired a ++ hooks_fired b.
Proof. intros. unfold hooks_fired. apply flat_map_app. Qed.

Lemma callbacks_quiet :
  forall h l,
    polls (map (EvCallback h) l) = 0%nat
    /\ steps (map (EvCallback h) l) = 0%nat
    /\ finalize_entries (map (EvCallback h) l) = 0%nat
    /\ hooks_fired (map (EvCallback h) l) = []
    /\ cond_inits (map (EvCallback h) l) = 0%nat.
Proof. induction l as [|c l IH]; simpl; auto. Qed.

Lemma hook_events_cond_inits : forall E h, cond_inits (hook_events E h) = 0%nat.
Proof. intros. unfold hook_events. apply (callbacks_quiet h (env_hooks E h)). Qed.

Lemma hook_events_polls : forall E h, polls (hook_events E h) = 0%nat.
Proof. intros. unfold hook_events. apply (callbacks_quiet h (env_hooks E h)). Qed.

Lemma hook_events_steps : forall E h, steps (hook_events E h) = 0%nat.
Proof. intros. unfold hook_events. apply (callbacks_quiet h (env_hooks E h)). Qed.

Lemma hook_events_entries : forall E h, finalize_entries (hook_events E h) = 0%nat.
Proof. intros. unfold hook_events. apply (callbacks_quiet h (env_hooks E h)). Qed.

Lemma hook_events_fired : forall E h, hooks_fired (hook_events E h) = [h].
Proof.
  intros. unfold hook_events. change (hooks_fired (EvHook h :: ?l)) with (h :: hooks_fired l).
  f_equal. apply (callbacks_quiet h (env_hooks E h)).
Qed.

(** ** Stepping through a computation *)

Section WP.
Context {A B : Type}.

Lemma wp_bind (m : M A) (k : A -> M B) s Q :
  wp m s (fun a s' => wp (k a) s' Q) -> wp (bind m k) s Q.
Proof. exact (fun H => H). Qed.

Lemma wp_ret (a : A) s Q : Q a s -> wp (ret a) s Q.
Proof. exact (fun H => H). Qed.

Lemma wp_gets (f : state -> A) s Q : Q (f s) s -> wp (gets f) s Q.
Proof. exact (fun H => H). Qed.

Lemma wp_ask (o : history -> A) ev s Q :
  Q (o (trace s)) (emits [ev (o (trace s))] s) -> wp (ask o ev) s Q.
Proof. exact (fun H => H). Qed.

Lemma wp_ask_any (o : history -> A) ev s Q :
  (forall r, Q r (emits [ev r] s)) -> wp (ask o ev) s Q.
Proof. intros H. apply wp_ask, H. Qed.

Lemma wp_exec (m : M A) s (Q : state -> Prop) :
  wp m s (fun _ s' => Q s') -> Q (exec m s).
Proof. exact (fun H => H). Qed.

End WP.

Lemma wp_frame {A : Type} (m : M A) s (Q : A -> state -> Prop) s' :
  exec m s = s' -> Q (fst (m s)) s' -> wp m s Q.
Proof. intros <-. exact (fun H => H). Qed.

Lemma wp_modify f s Q : Q tt (f s) -> wp (modify f) s Q.
Proof. exact (fun H => H). Qed.

Lemma wp_emit e s Q : Q tt (emits [e] s) -> wp (emit e) s Q.
Proof. exact (fun H => H). Qed.

Lemma wp_emit_all e s Q : Q tt (emits e s) -> wp (emit_all e) s Q.
Proof. exact (fun H => H). Qed.

Lemma wp_plugin_run_hooks E h s Q :
  Q tt (emits (hook_events E h) s) -> wp (plugin_run_hooks E h) s Q.
Proof.
  intros H. unfold plugin_run_hooks. apply wp_bind, wp_emit, wp_emit_all.
  now rewrite emits_emits.
Qed.

Create HintDb prims.
#[local] Hint Unfold _d _pe print fprintf_stderr log_is_silent log_is_debug print_banner
  setfsent endfsent getfsent_all stat_isblk strerror_errno ismnt run_interactive run umask
  fisdir access_X_OK run_parts service_runlevel svc_prune_bootstrap service_step_all
  service_completed log_silent tty_runlevel sm_init sm_step fork waitpid getpid client
  execl : prims.

Ltac wp_tidy :=
  cbn [rescue cfglevel runparts cnt conds clock pending trace
       emits set_rescue set_cfglevel set_runparts set_cnt set_conds set_clock set_pending app];
  rewrite ?emits_set_rescue, ?emits_set_cfglevel, ?emits_set_runparts, ?emits_set_conds,
    ?emits_set_pending, ?emits_set_clock, ?emits_emits.

Ltac wp_rule ask_rule :=
  lazymatch goal with
  | |- wp (bind _ _) _ _ => apply wp_bind
  | |- wp (ret _) _ _ => apply wp_ret
  | |- wp (gets _) _ _ => apply wp_gets
  | |- wp (modify _) _ _ => apply wp_modify
  | |- wp (emit _) _ _ => apply wp_emit
  | |- wp (emit_all _) _ _ => apply wp_emit_all
  | |- wp (ask _ _) _ _ => ask_rule
  | |- wp (plugin_run_hooks _ _) _ _ => apply wp_plugin_run_hooks
  | |- wp (if ?b then _ else _) _ _ => destruct b eqn:?
  | |- wp (match ?x with Some _ => _ | None => _ end) _ _ => destruct x eqn:?
  end.

(** [wp_step] keeps the answer of the environment as it is, [wp_step_any]
    replaces it by a variable. *)
Ltac wp_step := wp_rule ltac:(apply wp_ask); wp_tidy.
Ltac wp_step_any := wp_rule ltac:(apply wp_ask_any; intro); wp_tidy.

Ltac evs_norm := repeat first [rewrite <- app_assoc | progress cbn [app]].

(** ** finalize *)

Lemma finalize_exec (E : environment) (s : state) :
  exists isdir a rc,
    exec (finalize E) s
    = emits (finalize_events E (runparts s) (rescue s) (cfglevel s) isdir a rc) s.
Proof.
  apply wp_exec. unfold finalize. autounfold with prims.
  repeat wp_step_any.
  all: unfold finalize_events, runparts_events, rc_local_events.
  all: lazymatch goal with
       | H : runparts _ = Some _, r : bool, a : Z, rc : Z |- _ => exists r, a, rc
       | H : runparts _ = Some _, r : bool, a : Z |- _ => exists r, a, 0
       | H : runparts _ = None, a : Z, rc : Z |- _ => exists false, a, rc
       | H : runparts _ = None, a : Z |- _ => exists false, a, 0
       end.
  all: repeat match goal with H : _ = _ |- _ => rewrite H end.
  all: evs_norm; reflexivity.
Qed.

Lemma finalize_events_quiet :
  forall E rp resc level isdir a rc,
    polls (finalize_events E rp resc level isdir a rc) = 0%nat
    /\ finalize_entries (finalize_events E rp resc level isdir a rc) = 1%nat
    /\ steps (finalize_events E rp resc level isdir a rc) = 2%nat
    /\ hooks_fired (finalize_events E rp resc level isdir a rc) = [HOOK_SVC_UP; HOOK_SYSTEM_UP].
Proof.
  intros. unfold finalize_events, runparts_events, rc_local_events.
  repeat rewrite ?polls_app, ?finalize_entries_app, ?steps_app, ?hooks_fired_app,
    ?hook_events_polls, ?hook_events_entries, ?hook_events_steps, ?hook_events_fired.
  destruct rp as [dir|]; [destruct (isdir && (resc =? 0))|];
    destruct ((a =? 0) && (resc =? 0)); repeat split; reflexivity.
Qed.

Lemma finalize_frame (E : environment) (s : state) :
  exists evs,
    exec (finalize E) s = emits evs s
    /\ polls evs = 0%nat /\ finalize_entries evs = 1%nat /\ steps evs = 2%nat
    /\ hooks_fired evs = [HOOK_SVC_UP; HOOK_SYSTEM_UP].
Proof.
  destruct (finalize_exec E s) as (isdir & a & rc & H).
  eexists. split; [exact H|]. apply finalize_events_quiet.
Qed.

(** ** final_worker *)

Lemma int_wrap_id : forall z, INT_MIN <= z <= INT_MAX -> int_wrap z = z.
Proof.
  unfold INT_MIN, INT_MAX, int_wrap. intros z Hz.
  rewrite Z.mod_small by lia. lia.
Qed.

Lemma final_worker_exec (E : environment) (w : wq) (s : state) :
  exec (final_worker E w) s
  = if 0 <? cnt s then
      if env_service_completed E (trace s ++ step_events) then
        exec (finalize E)
             (emits [EvServiceCompleted true;
                     EvD (resume_message (int_wrap (cnt s - 1))) []] (stepped s))
      else
        set_pending (enqueue (clock s + delay w) w (pending s))
          (emits [EvServiceCompleted false;
                  EvD "Not all bootstrap run/tasks have completed yet ... %d"
                      [AInt (int_wrap (cnt s - 1))];
                  EvScheduleWork w] (stepped s))
    else
      exec (finalize E)
           (emits [EvD (resume_message (int_wrap (cnt s - 1))) []] (stepped s)).
Proof.
  apply wp_exec. unfold final_worker, schedule_work. autounfold with prims.
  do 6 wp_step. unfold stepped, resume_message, step_events.
  destruct (0 <? cnt s); repeat wp_step.
  all: unfold wp, exec.
  all: try match goal with
           | H : negb ?x = _ |- _ => destruct x; try discriminate H
           end.
  all: cbn [app]; reflexivity.
Qed.

(** ** The completion gate *)

Lemma poll_rounds_quiet :
  forall w n c,
    polls (poll_rounds w n c) = n
    /\ steps (poll_rounds w n c) = n
    /\ finalize_entries (poll_rounds w n c) = 0%nat
    /\ hooks_fired (poll_rounds w n c) = [].
Proof.
  induction n as [|n IH]; intros c; [repeat split; reflexivity|].
  destruct (IH (c - 1)) as (Hp & Hs & Hf & Hh).
  cbn [poll_rounds]. rewrite polls_app, steps_app, finalize_entries_app, hooks_fired_app.
  rewrite Hp, Hs, Hf, Hh. repeat split; reflexivity.
Qed.

Lemma uev_run_dispatch :
  forall E fuel s due w rest,
    pending s = (due, w) :: rest ->
    uev_run E (S fuel) s
    = uev_run E fuel
        (exec (run_callback E w) (set_clock (Z.max (clock s) due) (set_pending rest s))).
Proof. intros E fuel s due w rest H. cbn [uev_run]. now rewrite H. Qed.

Lemma uev_run_idle : forall E fuel s, pending s = [] -> uev_run E fuel s = Returned s.
Proof. intros E fuel s H. destruct fuel; cbn [uev_run]; now rewrite H. Qed.

Lemma gate_polling (E : environment) (w : wq) :
  cb w = cb_final_worker ->
  forall j s t fuel,
    pending s = [(t, w)] ->
    Z.of_nat j <= cnt s <= INT_MAX ->
    (forall i, (i < j)%nat -> env_service_completed E (poll_history w s i) = false) ->
    exists clk t',
      uev_run E (j + fuel) s
      = uev_run E fuel
          (mk_state (trace s ++ poll_rounds w j (cnt s)) (rescue s) (cfglevel s)
                    (runparts s) (cnt s - Z.of_nat j) (conds s) clk [(t', w)]).
Proof.
  intros Hcb. induction j as [|j IH]; intros s t fuel Hpend Hcnt Hno.
  - exists (clock s), t. destruct s; cbn in *. subst.
    now rewrite app_nil_r, Z.sub_0_r.
  - change (S j + fuel)%nat with (S (j + fuel)).
    rewrite (uev_run_dispatch E (j + fuel) s t w [] Hpend).
    unfold run_callback. rewrite Hcb, final_worker_exec.
    cbn [cnt clock pending trace set_clock set_pending].
    assert (Hpos : (0 <? cnt s) = true) by (apply Z.ltb_lt; lia).
    rewrite Hpos.
    assert (H0 := Hno 0%nat ltac:(lia)).
    unfold poll_history in H0. cbn [poll_rounds app] in H0. rewrite H0.
    assert (Hw : int_wrap (cnt s - 1) = cnt s - 1)
      by (apply int_wrap_id; unfold INT_MIN, INT_MAX in *; lia).
    unfold stepped. cbn [cnt clock pending trace set_clock set_pending emits set_cnt enqueue].
    rewrite Hw.
    match goal with
    | |- exists clk t', uev_run E _ ?s1 = _ =>
        destruct (IH s1 (Z.max (clock s) t + delay w) fuel) as (clk & t' & Heq)
    end.
    + reflexivity.
    + cbn [cnt set_pending emits set_cnt set_clock]. unfold INT_MAX in *. lia.
    + intros i Hi. specialize (Hno (S i) ltac:(lia)).
      unfold poll_history in *.
      cbn [trace cnt poll_rounds set_pending emits set_cnt set_clock] in *.
      refine (eq_trans (f_equal (env_service_completed E) _) Hno).
      unfold poll_round. now evs_norm.
    + exists clk, t'. rewrite Heq.
      cbn [trace rescue cfglevel runparts cnt conds set_pending emits set_cnt set_clock].
      f_equal. f_equal; [|lia].
      cbn [poll_rounds]. unfold poll_round. now evs_norm.
Qed.

(** The run of [final_worker] that ends the gate: the counter is used up, or
    the poll is answered yes. *)
Lemma gate_last (E : environment) (w : wq) :
  cb w = cb_final_worker ->
  forall s t fuel,
    pending s = [(t, w)] ->
    cnt s <= 0 \/ env_service_completed E (trace s ++ step_events) = true ->
    exists s1,
      uev_run E (S fuel) s = Returned (exec (finalize E) s1)
      /\ trace s1
         = trace s ++ step_events
           ++ (if 0 <? cnt s then [EvServiceCompleted true] else [])
           ++ [EvD (resume_message (int_wrap (cnt s - 1))) []]
      /\ pending s1 = []
      /\ rescue s1 = rescue s /\ cfglevel s1 = cfglevel s
      /\ runparts s1 = runparts s /\ conds s1 = conds s.
Proof.
  intros Hcb s t fuel Hpend Hend.
  rewrite (uev_run_dispatch E fuel s t w [] Hpend).
  unfold run_callback. rewrite Hcb, final_worker_exec.
  cbn [cnt clock pending trace set_clock set_pending].
  destruct (0 <? cnt s) eqn:Hpos.
  - destruct Hend as [Hle|Hyes]; [apply Z.ltb_lt in Hpos; lia|].
    rewrite Hyes.
    eexists. split; [apply uev_run_idle|].
    + destruct (finalize_frame E
                  (emits [EvServiceCompleted true;
                          EvD (resume_message (int_wrap (cnt s - 1))) []]
                     (stepped (set_clock (Z.max (clock s) t) (set_pending [] s)))))
        as (evs & Heq & _).
      unfold stepped in *.
      cbn [cnt clock pending trace set_clock set_pending emits set_cnt] in *.
      rewrite Heq. reflexivity.
    + unfold stepped.
      cbn [cnt clock pending trace set_clock set_pending emits set_cnt
           rescue cfglevel runparts conds].
      repeat split. now evs_norm.
  - eexists. split; [apply uev_run_idle|].
    + destruct (finalize_frame E
                  (emits [EvD (resume_message (int_wrap (cnt s - 1))) []]
                     (stepped (set_clock (Z.max (clock s) t) (set_pending [] s)))))
        as (evs & Heq & _).
      unfold stepped in *.
      cbn [cnt clock pending trace set_clock set_pending emits set_cnt] in *.
      rewrite Heq. reflexivity.
    + unfold stepped.
      cbn [cnt clock pending trace set_clock set_pending emits set_cnt
           rescue cfglevel runparts conds].
      repeat split. now evs_norm.
Qed.

Lemma finalize_counts (E : environment) (s : state) :
  polls (trace (exec (finalize E) s)) = polls (trace s)
  /\ finalize_entries (trace (exec (finalize E) s)) = S (finalize_entries (trace s))
  /\ hooks_fired (trace (exec (finalize E) s))
     = hooks_fired (trace s) ++ [HOOK_SVC_UP; HOOK_SYSTEM_UP]
  /\ pending (exec (finalize E) s) = pending s
  /\ conds (exec (finalize E) s) = conds s.
Proof.
  destruct (finalize_frame E s) as (evs & Heq & Hp & Hf & _ & Hh).
  rewrite Heq. cbn [trace emits pending conds].
  rewrite polls_app, finalize_entries_app, hooks_fired_app, Hp, Hf, Hh.
  repeat split; lia.
Qed.

Lemma gate_tail_counts :
  forall (b : bool) c,
    let tail := step_events ++ (if b then [EvServiceCompleted true] else [])
                ++ [EvD (resume_message c) []] in
    polls tail = (if b then 1 else 0)%nat
    /\ finalize_entries tail = 0%nat
    /\ hooks_fired tail = [].
Proof. intros b c. unfold resume_message. now destruct b, (0 <? c). Qed.

(** C1. For every attempt budget N >= 0 (the counter the gate starts with),
    when the answer of service_completed is no at each of the N polls, the
    gate ends after exactly N polls and has run finalize exactly once; and
    when the answer is no at the first k - 1 polls and yes at poll k <= N,
    finalize runs exactly once, right after poll k (only the log line is in
    between), and nothing is left pending, so there is no later poll. *)
Theorem completion_gate :
  forall (E : environment) (w : wq) (t : Z) (s : state) (fuel : nat),
    cb w = cb_final_worker ->
    pending s = [(t, w)] ->
    0 <= cnt s <= INT_MAX ->
    (Z.to_nat (cnt s) < fuel)%nat ->
    ((forall i, (i < Z.to_nat (cnt s))%nat ->
                env_service_completed E (poll_history w s i) = false) ->
     exists s',
       uev_run E fuel s = Returned s'
       /\ pending s' = []
       /\ polls (trace s') = (polls (trace s) + Z.to_nat (cnt s))%nat
       /\ finalize_entries (trace s') = (finalize_entries (trace s) + 1)%nat)
    /\
    (forall k,
        (1 <= k <= Z.to_nat (cnt s))%nat ->
        (forall i, (i < k - 1)%nat ->
                   env_service_completed E (poll_history w s i) = false) ->
        env_service_completed E (poll_history w s (k - 1)) = true ->
        exists s1 pre msg,
          uev_run E fuel s = Returned (exec (finalize E) s1)
          /\ trace s1 = trace s ++ pre ++ [EvServiceCompleted true; EvD msg []]
          /\ polls pre = (k - 1)%nat
          /\ finalize_entries pre = 0%nat
          /\ pending (exec (finalize E) s1) = []
          /\ polls (trace (exec (finalize E) s1)) = (polls (trace s) + k)%nat
          /\ finalize_entries (trace (exec (finalize E) s1))
             = (finalize_entries (trace s) + 1)%nat).
Proof.
  intros E w t s fuel Hcb Hpend Hcnt Hfuel. split.
  - intros Hno.
    destruct (gate_polling E w Hcb (Z.to_nat (cnt s)) s t (fuel - Z.to_nat (cnt s) - 1 + 1)%nat
                Hpend ltac:(lia) Hno) as (clk & t' & Hrun).
    replace (Z.to_nat (cnt s) + (fuel - Z.to_nat (cnt s) - 1 + 1))%nat with fuel in Hrun by lia.
    rewrite Nat.add_1_r in Hrun.
    match type of Hrun with
    | _ = uev_run E (S ?f) ?sN =>
        destruct (gate_last E w Hcb sN t' f eq_refl) as (s1 & Hlast & Htr & Hp & _)
    end.
    { left. cbn [cnt]. lia. }
    rewrite Hlast in Hrun. cbn [trace cnt] in Htr.
    destruct (finalize_counts E s1) as (Hpo & Hfe & _ & Hpe & _).
    destruct (poll_rounds_quiet w (Z.to_nat (cnt s)) (cnt s)) as (Hrp & _ & Hrf & _).
    exists (exec (finalize E) s1). split; [exact Hrun|]. split; [congruence|].
    rewrite Hpo, Hfe, Htr.
    replace (0 <? cnt s - Z.of_nat (Z.to_nat (cnt s))) with false
      by (symmetry; apply Z.ltb_ge; lia).
    match goal with
    | |- context [step_events ++ ?x ++ [EvD (resume_message ?c) []]] =>
        destruct (gate_tail_counts false c) as (Htp & Htf & _)
    end.
    cbv zeta in Htp, Htf.
    rewrite (polls_app (_ ++ _)), (finalize_entries_app (_ ++ _)).
    rewrite (polls_app (trace s)), (finalize_entries_app (trace s)).
    rewrite Hrp, Hrf, Htp, Htf. lia.
  - intros k Hk Hno Hyes.
    destruct (gate_polling E w Hcb (k - 1)%nat s t (fuel - k + 1)%nat
                Hpend ltac:(lia) Hno) as (clk & t' & Hrun).
    replace (k - 1 + (fuel - k + 1))%nat with fuel in Hrun by lia.
    rewrite Nat.add_1_r in Hrun.
    match type of Hrun with
    | _ = uev_run E (S ?f) ?sN =>
        destruct (gate_last E w Hcb sN t' f eq_refl) as (s1 & Hlast & Htr & Hp & _)
    end.
    { right. cbn [trace]. rewrite <- app_assoc. exact Hyes. }
    rewrite Hlast in Hrun. cbn [trace cnt] in Htr.
    destruct (finalize_counts E s1) as (Hpo & Hfe & _ & Hpe & _).
    destruct (poll_rounds_quiet w (k - 1) (cnt s)) as (Hrp & _ & Hrf & _).
    replace (0 <? cnt s - Z.of_nat (k - 1)) with true in Htr
      by (symmetry; apply Z.ltb_lt; lia).
    exists s1, (poll_rounds w (k - 1) (cnt s) ++ step_events),
      (resume_message (int_wrap (cnt s - Z.of_nat (k - 1) - 1))).
    split; [exact Hrun|]. split; [rewrite Htr; now evs_norm|].
    rewrite polls_app, finalize_entries_app, Hrp, Hrf.
    split; [cbn; lia|]. split; [reflexivity|]. split; [congruence|].
    rewrite Hpo, Hfe, Htr.
    match goal with
    | |- context [step_events ++ ?x ++ [EvD (resume_message ?c) []]] =>
        destruct (gate_tail_counts true c) as (Htp & Htf & _)
    end.
    cbv zeta in Htp, Htf.
    rewrite (polls_app (_ ++ _)), (finalize_entries_app (_ ++ _)).
    rewrite (polls_app (trace s)), (finalize_entries_app (trace s)).
    rewrite Hrp, Hrf, Htp, Htf. lia.
Qed.

(** The witness of C1: a budget of 3, with service_completed never answering
    yes, and answering yes from poll 2 on. *)
Lemma completion_gate_witness :
  (exists s',
      uev_run (plain_env never_completed) 4 (gate_state 3) = Returned s'
      /\ pending s' = []
      /\ polls (trace s') = 3%nat
      /\ finalize_entries (trace s') = 1%nat)
  /\ (exists s1 pre msg,
         uev_run (plain_env (completed_from 2)) 4 (gate_state 3)
         = Returned (exec (finalize (plain_env (completed_from 2))) s1)
         /\ trace s1 = trace (gate_state 3) ++ pre ++ [EvServiceCompleted true; EvD msg []]
         /\ polls pre = 1%nat
         /\ finalize_entries pre = 0%nat
         /\ pending (exec (finalize (plain_env (completed_from 2))) s1) = []
         /\ polls (trace (exec (finalize (plain_env (completed_from 2))) s1)) = 2%nat
         /\ finalize_entries (trace (exec (finalize (plain_env (completed_from 2))) s1))
            = 1%nat).
Proof.
  split.
  - apply (proj1 (completion_gate (plain_env never_completed) final 1000 (gate_state 3) 4
                    eq_refl eq_refl ltac:(cbv; split; discriminate) ltac:(cbn; lia))).
    intros i Hi. reflexivity.
  - apply (proj2 (completion_gate (plain_env (completed_from 2)) final 1000 (gate_state 3) 4
                    eq_refl eq_refl ltac:(cbv; split; discriminate) ltac:(cbn; lia))
             2%nat).
    + cbn; lia.
    + intros i Hi. destruct i as [|i]; [reflexivity | cbn in Hi; lia].
    + reflexivity.
Defined.

(** ** The filesystem phase *)

Lemma quiet_nil : quiet [].
Proof. repeat split. Qed.

Lemma quiet_app : forall a b, quiet a -> quiet b -> quiet (a ++ b).
Proof.
  intros a b (Ha1 & Ha2 & Ha3 & Ha4 & Ha5) (Hb1 & Hb2 & Hb3 & Hb4 & Hb5). unfold quiet.
  rewrite polls_app, steps_app, finalize_entries_app, hooks_fired_app, cond_inits_app.
  rewrite Ha1, Ha2, Ha3, Ha4, Ha5, Hb1, Hb2, Hb3, Hb4, Hb5. repeat split.
Qed.

Lemma fsck_entries_quiet (E : environment) (pass : Z) :
  forall entries rc s,
  exists evs, exec (fsck_entries E pass entries rc) s = emits evs s /\ quiet evs.
Proof.
  induction entries as [|fs rest IH]; intros rc s.
  - exists []. split; [symmetry; apply emits_nil | apply quiet_nil].
  - cbn [fsck_entries].
    destruct (negb (fs_passno fs =? pass)); [apply IH|].
    autounfold with prims.
    apply wp_exec.
    repeat wp_step_any.
    all: lazymatch goal with
         | IH' : forall rc s, exists evs, _
           |- wp (fsck_entries _ _ _ ?rc') (emits ?l ?s0) _ =>
             unfold wp; destruct (IH' rc' (emits l s0)) as (evs & Heq & Hq);
             unfold exec in Heq;
             rewrite Heq, emits_emits; eexists; split; [reflexivity|];
             apply quiet_app; [repeat split | exact Hq]
         end.
Qed.

Lemma fsck_quiet (E : environment) (pass : Z) (s : state) :
  exists evs, exec (fsck E pass) s = emits evs s /\ quiet evs.
Proof.
  apply wp_exec. unfold fsck. autounfold with prims.
  repeat wp_step_any.
  - eexists. split; [reflexivity|]. repeat split.
  - lazymatch goal with
    | |- wp (fsck_entries _ _ ?es ?rc) (emits ?l ?s0) _ =>
        destruct (fsck_entries_quiet E pass es rc (emits l s0)) as (evs & Heq & Hq);
        apply (wp_frame _ _ _ _ Heq)
    end.
    repeat wp_step_any.
    eexists. split; [reflexivity|].
    repeat apply quiet_app; first [exact Hq | repeat split].
Qed.

Lemma fsck_passes_quiet (E : environment) :
  forall todo pass rc s,
  exists evs, exec (fsck_passes E todo pass rc) s = emits evs s /\ quiet evs.
Proof.
  induction todo as [|todo IH]; intros pass rc s.
  - exists []. split; [symmetry; apply emits_nil | apply quiet_nil].
  - cbn [fsck_passes]. unfold exec, bind.
    destruct (fsck_quiet E pass s) as (e1 & H1 & Hq1). unfold exec in H1.
    cbv zeta. rewrite H1.
    destruct (negb (fst (fsck E pass s) =? 0)).
    + exists e1. now split.
    + destruct (IH (pass + 1) (fst (fsck E pass s)) (emits e1 s)) as (e2 & H2 & Hq2).
      unfold exec in H2. rewrite H2, emits_emits.
      exists (e1 ++ e2). split; [reflexivity | now apply quiet_app].
Qed.

Lemma fsck_all_quiet (E : environment) (s : state) :
  exists evs, exec (fsck_all E) s = emits evs s /\ quiet evs.
Proof. apply fsck_passes_quiet. Qed.

Lemma pass_range_succ :
  forall first n, pass_range first (S n) = first :: pass_range (first + 1) n.
Proof.
  intros first n. unfold pass_range. cbn [seq map].
  rewrite Z.add_0_r. f_equal.
  rewrite <- seq_shift, map_map. apply map_ext. intros i. lia.
Qed.

(** [fsck_passes] runs the passes of a range, one after the other, up to and
    including the first that answers nonzero. *)
Lemma fsck_passes_range (E : environment) :
  forall todo first rc0 s,
    (0 < todo)%nat ->
    exists p,
      (1 <= p <= todo)%nat
      /\ exec (fsck_passes E todo first rc0) s = exec (fsck_each E (pass_range first p)) s
      /\ fst (fsck_each E (pass_range first p) s)
         = repeat 0 (p - 1) ++ [fst (fsck_passes E todo first rc0 s)]
      /\ (fst (fsck_passes E todo first rc0 s) <> 0 \/ p = todo).
Proof.
  induction todo as [|todo IH]; intros first rc0 s Hpos; [lia|].
  cbn [fsck_passes]. unfold exec, bind. cbv zeta.
  destruct (fst (fsck E first s) =? 0) eqn:Hrc; cbn [negb].
  - apply Z.eqb_eq in Hrc. destruct todo as [|todo'].
    + exists 1%nat. rewrite pass_range_succ. cbn [pass_range seq map fsck_each fsck_passes].
      unfold bind, ret. cbn [fst snd repeat app Nat.sub].
      repeat split; try lia; try (right; reflexivity).
    + destruct (IH (first + 1) (fst (fsck E first s)) (snd (fsck E first s)) ltac:(lia))
        as (p & Hp & Hst & Hrcs & Hend).
      exists (S p). rewrite pass_range_succ. cbn [fsck_each].
      unfold exec, bind, ret in *. cbn [fst snd].
      split; [lia|]. split; [exact Hst|]. split.
      * rewrite Hrcs, Hrc. replace (S p - 1)%nat with (S (p - 1)) by lia. reflexivity.
      * destruct Hend as [Hne|Heq]; [left; exact Hne | right; lia].
  - exists 1%nat. rewrite pass_range_succ. cbn [pass_range seq map fsck_each].
    unfold bind, ret. cbn [fst snd repeat app Nat.sub].
    repeat split; try lia; try (left; now apply Z.eqb_neq).
Qed.

Lemma fs_remount_root_exec (E : environment) (fsckerr : Z) (s : state) :
  exists ok rc,
    exec (fs_remount_root E fsckerr) s
    = emits (remount_events fsckerr ok (env_fstab E (trace s ++ [EvSetfsent ok])) rc) s.
Proof.
  apply wp_exec. unfold fs_remount_root. autounfold with prims.
  do 2 wp_step_any.
  destruct r; cbn [negb]; [|wp_step_any; exists false, 0; reflexivity].
  do 2 wp_step_any.
  unfold remount_events, root_writable.
  destruct (find is_root (env_fstab E (trace s ++ [EvSetfsent true]))) as [fs|] eqn:Hfind;
    [destruct (String.eqb (fs_type fs) "ro") eqn:Hro|];
    repeat wp_step_any.
  all: exists true; first [match goal with rc : Z |- _ => exists rc end | exists 0].
  all: rewrite Hfind, ?Hro; cbn [negb].
  all: try match goal with
           | H : negb (_ =? 0) = _ |- _ =>
               apply (f_equal negb) in H; rewrite negb_involutive in H;
               cbn [negb] in H; rewrite H
           end.
  all: reflexivity.
Qed.

Lemma remount_events_quiet :
  forall fsckerr ok entries rc, quiet (remount_events fsckerr ok entries rc).
Proof.
  intros. unfold remount_events.
  destruct ok, (root_writable entries), (fsckerr =? 0); repeat split.
Qed.

Lemma mount_events_fired :
  forall E rc,
    polls (mount_events E rc) = 0%nat
    /\ steps (mount_events E rc) = 0%nat
    /\ finalize_entries (mount_events E rc) = 0%nat
    /\ hooks_fired (mount_events E rc)
       = [HOOK_ROOTFS_UP] ++ (if rc =? 0 then [] else [HOOK_MOUNT_ERROR]) ++ [HOOK_MOUNT_POST]
    /\ cond_inits (mount_events E rc) = 0%nat.
Proof.
  intros. unfold mount_events.
  repeat rewrite ?polls_app, ?finalize_entries_app, ?steps_app, ?hooks_fired_app,
    ?cond_inits_app.
  destruct (rc =? 0);
    repeat rewrite ?hook_events_polls, ?hook_events_entries, ?hook_events_steps,
      ?hook_events_fired, ?hook_events_cond_inits;
    repeat split; reflexivity.
Qed.

(** [fs_init] outside rescue mode: the passes of [fsck_all], then
    [fs_remount_root] with their result, then the mounting. *)
Lemma fs_init_checked (E : environment) (s : state) :
  rescue s = 0 ->
  exists ok rrc rc,
    exec (fs_init E) s
    = emits (remount_events (fst (fsck_all E s)) ok
               (env_fstab E (trace (exec (fsck_all E) s) ++ [EvSetfsent ok])) rrc
             ++ mount_events E rc)
        (exec (fsck_all E) s).
Proof.
  intros Hr. apply wp_exec. unfold fs_init. autounfold with prims.
  do 3 wp_step. rewrite Hr. cbn [Z.eqb].
  wp_step. apply (wp_frame _ _ _ _ eq_refl).
  destruct (fs_remount_root_exec E (fst (fsck_all E s)) (exec (fsck_all E) s))
    as (ok & rrc & Hrem).
  apply (wp_frame _ _ _ _ Hrem).
  repeat wp_step_any.
  all: exists ok, rrc; eexists; unfold mount_events.
  all: match goal with H : negb (_ =? 0) = _ |- _ =>
         apply (f_equal negb) in H; rewrite negb_involutive in H; cbn [negb] in H; rewrite H
       end.
  all: evs_norm; reflexivity.
Qed.

(** [fs_init] in rescue mode: no check and no remount. *)
Lemma fs_init_rescue (E : environment) (s : state) :
  rescue s <> 0 ->
  exists rc, exec (fs_init E) s = emits (mount_events E rc) s.
Proof.
  intros Hr. apply wp_exec. unfold fs_init. autounfold with prims.
  do 3 wp_step. apply Z.eqb_neq in Hr. rewrite Hr.
  repeat wp_step_any.
  all: eexists; unfold mount_events.
  all: match goal with H : negb (_ =? 0) = _ |- _ =>
         apply (f_equal negb) in H; rewrite negb_involutive in H; cbn [negb] in H; rewrite H
       end.
  all: evs_norm; reflexivity.
Qed.

Lemma fs_init_frame (E : environment) (s : state) :
  exists fsevs rc,
    exec (fs_init E) s = emits (fsevs ++ mount_events E rc) s /\ quiet fsevs.
Proof.
  destruct (Z.eq_dec (rescue s) 0) as [Hr|Hr].
  - destruct (fs_init_checked E s Hr) as (ok & rrc & rc & H).
    destruct (fsck_all_quiet E s) as (evs & Heq & Hq).
    rewrite Heq in H. rewrite emits_emits, app_assoc in H.
    eexists; exists rc. split; [exact H|].
    apply quiet_app; [exact Hq | apply remount_events_quiet].
  - destruct (fs_init_rescue E s Hr) as (rc & H).
    exists [], rc. split; [exact H | apply quiet_nil].
Qed.

(** C6, as amended.  [fsck_all] runs the passes 1, 2, ... in ascending order,
    up to and including the first whose result is not zero, and all nine when
    every result is zero.  Outside rescue mode, when the result of [fsck_all]
    is not zero, [fs_init] goes on with [fs_remount_root], which runs no
    remount command; it prints the advisory message exactly when fstab could
    be opened and lists / with a type other than "ro"; and then the rootfs-up
    hook and mount -na follow. *)
Theorem fsck_failure_skips_remount :
  forall (E : environment) (s : state),
    (exists p,
        (1 <= p <= 9)%nat
        /\ exec (fsck_all E) s = exec (fsck_each E (pass_range 1 p)) s
        /\ fst (fsck_each E (pass_range 1 p) s) = repeat 0 (p - 1) ++ [fst (fsck_all E s)]
        /\ (fst (fsck_all E s) <> 0 \/ p = 9%nat))
    /\ (rescue s = 0 ->
        fst (fsck_all E s) <> 0 ->
        exists ok rc,
          exec (fs_init E) s
          = emits ((EvSetfsent ok
                    :: (if ok then
                          (if root_writable
                                (env_fstab E (trace (exec (fsck_all E) s) ++ [EvSetfsent ok]))
                           then [EvPrint 1 MSG_NO_REMOUNT]
                           else [])
                          ++ [EvEndfsent]
                        else []))
                   ++ mount_events E rc)
              (exec (fsck_all E) s)).
Proof.
  intros E s. split.
  - apply (fsck_passes_range E 9 1 0 s). lia.
  - intros Hr Herr.
    destruct (fs_init_checked E s Hr) as (ok & rrc & rc & H).
    exists ok, rc. rewrite H. unfold remount_events.
    apply Z.eqb_neq in Herr. now rewrite Herr.
Qed.

(** The witness of C6: / is listed read-write, and its check in pass 1 ends
    with status 4. *)
Lemma fsck_failure_skips_remount_witness :
  let E := sample_env false 0 0 (fun _ => 0) (sample_fstab "rw") sda1_damaged never_completed in
  rescue (initial_state E) = 0
  /\ fst (fsck_all E (initial_state E)) <> 0
  /\ exists ok rc,
      exec (fs_init E) (initial_state E)
      = emits ((EvSetfsent ok
                :: (if ok then
                      (if root_writable
                            (env_fstab E (trace (exec (fsck_all E) (initial_state E))
                                          ++ [EvSetfsent ok]))
                       then [EvPrint 1 MSG_NO_REMOUNT]
                       else [])
                      ++ [EvEndfsent]
                    else []))
               ++ mount_events E rc)
          (exec (fsck_all E) (initial_state E)).
Proof.
  cbv zeta. split; [reflexivity|]. split; [vm_compute; discriminate|].
  apply (proj2 (fsck_failure_skips_remount
                  (sample_env false 0 0 (fun _ => 0) (sample_fstab "rw") sda1_damaged
                     never_completed)
                  (initial_state
                     (sample_env false 0 0 (fun _ => 0) (sample_fstab "rw") sda1_damaged
                        never_completed)))).
  - reflexivity.
  - vm_compute. discriminate.
Defined.

(** What the boot of that machine logs in the filesystem phase. *)
Example fs_init_after_failed_check :
  let E := sample_env false 0 0 (fun _ => 0) (sample_fstab "rw") sda1_damaged never_completed in
  trace (exec (fs_init E) (initial_state E))
  = [EvSetfsent true;
     EvStat "/dev/sda1" true;
     EvIsmnt "/proc/mounts" "/" "rw" false;
     EvRunInteractive "fsck -a /dev/sda1" "Checking filesystem /dev/sda1" 4;
     EvEndfsent;
     EvSetfsent true;
     EvPrint 1 "Cannot remount / as read-write, fsck failed before";
     EvEndfsent;
     EvD "Root FS up, calling hooks ..." [];
     EvHook HOOK_ROOTFS_UP;
     EvRunInteractive "mount -na" "Mounting filesystems" 0;
     EvD "Calling extra mount hook, after mount -a ..." [];
     EvHook HOOK_MOUNT_POST;
     EvRun "swapon -ea";
     EvUmask 18].
Proof. vm_compute. reflexivity. Qed.

(** The counterexample of C6: / is listed with the type "ro" and its check in
    pass 1 ends with status 4.  [fsck_all] stops with 4, no remount is run,
    and no advisory message is printed. *)
Lemma fsck_failure_without_advisory :
  let E := sample_env false 0 0 (fun _ => 0) (sample_fstab "ro") sda1_damaged never_completed in
  rescue (initial_state E) = 0
  /\ fst (fsck_all E (initial_state E)) = 4
  /\ trace (exec (fs_init E) (initial_state E))
     = [EvSetfsent true;
        EvStat "/dev/sda1" true;
        EvIsmnt "/proc/mounts" "/" "rw" false;
        EvRunInteractive "fsck -a /dev/sda1" "Checking filesystem /dev/sda1" 4;
        EvEndfsent;
        EvSetfsent true;
        EvEndfsent;
        EvD "Root FS up, calling hooks ..." [];
        EvHook HOOK_ROOTFS_UP;
        EvRunInteractive "mount -na" "Mounting filesystems" 0;
        EvD "Calling extra mount hook, after mount -a ..." [];
        EvHook HOOK_MOUNT_POST;
        EvRun "swapon -ea";
        EvUmask 18]
  /\ ~ In (EvPrint 1 MSG_NO_REMOUNT) (trace (exec (fs_init E) (initial_state E))).
Proof.
  vm_compute. repeat split.
  intros H. repeat (destruct H as [H|H]; [discriminate H|]). exact H.
Qed.

Lemma callbacks_run_no_script :
  forall h l, Forall (fun e => runs_script e = false) (map (EvCallback h) l).
Proof. induction l; constructor; auto. Qed.

(** C7. [finalize] does, in this order: the run-parts directory, when one is
    configured, is a directory and the rescue flag is not set; service_runlevel
    with the configured level; svc_prune_bootstrap; the services-up hook; the
    rc.local script when access finds it executable and the rescue flag is not
    set; the system-up hook; log_silent; tty_runlevel.  With the rescue flag
    set neither run_parts nor the script is run, whatever fisdir and access
    answer. *)
Theorem finalize_order :
  forall (E : environment) (s : state),
  exists (isdir : bool) (a rc : Z),
    let evs :=
      match runparts s with
      | Some dir =>
          EvFisdir dir isdir
          :: (if isdir && (rescue s =? 0) then [EvRunParts dir] else [])
      | None => []
      end
      ++ [EvD FINALIZE_ENTRY [];
          EvServiceRunlevel (cfglevel s);
          EvD "Clean up all bootstrap-only tasks/services ..." [];
          EvSvcPruneBootstrap;
          EvD "Running svc up hooks ..." [];
          EvHook HOOK_SVC_UP]
      ++ map (EvCallback HOOK_SVC_UP) (env_hooks E HOOK_SVC_UP)
      ++ [EvServiceStepAll SVC_TYPE_ANY;
          EvAccess (FINIT_RC_LOCAL E) a]
      ++ (if (a =? 0) && (rescue s =? 0)
          then [EvRunInteractive (FINIT_RC_LOCAL E)
                                 (String.append "Calling " (FINIT_RC_LOCAL E)) rc]
          else [])
      ++ [EvD "Calling all system up hooks ..." [];
          EvHook HOOK_SYSTEM_UP]
      ++ map (EvCallback HOOK_SYSTEM_UP) (env_hooks E HOOK_SYSTEM_UP)
      ++ [EvServiceStepAll SVC_TYPE_ANY;
          EvD "Going silent ..." [];
          EvLogSilent;
          EvD "Launching all getty services ..." [];
          EvTtyRunlevel] in
    exec (finalize E) s = emits evs s
    /\ (rescue s <> 0 -> Forall (fun e => runs_script e = false) evs).
Proof.
  intros E s. destruct (finalize_exec E s) as (isdir & a & rc & H).
  exists isdir, a, rc. cbv zeta. split.
  - rewrite H. f_equal;
      unfold finalize_events, runparts_events, rc_local_events, hook_events;
      now evs_norm.
  - intros Hr. apply Z.eqb_neq in Hr. rewrite Hr, !andb_false_r.
    repeat (apply Forall_app; split);
      try apply callbacks_run_no_script;
      try (destruct (runparts s)); repeat constructor.
Qed.

(** The witness of C7: a boot in rescue mode with a run-parts directory and
    an executable rc.local on disk. *)
Lemma finalize_order_witness :
  let E := sample_env false 1 0 (fun _ => 0) (sample_fstab "rw") all_fine never_completed in
  let s := set_runparts (Some "/etc/start.d"%string) (set_rescue 1 (initial_state E)) in
  rescue s <> 0
  /\ Forall (fun e => runs_script e = false) (trace (exec (finalize E) s)).
Proof.
  cbv zeta. split; [discriminate|].
  destruct (finalize_order
              (sample_env false 1 0 (fun _ => 0) (sample_fstab "rw") all_fine never_completed)
              (set_runparts (Some "/etc/start.d"%string)
                 (set_rescue 1
                    (initial_state
                       (sample_env false 1 0 (fun _ => 0) (sample_fstab "rw") all_fine
                          never_completed)))))
    as (isdir & a & rc & Heq & Hskip).
  rewrite Heq. exact (Hskip ltac:(discriminate)).
Defined.

(** C10. When [final_worker] runs with a counter that is not positive, it
    still steps the services, it does not call service_completed (the trace
    has the step, one log line and then [finalize]; the number of polls is
    unchanged), it does not resubmit itself, and it runs [finalize] whatever
    service_completed would have answered. *)
Theorem exhausted_gate_skips_predicate :
  forall (E : environment) (w : wq) (s : state),
    cnt s <= 0 ->
    exists msg,
      exec (final_worker E w) s
      = exec (finalize E)
          (set_cnt (int_wrap (cnt s - 1))
             (emits [EvD "Step all services ..." [];
                     EvServiceStepAll SVC_TYPE_ANY;
                     EvD msg []] s))
      /\ polls (trace (exec (final_worker E w) s)) = polls (trace s)
      /\ finalize_entries (trace (exec (final_worker E w) s))
         = S (finalize_entries (trace s))
      /\ pending (exec (final_worker E w) s) = pending s
      /\ forall f,
           exec (final_worker (with_service_completed f E) w) s
           = exec (final_worker E w) s.
Proof.
  intros E w s Hc.
  assert (Hpos : (0 <? cnt s) = false) by (apply Z.ltb_ge; exact Hc).
  exists (resume_message (int_wrap (cnt s - 1))).
  rewrite final_worker_exec, Hpos. unfold stepped, step_events.
  rewrite emits_set_cnt. cbn [app].
  match goal with
  | |- exec (finalize E) ?s1 = _ /\ _ =>
      destruct (finalize_counts E s1) as (Hpo & Hfe & _ & Hpe & _)
  end.
  rewrite Hpo, Hfe, Hpe. cbn [trace set_cnt emits pending].
  rewrite polls_app, finalize_entries_app.
  destruct (gate_tail_counts false (int_wrap (cnt s - 1))) as (Htp & Htf & _).
  cbv zeta in Htp, Htf. cbn [app] in Htp, Htf. unfold step_events in Htp, Htf.
  cbn [app] in Htp, Htf. rewrite Htp, Htf.
  repeat split; try lia.
  intros f. rewrite final_worker_exec, Hpos. unfold stepped, step_events.
  rewrite emits_set_cnt. reflexivity.
Qed.

(** The witness of C10: the counter is 0, and service_completed would
    answer yes. *)
Lemma exhausted_gate_skips_predicate_witness :
  cnt (gate_state 0) <= 0
  /\ polls (trace (exec (final_worker (plain_env (completed_from 1)) final) (gate_state 0)))
     = polls (trace (gate_state 0)).
Proof.
  split; [cbn; lia|].
  destruct (exhausted_gate_skips_predicate (plain_env (completed_from 1)) final (gate_state 0))
    as (msg & _ & Hpolls & _).
  - cbn; lia.
  - exact Hpolls.
Defined.

(** ** main *)

Lemma main_setup_exec (E : environment) (s : state) :
  exists debug,
    exec (main_setup E) s
    = set_rescue (env_cmdline_rescue E)
        (emits (setup_events E (env_cmdline_rescue E) debug) s).
Proof.
  apply wp_exec. unfold main_setup, conf_parse_cmdline. autounfold with prims.
  repeat wp_step_any.
  all: unfold setup_events.
  all: first [ match goal with d : bool |- _ => exists d end | exists false ].
  all: repeat match goal with
              | H : (_ =? 0) = _ |- _ => rewrite H
              | H : negb ?d = _ |- _ => destruct d; try discriminate H; clear H
              end.
  all: evs_norm; reflexivity.
Qed.

Lemma banner_exec (E : environment) (s : state) :
  exists silent, exec (banner E) s = emits (banner_events E silent) s.
Proof.
  apply wp_exec. unfold banner. autounfold with prims.
  repeat wp_step_any.
  all: first [exists true; unfold banner_events; evs_norm; reflexivity
             |exists false; unfold banner_events; evs_norm; reflexivity].
Qed.

Lemma main_boot_exec (E : environment) (s : state) :
  exists silent fsevs rc,
    exec (main_boot E) s
    = mk_state (trace s ++ boot_events E silent fsevs rc)
               (rescue s)
               (match env_conf_runlevel E with Some l => l | None => cfglevel s end)
               (env_conf_runparts E)
               (cnt s)
               (Some (boot_conds E))
               (clock s)
               (enqueue (clock s + 1000) final (enqueue (clock s + 0) crank (pending s)))
    /\ quiet fsevs.
Proof.
  destruct (banner_exec E (emits [EvPluginInit] s)) as (silent & Hb).
  destruct (fs_init_frame E
              (emits ([EvPluginInit] ++ banner_events E silent ++ [EvSigInit; EvCgroupInit]) s))
    as (fsevs & rc & Hfs & Hq).
  exists silent, fsevs, rc. split; [|exact Hq].
  apply wp_exec. unfold main_boot. autounfold with prims.
  do 2 wp_step. wp_step. apply (wp_frame _ _ _ _ Hb). wp_tidy.
  do 5 wp_step.
  rewrite <- app_assoc.
  apply (wp_frame _ _ _ _ Hfs). wp_tidy.
  unfold conf_init, cond_init, cond_set_oneshot, schedule_work.
  autounfold with prims.
  repeat wp_step.
  unfold boot_events, config_events, boot_conds.
  cbn [existsb orb delay crank final]. rewrite orb_false_r.
  apply state_ext; fields; try reflexivity.
  all: try solve [now evs_norm].
  all: now destruct (String.eqb (plugin_hook_str E HOOK_ROOTFS_UP)
                                (plugin_hook_str E HOOK_BANNER)).
Qed.

(** ** The event loop after boot *)

Lemma crank_worker_exec :
  forall s, exec crank_worker s = emits [EvSmInit; EvSmStep] s.
Proof.
  intros. apply wp_exec. unfold crank_worker. autounfold with prims.
  repeat wp_step. reflexivity.
Qed.

(** The resubmitting run of [final_worker], as a frame on the state. *)
Lemma final_worker_again (E : environment) (w : wq) (s : state) :
  (0 <? cnt s) = true ->
  env_service_completed E (trace s ++ step_events) = false ->
  exec (final_worker E w) s
  = mk_state
      (trace s ++ step_events
       ++ [EvServiceCompleted false;
           EvD "Not all bootstrap run/tasks have completed yet ... %d"
               [AInt (int_wrap (cnt s - 1))];
           EvScheduleWork w])
      (rescue s) (cfglevel s) (runparts s) (int_wrap (cnt s - 1)) (conds s) (clock s)
      (enqueue (clock s + delay w) w (pending s)).
Proof.
  intros Hpos Hno. rewrite final_worker_exec, Hpos, Hno. unfold stepped.
  apply state_ext; fields; try reflexivity.
  now rewrite <- app_assoc.
Qed.

Lemma again_events_quiet :
  forall w c,
    let evs := step_events
               ++ [EvServiceCompleted false;
                   EvD "Not all bootstrap run/tasks have completed yet ... %d" [AInt c];
                   EvScheduleWork w] in
    finalize_entries evs = 0%nat /\ hooks_fired evs = [].
Proof. intros. split; reflexivity. Qed.

(** Whatever service_completed answers, a gate with a counter of at most [n]
    has run [finalize] after at most [n + 1] turns of the loop. *)
Lemma gate_terminates (E : environment) (w : wq) :
  cb w = cb_final_worker ->
  forall n s t fuel,
    pending s = [(t, w)] ->
    cnt s <= Z.of_nat n ->
    cnt s <= INT_MAX ->
    (n < fuel)%nat ->
    exists s1 evs,
      uev_run E fuel s = Returned (exec (finalize E) s1)
      /\ trace s1 = trace s ++ evs
      /\ finalize_entries evs = 0%nat
      /\ hooks_fired evs = []
      /\ pending s1 = []
      /\ conds s1 = conds s.
Proof.
  intros Hcb. induction n as [|n IH]; intros s t fuel Hpend Hn Hmax Hfuel.
  - destruct fuel as [|fuel]; [lia|].
    destruct (gate_last E w Hcb s t fuel Hpend ltac:(left; lia))
      as (s1 & Hrun & Htr & Hp & _ & _ & _ & Hc).
    destruct (gate_tail_counts (0 <? cnt s) (int_wrap (cnt s - 1))) as (_ & Hf & Hh).
    eexists s1, _. repeat split; eauto.
  - destruct fuel as [|fuel]; [lia|].
    destruct (0 <? cnt s) eqn:Hpos;
      [destruct (env_service_completed E (trace s ++ step_events)) eqn:Hdone|].
    + destruct (gate_last E w Hcb s t fuel Hpend ltac:(right; exact Hdone))
        as (s1 & Hrun & Htr & Hp & _ & _ & _ & Hc).
      destruct (gate_tail_counts (0 <? cnt s) (int_wrap (cnt s - 1))) as (_ & Hf & Hh).
      eexists s1, _. repeat split; eauto.
    + rewrite (uev_run_dispatch E fuel s t w [] Hpend).
      unfold run_callback. rewrite Hcb.
      rewrite final_worker_again
        by (cbn [cnt trace set_clock set_pending]; assumption).
      cbn [cnt clock pending trace rescue cfglevel runparts conds set_clock set_pending enqueue].
      apply Z.ltb_lt in Hpos.
      rewrite (int_wrap_id (cnt s - 1)) by (unfold INT_MIN, INT_MAX in *; lia).
      match goal with
      | |- exists s1 evs, uev_run E fuel ?s' = _ /\ _ =>
          destruct (IH s' (Z.max (clock s) t + delay w) fuel eq_refl) as
            (s1 & evs & Hrun & Htr & Hf & Hh & Hp & Hc)
      end; cbn [cnt]; try lia.
      exists s1. eexists. split; [exact Hrun|].
      cbn [trace conds] in Htr, Hc. rewrite Htr, <- app_assoc.
      split; [reflexivity|].
      rewrite finalize_entries_app, hooks_fired_app, Hf, Hh.
      destruct (again_events_quiet w (cnt s - 1)) as (Hf' & Hh').
      cbv zeta in Hf', Hh'. rewrite Hf', Hh'. repeat split; assumption.
    + destruct (gate_last E w Hcb s t fuel Hpend
                  ltac:(left; apply Z.ltb_ge in Hpos; exact Hpos))
        as (s1 & Hrun & Htr & Hp & _ & _ & _ & Hc).
      destruct (gate_tail_counts (0 <? cnt s) (int_wrap (cnt s - 1))) as (_ & Hf & Hh).
      eexists s1, _. repeat split; eauto.
Qed.

(** At any moment of the loop, [finalize] has run at most once. *)
Lemma gate_at_most_once (E : environment) (w : wq) :
  cb w = cb_final_worker ->
  forall fuel s t,
    pending s = [(t, w)] ->
    exists evs,
      trace (outcome_state (uev_run E fuel s)) = trace s ++ evs
      /\ (finalize_entries evs <= 1)%nat.
Proof.
  intros Hcb. induction fuel as [|fuel IH]; intros s t Hpend.
  - exists []. cbn [uev_run]. rewrite Hpend. cbn [outcome_state].
    split; [now rewrite app_nil_r | cbn; lia].
  - destruct (0 <? cnt s) eqn:Hpos;
      [destruct (env_service_completed E (trace s ++ step_events)) eqn:Hdone|].
    2:{ rewrite (uev_run_dispatch E fuel s t w [] Hpend).
        unfold run_callback. rewrite Hcb.
        rewrite final_worker_again
          by (cbn [cnt trace set_clock set_pending]; assumption).
        cbn [cnt clock pending trace rescue cfglevel runparts conds set_clock set_pending
             enqueue].
        match goal with
        | |- exists evs, trace (outcome_state (uev_run E fuel ?s')) = _ /\ _ =>
            destruct (IH s' (Z.max (clock s) t + delay w) eq_refl) as (evs & Htr & Hf)
        end.
        cbn [trace] in Htr. rewrite Htr, <- app_assoc.
        eexists. split; [reflexivity|].
        rewrite finalize_entries_app.
        destruct (again_events_quiet w (int_wrap (cnt s - 1))) as (Hf' & _).
        cbv zeta in Hf'. rewrite Hf'. lia. }
    all: match goal with
         | |- _ =>
             destruct (gate_last E w Hcb s t fuel Hpend) as (s1 & Hrun & Htr & _);
             [first [right; exact Hdone | left; apply Z.ltb_ge in Hpos; exact Hpos]|]
         end.
    all: rewrite Hrun; cbn [outcome_state].
    all: destruct (finalize_frame E s1) as (fe & Heq & _ & Hfe & _).
    all: rewrite Heq; cbn [trace emits]; rewrite Htr.
    all: destruct (gate_tail_counts (0 <? cnt s) (int_wrap (cnt s - 1))) as (_ & Hf & _).
    all: cbv zeta in Hf.
    all: rewrite <- app_assoc; eexists; (split; [reflexivity|]).
    all: rewrite finalize_entries_app, Hf, Hfe; lia.
Qed.

Lemma setup_events_quiet : forall E resc debug, quiet (setup_events E resc debug).
Proof.
  intros. unfold setup_events. destruct (resc =? 0), debug; repeat split.
Qed.

Lemma fork_events_quiet : forall E, quiet (fork_events E).
Proof. intros. unfold fork_events. destruct (EMERGENCY_SHELL E); repeat split. Qed.

Lemma banner_events_counts :
  forall E silent,
    polls (banner_events E silent) = 0%nat
    /\ finalize_entries (banner_events E silent) = 0%nat
    /\ hooks_fired (banner_events E silent) = [HOOK_BANNER]
    /\ cond_inits (banner_events E silent) = 0%nat.
Proof.
  intros. unfold banner_events.
  rewrite polls_app, finalize_entries_app, hooks_fired_app, cond_inits_app,
    hook_events_polls, hook_events_entries, hook_events_fired, hook_events_cond_inits.
  destruct silent; repeat split; reflexivity.
Qed.

Lemma config_events_split :
  forall E, config_events E = [EvConfInit; EvCondInit] ++ after_cond_init E.
Proof. reflexivity. Qed.

Lemma after_cond_init_counts :
  forall E,
    polls (after_cond_init E) = 0%nat
    /\ finalize_entries (after_cond_init E) = 0%nat
    /\ hooks_fired (after_cond_init E) = [HOOK_BASEFS_UP]
    /\ cond_inits (after_cond_init E) = 0%nat.
Proof.
  intros. unfold after_cond_init, config_events. cbn [skipn app].
  change (?a :: ?b :: ?c :: ?d :: ?l) with ([a; b; c; d] ++ l).
  repeat rewrite ?polls_app, ?finalize_entries_app, ?hooks_fired_app, ?cond_inits_app,
    ?hook_events_polls, ?hook_events_entries, ?hook_events_fired, ?hook_events_cond_inits.
  repeat split; reflexivity.
Qed.

Lemma boot_events_split :
  forall E silent fsevs rc,
    boot_events E silent fsevs rc
    = before_cond_init E silent fsevs rc ++ EvCondInit :: after_cond_init E.
Proof.
  intros. unfold boot_events, before_cond_init. rewrite config_events_split.
  now evs_norm.
Qed.

Lemma before_cond_init_counts :
  forall E silent fsevs rc,
    quiet fsevs ->
    polls (before_cond_init E silent fsevs rc) = 0%nat
    /\ finalize_entries (before_cond_init E silent fsevs rc) = 0%nat
    /\ hooks_fired (before_cond_init E silent fsevs rc)
       = [HOOK_BANNER; HOOK_ROOTFS_UP]
         ++ (if rc =? 0 then [] else [HOOK_MOUNT_ERROR]) ++ [HOOK_MOUNT_POST]
    /\ cond_inits (before_cond_init E silent fsevs rc) = 0%nat.
Proof.
  intros E silent fsevs rc (Hp & _ & Hf & Hh & Hc).
  destruct (mount_events_fired E rc) as (Hmp & _ & Hmf & Hmh & Hmc).
  destruct (banner_events_counts E silent) as (Hbp & Hbf & Hbh & Hbc).
  unfold before_cond_init.
  repeat rewrite ?polls_app, ?finalize_entries_app, ?hooks_fired_app, ?cond_inits_app.
  rewrite Hp, Hf, Hh, Hc, Hmp, Hmf, Hmh, Hmc, Hbp, Hbf, Hbh, Hbc.
  destruct (rc =? 0); repeat split; reflexivity.
Qed.

Lemma boot_events_counts :
  forall E silent fsevs rc,
    quiet fsevs ->
    polls (boot_events E silent fsevs rc) = 0%nat
    /\ finalize_entries (boot_events E silent fsevs rc) = 0%nat
    /\ hooks_fired (boot_events E silent fsevs rc) = boot_hooks rc.
Proof.
  intros E silent fsevs rc Hq.
  destruct (before_cond_init_counts E silent fsevs rc Hq) as (Hp & Hf & Hh & _).
  destruct (after_cond_init_counts E) as (Hap & Haf & Hah & _).
  rewrite boot_events_split.
  change (EvCondInit :: ?l) with ([EvCondInit] ++ l).
  repeat rewrite ?polls_app, ?finalize_entries_app, ?hooks_fired_app.
  rewrite Hp, Hf, Hh, Hap, Haf, Hah. unfold boot_hooks.
  repeat split; try reflexivity. now evs_norm.
Qed.

(** [main] as process 1, in the process that goes on after
    [emergency_shell]: the state in which the event loop is entered. *)
Lemma main_reaches_loop (E : environment) (wait_fuel loop_fuel : nat) :
  env_getpid E [] = 1 ->
  continues E ->
  exists debug silent fsevs rc sb,
    main E wait_fuel loop_fuel (initial_state E) = uev_run E loop_fuel sb
    /\ trace sb
       = [EvGetpid 1]
         ++ setup_events E (env_cmdline_rescue E) debug
         ++ fork_events E
         ++ boot_events E silent fsevs rc
    /\ quiet fsevs
    /\ pending sb = [(0, crank); (1000, final)]
    /\ cnt sb = 120
    /\ conds sb = Some (boot_conds E).
Proof.
  intros Hpid Hcont. unfold main, getpid, ask. cbv zeta.
  cbn [fst snd trace initial_state]. rewrite Hpid. cbn [Z.eqb Pos.eqb negb].
  destruct (main_setup_exec E (emits [EvGetpid 1] (initial_state E))) as (debug & Hsetup).
  rewrite Hsetup.
  assert (Hes : exists s,
             emergency_shell E wait_fuel
               (set_rescue (env_cmdline_rescue E)
                  (emits (setup_events E (env_cmdline_rescue E) debug)
                     (emits [EvGetpid 1] (initial_state E))))
             = Returned s
             /\ s = set_rescue (env_cmdline_rescue E)
                      (emits ([EvGetpid 1] ++ setup_events E (env_cmdline_rescue E) debug
                              ++ fork_events E) (initial_state E))).
  { unfold emergency_shell, fork_events, fork, ask.
    destruct (EMERGENCY_SHELL E) eqn:Hem.
    - destruct Hcont as [Hc|Hc]; [congruence|].
      cbv zeta. cbn [fst snd]. rewrite Hc. cbn [Z.eqb negb].
      eexists. split; [reflexivity|]. state_eq.
    - eexists. split; [reflexivity|]. state_eq. }
  destruct Hes as (s & Hes & Hs). rewrite Hes.
  destruct (main_boot_exec E s) as (silent & fsevs & rc & Hboot & Hq).
  exists debug, silent, fsevs, rc, (exec (main_boot E) s).
  split; [reflexivity|]. rewrite Hboot, Hs.
  cbn [trace emits set_rescue cnt conds clock pending initial_state app enqueue].
  split; [evs_eq; reflexivity|]. split; [exact Hq|]. repeat split.
Qed.

(** The loop entered after boot, with fuel for the whole gate. *)
Lemma loop_after_boot (E : environment) (sb : state) (fuel : nat) :
  pending sb = [(0, crank); (1000, final)] ->
  cnt sb = 120 ->
  (121 < fuel)%nat ->
  exists s1 evs,
    uev_run E fuel sb = Returned (exec (finalize E) s1)
    /\ trace s1 = trace sb ++ [EvSmInit; EvSmStep] ++ evs
    /\ finalize_entries evs = 0%nat
    /\ hooks_fired evs = []
    /\ pending s1 = []
    /\ conds s1 = conds sb.
Proof.
  intros Hpend Hcnt Hfuel. destruct fuel as [|fuel]; [lia|].
  rewrite (uev_run_dispatch E fuel sb 0 crank [(1000, final)] Hpend).
  unfold run_callback. cbn [cb crank]. rewrite crank_worker_exec.
  destruct (gate_terminates E final eq_refl 120
              (emits [EvSmInit; EvSmStep]
                 (set_clock (Z.max (clock sb) 0) (set_pending [(1000, final)] sb)))
              1000 fuel eq_refl)
    as (s1 & evs & Hrun & Htr & Hf & Hh & Hp & Hc);
    cbn [cnt emits set_clock set_pending]; unfold INT_MAX; try lia.
  exists s1, evs. cbn [trace conds emits set_clock set_pending] in Htr, Hc.
  rewrite Htr, <- app_assoc. repeat split; assumption.
Qed.

(** The loop entered after boot, at any moment. *)
Lemma loop_after_boot_any (E : environment) (sb : state) (fuel : nat) :
  pending sb = [(0, crank); (1000, final)] ->
  exists evs,
    trace (outcome_state (uev_run E fuel sb)) = trace sb ++ evs
    /\ (finalize_entries evs <= 1)%nat.
Proof.
  intros Hpend. destruct fuel as [|fuel].
  - exists []. cbn [uev_run]. rewrite Hpend. cbn [outcome_state].
    split; [now rewrite app_nil_r | cbn; lia].
  - rewrite (uev_run_dispatch E fuel sb 0 crank [(1000, final)] Hpend).
    unfold run_callback. cbn [cb crank]. rewrite crank_worker_exec.
    destruct (gate_at_most_once E final eq_refl fuel
                (emits [EvSmInit; EvSmStep]
                   (set_clock (Z.max (clock sb) 0) (set_pending [(1000, final)] sb)))
                1000 eq_refl)
      as (evs & Htr & Hf).
    cbn [trace emits set_clock set_pending] in Htr.
    rewrite Htr, <- app_assoc. eexists. split; [reflexivity|].
    rewrite finalize_entries_app. cbn. exact Hf.
Qed.

(** ** Orders of events *)

Lemma Subseq_app_skip : forall l seg tr, Subseq l tr -> Subseq l (seg ++ tr).
Proof.
  intros l seg tr H. induction seg as [|e seg IH]; [exact H|].
  cbn [app]. now apply Subseq_skip.
Qed.

Lemma Subseq_app_r : forall l tr more, Subseq l tr -> Subseq l (tr ++ more).
Proof.
  intros l tr more H. induction H; cbn [app]; constructor; assumption.
Qed.

Ltac subseq :=
  repeat first
    [ apply Subseq_nil
    | apply Subseq_take
    | apply Subseq_skip
    | apply Subseq_app_skip ].

Lemma boot_order_in_boot :
  forall E debug silent fsevs rc,
    Subseq (boot_order E)
           ([EvGetpid 1]
            ++ setup_events E (env_cmdline_rescue E) debug
            ++ fork_events E
            ++ boot_events E silent fsevs rc).
Proof.
  intros. unfold boot_order, setup_events, fork_events, boot_events, banner_events,
    mount_events, config_events, hook_events.
  destruct (env_cmdline_rescue E =? 0), debug, (EMERGENCY_SHELL E), silent, (rc =? 0);
    evs_norm; subseq.
Qed.

Lemma Subseq_tail : forall x l tr, Subseq (x :: l) tr -> Subseq l tr.
Proof.
  intros x l tr H. remember (x :: l) as xl eqn:Hxl.
  induction H as [tr|l0 e tr H IH|l0 e tr H IH].
  - discriminate.
  - apply Subseq_skip. now apply IH.
  - injection Hxl as -> ->. now apply Subseq_skip.
Qed.

Lemma subseqb_complete : forall tr l, Subseq l tr -> subseqb l tr = true.
Proof.
  induction tr as [|e tr IH]; intros l H.
  - inversion H; subst; reflexivity.
  - destruct l as [|x l]; [reflexivity|]. cbn [subseqb].
    destruct (event_eq_dec x e) as [->|Hne].
    + apply IH. inversion H; subst; [now apply Subseq_tail with e | assumption].
    + apply IH. inversion H; subst; [assumption | congruence].
Qed.

(** ** The boot as a whole *)

(** The counterexample of C3: on the usual machine conf_monitor, which reads
    the configuration of the directory, comes after cond_init, sig_setup and
    the basefs-up hook. *)
Lemma directory_configuration_comes_later :
  ~ Subseq config_order_directory_first
           (trace (outcome_state
                     (main (plain_env (completed_from 2)) 0 10
                           (initial_state (plain_env (completed_from 2)))))).
Proof.
  intros H. apply subseqb_complete in H. vm_compute in H. discriminate H.
Qed.

(** C4. In process 1, in the process that goes on after [emergency_shell] and
    with the loop run until the gate has ended, the hook points run in one
    order, whatever callbacks are registered: banner, rootfs-up, then mount
    -na; mount-error right after it exactly when its exit status is not zero;
    mount-post in either case; then basefs-up, services-up, system-up. *)
Theorem hook_points_fire_in_order :
  forall (E : environment) (wait_fuel loop_fuel : nat),
    env_getpid E [] = 1 ->
    continues E ->
    (121 < loop_fuel)%nat ->
    exists rc s' pre post,
      main E wait_fuel loop_fuel (initial_state E) = Returned s'
      /\ trace s'
         = pre ++ [EvRunInteractive "mount -na" "Mounting filesystems" rc] ++ post
      /\ hooks_fired pre = [HOOK_BANNER; HOOK_ROOTFS_UP]
      /\ hooks_fired post
         = (if rc =? 0 then [] else [HOOK_MOUNT_ERROR])
           ++ [HOOK_MOUNT_POST; HOOK_BASEFS_UP; HOOK_SVC_UP; HOOK_SYSTEM_UP]
      /\ hooks_fired (trace s')
         = [HOOK_BANNER; HOOK_ROOTFS_UP]
           ++ (if rc =? 0 then [] else [HOOK_MOUNT_ERROR])
           ++ [HOOK_MOUNT_POST; HOOK_BASEFS_UP; HOOK_SVC_UP; HOOK_SYSTEM_UP].
Proof.
  intros E wf lf Hpid Hcont Hfuel.
  destruct (main_reaches_loop E wf lf Hpid Hcont)
    as (debug & silent & fsevs & rc & sb & Hmain & Htr & Hq & Hpend & Hcnt & _).
  destruct (loop_after_boot E sb lf Hpend Hcnt Hfuel)
    as (s1 & evs & Hloop & Htr1 & _ & Hh & _).
  destruct (finalize_frame E s1) as (fevs & Hfin & _ & _ & _ & Hfh).
  destruct Hq as (_ & _ & _ & Hqh & _).
  destruct (setup_events_quiet E (env_cmdline_rescue E) debug) as (_ & _ & _ & Hsh & _).
  destruct (fork_events_quiet E) as (_ & _ & _ & Hkh & _).
  destruct (banner_events_counts E silent) as (_ & _ & Hbh & _).
  exists rc, (exec (finalize E) s1),
    ([EvGetpid 1] ++ setup_events E (env_cmdline_rescue E) debug ++ fork_events E
     ++ [EvPluginInit] ++ banner_events E silent ++ [EvSigInit; EvCgroupInit] ++ fsevs
     ++ [EvD "Root FS up, calling hooks ..." []] ++ hook_events E HOOK_ROOTFS_UP),
    ((if rc =? 0 then [] else hook_events E HOOK_MOUNT_ERROR)
     ++ [EvD "Calling extra mount hook, after mount -a ..." []]
     ++ hook_events E HOOK_MOUNT_POST ++ [EvRun "swapon -ea"; EvUmask 18]
     ++ config_events E ++ [EvSmInit; EvSmStep] ++ evs ++ fevs).
  assert (Hpre : hooks_fired
                   ([EvGetpid 1] ++ setup_events E (env_cmdline_rescue E) debug
                    ++ fork_events E ++ [EvPluginInit] ++ banner_events E silent
                    ++ [EvSigInit; EvCgroupInit] ++ fsevs
                    ++ [EvD "Root FS up, calling hooks ..." []]
                    ++ hook_events E HOOK_ROOTFS_UP)
                 = [HOOK_BANNER; HOOK_ROOTFS_UP]).
  { repeat rewrite hooks_fired_app.
    rewrite Hsh, Hkh, Hbh, Hqh, hook_events_fired. reflexivity. }
  assert (Hpost : hooks_fired
                    ((if rc =? 0 then [] else hook_events E HOOK_MOUNT_ERROR)
                     ++ [EvD "Calling extra mount hook, after mount -a ..." []]
                     ++ hook_events E HOOK_MOUNT_POST ++ [EvRun "swapon -ea"; EvUmask 18]
                     ++ config_events E ++ [EvSmInit; EvSmStep] ++ evs ++ fevs)
                  = (if rc =? 0 then [] else [HOOK_MOUNT_ERROR])
                    ++ [HOOK_MOUNT_POST; HOOK_BASEFS_UP; HOOK_SVC_UP; HOOK_SYSTEM_UP]).
  { destruct (after_cond_init_counts E) as (_ & _ & Hah & _).
    rewrite config_events_split.
    repeat rewrite hooks_fired_app.
    rewrite Hah, Hh, Hfh, hook_events_fired.
    destruct (rc =? 0); [reflexivity | now rewrite hook_events_fired]. }
  assert (Htrace : trace (exec (finalize E) s1)
                   = ([EvGetpid 1] ++ setup_events E (env_cmdline_rescue E) debug
                      ++ fork_events E ++ [EvPluginInit] ++ banner_events E silent
                      ++ [EvSigInit; EvCgroupInit] ++ fsevs
                      ++ [EvD "Root FS up, calling hooks ..." []]
                      ++ hook_events E HOOK_ROOTFS_UP)
                     ++ [EvRunInteractive "mount -na" "Mounting filesystems" rc]
                     ++ ((if rc =? 0 then [] else hook_events E HOOK_MOUNT_ERROR)
                         ++ [EvD "Calling extra mount hook, after mount -a ..." []]
                         ++ hook_events E HOOK_MOUNT_POST ++ [EvRun "swapon -ea"; EvUmask 18]
                         ++ config_events E ++ [EvSmInit; EvSmStep] ++ evs ++ fevs)).
  { rewrite Hfin. cbn [trace emits]. rewrite Htr1, Htr.
    unfold boot_events, mount_events. evs_eq. reflexivity. }
  split; [now rewrite Hmain|]. split; [exact Htrace|].
  split; [exact Hpre|]. split; [exact Hpost|].
  rewrite Htrace, hooks_fired_app, Hpre.
  rewrite (hooks_fired_app [EvRunInteractive "mount -na" "Mounting filesystems" rc]), Hpost.
  reflexivity.
Qed.

(** The witness of C4: the usual machine, with its callbacks on the banner
    and system-up hooks. *)
Lemma hook_points_fire_in_order_witness :
  exists rc s' pre post,
    main (plain_env never_completed) 0 122 (initial_state (plain_env never_completed))
    = Returned s'
    /\ trace s' = pre ++ [EvRunInteractive "mount -na" "Mounting filesystems" rc] ++ post
    /\ hooks_fired pre = [HOOK_BANNER; HOOK_ROOTFS_UP]
    /\ hooks_fired post
       = (if rc =? 0 then [] else [HOOK_MOUNT_ERROR])
         ++ [HOOK_MOUNT_POST; HOOK_BASEFS_UP; HOOK_SVC_UP; HOOK_SYSTEM_UP]
    /\ hooks_fired (trace s')
       = [HOOK_BANNER; HOOK_ROOTFS_UP]
         ++ (if rc =? 0 then [] else [HOOK_MOUNT_ERROR])
         ++ [HOOK_MOUNT_POST; HOOK_BASEFS_UP; HOOK_SVC_UP; HOOK_SYSTEM_UP].
Proof.
  apply (hook_points_fire_in_order (plain_env never_completed) 0 122).
  - reflexivity.
  - left. reflexivity.
  - lia.
Defined.

(** ** emergency_shell *)

Lemma become_shell_exec :
  forall E s,
    exec (become_shell E) s
    = emits (shell_events E (env_execl E (trace s ++ shell_prelude))) s.
Proof.
  intros. apply wp_exec. unfold become_shell. autounfold with prims.
  repeat wp_step. reflexivity.
Qed.

Lemma become_shell_answer :
  forall E s, fst (become_shell E s) = env_execl E (trace s ++ shell_prelude).
Proof.
  intros. change (wp (become_shell E) s (fun a _ => a = env_execl E (trace s ++ shell_prelude))).
  unfold become_shell. autounfold with prims.
  repeat wp_step. reflexivity.
Qed.

Lemma wait_events_quiet : forall E n h, quiet (wait_events E n h).
Proof.
  induction n as [|n IH]; intros h; [apply quiet_nil|].
  cbn [wait_events]. apply (quiet_app [_]); [repeat split | apply IH].
Qed.

(** The loop of [emergency_shell] ends at the first answer that is the pid
    waited for. *)
Lemma reap_found (E : environment) (pid : Z) :
  forall n fuel s,
    (n < fuel)%nat ->
    (forall i, (i < n)%nat -> env_waitpid E (trace s ++ wait_events E i (trace s)) <> pid) ->
    env_waitpid E (trace s ++ wait_events E n (trace s)) = pid ->
    reap E fuel pid s = Returned (emits (wait_events E (S n) (trace s)) s).
Proof.
  induction n as [|n IH]; intros fuel s Hfuel Hno Hyes.
  - destruct fuel as [|fuel]; [lia|].
    cbn [wait_events] in *. rewrite app_nil_r in Hyes.
    cbn [reap]. unfold waitpid, ask. cbv zeta. cbn [fst snd].
    rewrite Hyes, Z.eqb_refl. reflexivity.
  - destruct fuel as [|fuel]; [lia|].
    assert (H0 := Hno 0%nat ltac:(lia)). cbn [wait_events] in H0. rewrite app_nil_r in H0.
    cbn [reap]. unfold waitpid, ask. cbv zeta. cbn [fst snd].
    apply Z.eqb_neq in H0. rewrite H0.
    rewrite (IH fuel (emits [EvWaitpid (env_waitpid E (trace s))] s)).
    + rewrite emits_emits. reflexivity.
    + lia.
    + intros i Hi. specialize (Hno (S i) ltac:(lia)).
      cbn [wait_events trace emits] in *. now rewrite <- app_assoc.
    + cbn [wait_events trace emits] in *. now rewrite <- app_assoc.
Qed.

Lemma reap_frame (E : environment) (pid : Z) :
  forall fuel s,
  exists evs,
    quiet evs
    /\ (reap E fuel pid s = Returned (emits evs s) \/ reap E fuel pid s = Waiting (emits evs s)).
Proof.
  induction fuel as [|fuel IH]; intros s.
  - exists []. split; [apply quiet_nil|]. right. cbn [reap]. now rewrite emits_nil.
  - cbn [reap]. unfold waitpid, ask. cbv zeta. cbn [fst snd].
    destruct (env_waitpid E (trace s) =? pid).
    + eexists. split; [|left; reflexivity]. repeat split.
    + destruct (IH (emits [EvWaitpid (env_waitpid E (trace s))] s)) as (evs & Hq & H).
      exists ([EvWaitpid (env_waitpid E (trace s))] ++ evs).
      split; [apply quiet_app; [repeat split | exact Hq]|].
      rewrite emits_emits in H. exact H.
Qed.

Lemma shell_events_quiet : forall E ok, quiet (shell_events E ok).
Proof. intros. repeat split. Qed.

Lemma emergency_shell_frame (E : environment) (fuel : nat) (s : state) :
  exists evs,
    outcome_state (emergency_shell E fuel s) = emits evs s /\ quiet evs.
Proof.
  unfold emergency_shell, fork, ask. cbv zeta. cbn [fst snd].
  destruct (EMERGENCY_SHELL E).
  - destruct (negb (env_fork E (trace s) =? 0)).
    + destruct (reap_frame E (env_fork E (trace s)) fuel
                  (emits [EvFork (env_fork E (trace s))] s)) as (evs & Hq & [H|H]);
        rewrite H.
      * assert (Hout : forall (b : bool) (x : state),
                   outcome_state (if b then Replaced x else Returned x) = x)
          by (intros [] x; reflexivity).
        rewrite Hout. fold (exec (become_shell E) (emits evs
          (emits [EvFork (env_fork E (trace s))] s))).
        rewrite become_shell_exec, !emits_emits.
        eexists. split; [reflexivity|].
        repeat apply quiet_app; first [exact Hq | apply shell_events_quiet | repeat split].
      * cbn [outcome_state]. rewrite emits_emits.
        eexists. split; [reflexivity|].
        apply quiet_app; [repeat split | exact Hq].
    + eexists. split; [reflexivity|]. repeat split.
  - exists []. split; [now rewrite emits_nil | apply quiet_nil].
Qed.

(** C9, as amended.  Without EMERGENCY_SHELL the function does nothing.  With
    it the process forks.  The child returns from [emergency_shell] at once: it
    is the process that goes on with the boot.  The parent asks waitpid again
    and again, without blocking, until the answer is the pid of the child, that
    is until the child has ended; then it prints the two lines about the crash,
    becomes a session leader, takes the terminal and calls execl on the shell.
    When execl succeeds the process that waited is replaced by the rescue
    shell, it does not exit; when execl fails nothing follows it, so the
    function returns in the parent too, with the same calls made. *)
Theorem emergency_shell_roles :
  forall (E : environment) (fuel : nat) (s : state),
    (EMERGENCY_SHELL E = false -> emergency_shell E fuel s = Returned s)
    /\ (EMERGENCY_SHELL E = true ->
        (env_fork E (trace s) = 0 ->
         emergency_shell E fuel s = Returned (emits [EvFork 0] s))
        /\ (forall pid n,
               env_fork E (trace s) = pid ->
               pid <> 0 ->
               (n < fuel)%nat ->
               (forall i, (i < n)%nat -> wait_answer E s pid i <> pid) ->
               wait_answer E s pid n = pid ->
               (env_execl E (shell_history E s pid (S n)) = true ->
                emergency_shell E fuel s
                = Replaced
                    (emits ([EvFork pid]
                            ++ wait_events E (S n) (trace s ++ [EvFork pid])
                            ++ shell_events E true) s))
               /\ (env_execl E (shell_history E s pid (S n)) = false ->
                   emergency_shell E fuel s
                   = Returned
                       (emits ([EvFork pid]
                               ++ wait_events E (S n) (trace s ++ [EvFork pid])
                               ++ shell_events E false) s)))).
Proof.
  intros E fuel s. unfold emergency_shell, fork, ask. cbv zeta. cbn [fst snd].
  split; [intros ->; reflexivity|]. intros ->. split.
  - intros ->. reflexivity.
  - intros pid n Hfork Hpid Hfuel Hno Hyes. rewrite Hfork.
    apply Z.eqb_neq in Hpid. rewrite Hpid. cbn [negb].
    rewrite (reap_found E pid n fuel (emits [EvFork pid] s) Hfuel Hno Hyes).
    rewrite become_shell_answer.
    fold (exec (become_shell E)
            (emits (wait_events E (S n) (trace (emits [EvFork pid] s)))
               (emits [EvFork pid] s))).
    rewrite become_shell_exec, !emits_emits. cbn [trace emits].
    assert (Hh : (trace s ++ [EvFork pid]
                  ++ wait_events E (S n) (trace s ++ [EvFork pid]))
                 ++ shell_prelude
                 = shell_history E s pid (S n))
      by (unfold shell_history; now rewrite <- !app_assoc).
    rewrite Hh.
    split; intros ->; f_equal; f_equal; now rewrite <- !app_assoc.
Qed.

(** The witness of C9: the child of the fork goes on; the parent, whose
    third waitpid answers the pid 7 of the child, becomes the shell; and with
    an execl that fails the same parent returns after the same calls. *)
Lemma emergency_shell_roles_witness :
  emergency_shell (sample_env true 0 0 (fun _ => 0) (sample_fstab "rw") all_fine never_completed)
                  5 (gate_state 120)
  = Returned (emits [EvFork 0] (gate_state 120))
  /\ emergency_shell
       (sample_env true 0 7 (child_ends_at_third 7) (sample_fstab "rw") all_fine never_completed)
       5 (gate_state 120)
     = Replaced
         (emits [EvFork 7; EvWaitpid 0; EvWaitpid 0; EvWaitpid 7;
                 EvFprintf MSG_CRASHED; EvFprintf MSG_DEBUG_HINT;
                 EvSetsid; EvIoctl; EvExecl "/bin/sh" true]
            (gate_state 120))
  /\ emergency_shell
       (with_execl (fun _ => false)
          (sample_env true 0 7 (child_ends_at_third 7) (sample_fstab "rw") all_fine
             never_completed))
       5 (gate_state 120)
     = Returned
         (emits [EvFork 7; EvWaitpid 0; EvWaitpid 0; EvWaitpid 7;
                 EvFprintf MSG_CRASHED; EvFprintf MSG_DEBUG_HINT;
                 EvSetsid; EvIoctl; EvExecl "/bin/sh" false]
            (gate_state 120)).
Proof.
  split; [|split].
  - apply (proj2 (emergency_shell_roles
                    (sample_env true 0 0 (fun _ => 0) (sample_fstab "rw") all_fine
                       never_completed) 5 (gate_state 120)) eq_refl).
    reflexivity.
  - destruct (proj2 (emergency_shell_roles
                       (sample_env true 0 7 (child_ends_at_third 7) (sample_fstab "rw")
                          all_fine never_completed) 5 (gate_state 120)) eq_refl)
      as (_ & Hparent).
    destruct (Hparent 7 2%nat) as (Hshell & _).
    + reflexivity.
    + discriminate.
    + lia.
    + intros i Hi. destruct i as [|[|i]]; [discriminate | discriminate | lia].
    + reflexivity.
    + refine (eq_trans (Hshell _) _); vm_compute; reflexivity.
  - destruct (proj2 (emergency_shell_roles
                       (with_execl (fun _ => false)
                          (sample_env true 0 7 (child_ends_at_third 7) (sample_fstab "rw")
                             all_fine never_completed)) 5 (gate_state 120)) eq_refl)
      as (_ & Hparent).
    destruct (Hparent 7 2%nat) as (_ & Hback).
    + reflexivity.
    + discriminate.
    + lia.
    + intros i Hi. destruct i as [|[|i]]; [discriminate | discriminate | lia].
    + reflexivity.
    + refine (eq_trans (Hback _) _); vm_compute; reflexivity.
Defined.

(** The lines about the crash end with line feeds, as the source writes
    them: 69 and 54 bytes. *)
Example crash_lines_end_with_line_feeds :
  String.length MSG_CRASHED = 69%nat /\ String.length MSG_DEBUG_HINT = 54%nat.
Proof. split; reflexivity. Qed.

(** The counterexample of C9: the forked child is not replaced by a shell, it
    returns to go on with the boot; and the process that waited does not exit,
    its last act is the execl of the shell. *)
Lemma rescue_shell_is_the_parent :
  (forall s',
      emergency_shell
        (sample_env true 0 0 (fun _ => 0) (sample_fstab "rw") all_fine never_completed)
        5 (gate_state 120)
      <> Replaced s')
  /\ exists s',
      emergency_shell
        (sample_env true 0 7 (child_ends_at_third 7) (sample_fstab "rw") all_fine
           never_completed)
        5 (gate_state 120)
      = Replaced s'
      /\ last (trace s') EvSetsid = EvExecl "/bin/sh" true.
Proof.
  split.
  - intros s'. vm_compute. discriminate.
  - eexists. split; vm_compute; reflexivity.
Qed.

(** ** The claims on the whole process *)

Lemma boot_conds_set :
  forall E,
    existsb (String.eqb (plugin_hook_str E HOOK_BANNER)) (boot_conds E) = true
    /\ existsb (String.eqb (plugin_hook_str E HOOK_ROOTFS_UP)) (boot_conds E) = true.
Proof.
  intros E. unfold boot_conds.
  destruct (String.eqb (plugin_hook_str E HOOK_ROOTFS_UP) (plugin_hook_str E HOOK_BANNER))
    eqn:Heq; cbn [existsb]; rewrite ?String.eqb_refl, ?Heq, ?orb_true_r; split; reflexivity.
Qed.

(** C8.  In process 1, in the process that goes on after [emergency_shell]
    and with the loop run until the gate has ended: the banner and rootfs-up
    hooks run before cond_init, when there is no condition store yet; they do
    not run again after it; and at the end the one-shot conditions named after
    the two hook points are set. *)
Theorem early_hooks_are_set_retroactively :
  forall (E : environment) (wait_fuel loop_fuel : nat),
    env_getpid E [] = 1 ->
    continues E ->
    (121 < loop_fuel)%nat ->
    exists rc s' pre post,
      main E wait_fuel loop_fuel (initial_state E) = Returned s'
      /\ conds (initial_state E) = None
      /\ trace s' = pre ++ EvCondInit :: post
      /\ cond_inits pre = 0%nat
      /\ hooks_fired pre
         = [HOOK_BANNER; HOOK_ROOTFS_UP]
           ++ (if rc =? 0 then [] else [HOOK_MOUNT_ERROR]) ++ [HOOK_MOUNT_POST]
      /\ hooks_fired post = [HOOK_BASEFS_UP; HOOK_SVC_UP; HOOK_SYSTEM_UP]
      /\ cond_is_set (plugin_hook_str E HOOK_BANNER) s' = true
      /\ cond_is_set (plugin_hook_str E HOOK_ROOTFS_UP) s' = true.
Proof.
  intros E wf lf Hpid Hcont Hfuel.
  destruct (main_reaches_loop E wf lf Hpid Hcont)
    as (debug & silent & fsevs & rc & sb & Hmain & Htr & Hq & Hpend & Hcnt & Hconds).
  destruct (loop_after_boot E sb lf Hpend Hcnt Hfuel)
    as (s1 & evs & Hloop & Htr1 & _ & Hh & _ & Hc1).
  destruct (finalize_frame E s1) as (fevs & Hfin & _ & _ & _ & Hfh).
  destruct (finalize_counts E s1) as (_ & _ & _ & _ & Hcf).
  destruct (setup_events_quiet E (env_cmdline_rescue E) debug) as (_ & _ & _ & Hsh & Hsc).
  destruct (fork_events_quiet E) as (_ & _ & _ & Hkh & Hkc).
  destruct (before_cond_init_counts E silent fsevs rc Hq) as (_ & _ & Hbh & Hbc).
  destruct (after_cond_init_counts E) as (_ & _ & Hah & _).
  destruct (boot_conds_set E) as (Hset1 & Hset2).
  exists rc, (exec (finalize E) s1),
    ([EvGetpid 1] ++ setup_events E (env_cmdline_rescue E) debug ++ fork_events E
     ++ before_cond_init E silent fsevs rc),
    (after_cond_init E ++ [EvSmInit; EvSmStep] ++ evs ++ fevs).
  split; [now rewrite Hmain|]. split; [reflexivity|]. split.
  { rewrite Hfin. cbn [trace emits]. rewrite Htr1, Htr, boot_events_split.
    evs_eq. reflexivity. }
  split.
  { repeat rewrite cond_inits_app. rewrite Hsc, Hkc, Hbc. reflexivity. }
  split.
  { repeat rewrite hooks_fired_app. rewrite Hsh, Hkh, Hbh. reflexivity. }
  split.
  { repeat rewrite hooks_fired_app. rewrite Hah, Hh, Hfh. reflexivity. }
  unfold cond_is_set. rewrite Hcf, Hc1, Hconds. split; assumption.
Qed.

(** The witness of C8: the usual machine. *)
Lemma early_hooks_are_set_retroactively_witness :
  exists rc s' pre post,
    main (plain_env never_completed) 0 122 (initial_state (plain_env never_completed))
    = Returned s'
    /\ conds (initial_state (plain_env never_completed)) = None
    /\ trace s' = pre ++ EvCondInit :: post
    /\ cond_inits pre = 0%nat
    /\ hooks_fired pre
       = [HOOK_BANNER; HOOK_ROOTFS_UP]
         ++ (if rc =? 0 then [] else [HOOK_MOUNT_ERROR]) ++ [HOOK_MOUNT_POST]
    /\ hooks_fired post = [HOOK_BASEFS_UP; HOOK_SVC_UP; HOOK_SYSTEM_UP]
    /\ cond_is_set (plugin_hook_str (plain_env never_completed) HOOK_BANNER) s' = true
    /\ cond_is_set (plugin_hook_str (plain_env never_completed) HOOK_ROOTFS_UP) s' = true.
Proof.
  apply (early_hooks_are_set_retroactively (plain_env never_completed) 0 122).
  - reflexivity.
  - left. reflexivity.
  - lia.
Defined.

(** C2, as amended.  Whatever the environment and at any moment of the life
    of the process, [finalize] has run at most once: [final_worker] calls it
    only in the run in which it does not resubmit itself, and nothing else
    calls it.  [finalize] itself has no guard: each call runs it, and counts
    as one more run. *)
Theorem finalize_runs_at_most_once :
  forall (E : environment) (wait_fuel loop_fuel : nat),
    (finalize_entries
       (trace (outcome_state (main E wait_fuel loop_fuel (initial_state E)))) <= 1)%nat
    /\ forall s,
         finalize_entries (trace (exec (finalize E) s)) = S (finalize_entries (trace s)).
Proof.
  intros E wf lf. split; [|intros s; apply finalize_counts].
  unfold main, getpid, ask. cbv zeta. cbn [fst snd trace initial_state].
  destruct (env_getpid E [] =? 1) eqn:Hpid; cbn [negb].
  2:{ cbn. lia. }
  apply Z.eqb_eq in Hpid. rewrite Hpid.
  destruct (main_setup_exec E (emits [EvGetpid 1] (initial_state E))) as (debug & Hsetup).
  rewrite Hsetup.
  match goal with
  | |- context [emergency_shell E wf ?s0] =>
      destruct (emergency_shell_frame E wf s0) as (fevs & Hes & Hq);
      destruct (emergency_shell E wf s0) as [s|s|s]; cbn [outcome_state] in Hes |- *
  end.
  - destruct (main_boot_exec E s) as (silent & fsevs & rc & Hboot & Hqf).
    destruct (loop_after_boot_any E (exec (main_boot E) s) lf) as (evs & Hloop & Hle).
    { rewrite Hboot, Hes. reflexivity. }
    rewrite Hloop, Hboot, Hes. cbn [trace emits set_rescue initial_state app].
    destruct (boot_events_counts E silent fsevs rc Hqf) as (_ & Hbf & _).
    destruct (setup_events_quiet E (env_cmdline_rescue E) debug) as (_ & _ & Hsf & _).
    destruct Hq as (_ & _ & Hff & _).
    change (EvGetpid 1 :: ?l) with ([EvGetpid 1] ++ l).
    repeat rewrite finalize_entries_app. rewrite Hbf, Hsf, Hff. cbn. lia.
  - rewrite Hes. cbn [trace emits set_rescue initial_state app].
    destruct (setup_events_quiet E (env_cmdline_rescue E) debug) as (_ & _ & Hsf & _).
    destruct Hq as (_ & _ & Hff & _).
    change (EvGetpid 1 :: ?l) with ([EvGetpid 1] ++ l).
    repeat rewrite finalize_entries_app. rewrite Hsf, Hff. cbn. lia.
  - rewrite Hes. cbn [trace emits set_rescue initial_state app].
    destruct (setup_events_quiet E (env_cmdline_rescue E) debug) as (_ & _ & Hsf & _).
    destruct Hq as (_ & _ & Hff & _).
    change (EvGetpid 1 :: ?l) with ([EvGetpid 1] ++ l).
    repeat rewrite finalize_entries_app. rewrite Hsf, Hff. cbn. lia.
Qed.

(** The counterexample of C2: called a second time, [finalize] is not
    rejected; it runs again and adds the same events once more. *)
Lemma finalize_runs_again :
  let E := plain_env never_completed in
  let s1 := exec (finalize E) (initial_state E) in
  finalize_entries (trace s1) = 1%nat
  /\ finalize_entries (trace (exec (finalize E) s1)) = 2%nat
  /\ trace (exec (finalize E) s1) = trace s1 ++ trace s1.
Proof. vm_compute. repeat split. Qed.

(** C5, the failing input: service_completed answers no 119 times and yes at
    poll 120, the last one the budget allows.  The poll is answered yes, and
    the line logged next is the one of the timeout. *)
Theorem success_at_last_poll_is_logged_as_timeout :
  let E := plain_env (completed_from 120) in
  let tr := trace (outcome_state (main E 0 122 (initial_state E))) in
  polls tr = 120%nat
  /\ exists rest, last_poll tr = Some (true, EvD MSG_TIMEOUT [] :: rest).
Proof. vm_compute. split; [reflexivity | eexists; reflexivity]. Qed.

(** One poll earlier the same success is logged as a success. *)
Example success_before_last_poll_is_logged_as_success :
  let E := plain_env (completed_from 119) in
  let tr := trace (outcome_state (main E 0 122 (initial_state E))) in
  polls tr = 119%nat
  /\ exists rest, last_poll tr = Some (true, EvD MSG_COMPLETED [] :: rest).
Proof. vm_compute. split; [reflexivity | eexists; reflexivity]. Qed.

(** The boot of the usual machine, with service_completed answering yes at
    the second poll: the whole trace. *)
Example boot_of_the_usual_machine :
  let E := plain_env (completed_from 2) in
  trace (outcome_state (main E 0 10 (initial_state E)))
  = [EvGetpid 1; EvConfParseCmdline; EvUevInit;
     EvSetenv "PATH" "/usr/bin:/bin:/usr/sbin:/sbin";
     EvSetenv "SHELL" "/bin/sh"; EvChdir "/";
     EvUmask 0; EvLogIsDebug false; EvScreenInit; EvPluginInit;
     EvHook HOOK_BANNER; EvCallback HOOK_BANNER 0;
     EvLogIsSilent false; EvPrintBanner "Finit"; EvSigInit;
     EvCgroupInit; EvSetfsent true; EvStat "/dev/sda1" true;
     EvIsmnt "/proc/mounts" "/" "rw" false;
     EvRunInteractive "fsck -a /dev/sda1" "Checking filesystem /dev/sda1" 0;
     EvEndfsent; EvSetfsent true; EvStat "/dev/sda2" true;
     EvIsmnt "/proc/mounts" "/home" "rw" false;
     EvRunInteractive "fsck -a /dev/sda2" "Checking filesystem /dev/sda2" 0;
     EvEndfsent; EvSetfsent true; EvEndfsent;
     EvSetfsent true; EvEndfsent; EvSetfsent true; EvEndfsent;
     EvSetfsent true; EvEndfsent; EvSetfsent true; EvEndfsent;
     EvSetfsent true; EvEndfsent; EvSetfsent true; EvEndfsent;
     EvSetfsent true;
     EvRunInteractive "mount -n -o remount,rw /" "Remounting / as read-write" 0;
     EvEndfsent; EvD "Root FS up, calling hooks ..." [];
     EvHook HOOK_ROOTFS_UP;
     EvRunInteractive "mount -na" "Mounting filesystems" 0;
     EvD "Calling extra mount hook, after mount -a ..." [];
     EvHook HOOK_MOUNT_POST; EvRun "swapon -ea";
     EvUmask 18; EvConfInit; EvCondInit;
     EvCondSetOneshot "hook/banner";
     EvCondSetOneshot "hook/rootfs/up"; EvSigSetup;
     EvD "Base FS up, calling hooks ..." [];
     EvHook HOOK_BASEFS_UP; EvConfMonitor;
     EvD "Starting initctl API responder ..." []; EvApiInit;
     EvUmask 18; EvD "Starting the big state machine ..." [];
     EvScheduleWork crank;
     EvD "Starting bootstrap finalize timer ..." [];
     EvScheduleWork final;
     EvD "Entering main loop ..." []; EvUevRun; EvSmInit; EvSmStep;
     EvD "Step all services ..." []; EvServiceStepAll SVC_TYPE_ANY;
     EvServiceCompleted false;
     EvD "Not all bootstrap run/tasks have completed yet ... %d" [AInt 119];
     EvScheduleWork final;
     EvD "Step all services ..." []; EvServiceStepAll SVC_TYPE_ANY;
     EvServiceCompleted true;
     EvD "All run/task have completed, resuming bootstrap." [];
     EvFisdir "/etc/start.d" true; EvRunParts "/etc/start.d";
     EvD "Change to default runlevel, start all services ..." [];
     EvServiceRunlevel 3;
     EvD "Clean up all bootstrap-only tasks/services ..." [];
     EvSvcPruneBootstrap; EvD "Running svc up hooks ..." [];
     EvHook HOOK_SVC_UP; EvServiceStepAll SVC_TYPE_ANY;
     EvAccess "/etc/rc.local" 0;
     EvRunInteractive "/etc/rc.local" "Calling /etc/rc.local" 0;
     EvD "Calling all system up hooks ..." [];
     EvHook HOOK_SYSTEM_UP; EvCallback HOOK_SYSTEM_UP 1;
     EvCallback HOOK_SYSTEM_UP 2; EvServiceStepAll SVC_TYPE_ANY;
     EvD "Going silent ..." []; EvLogSilent;
     EvD "Launching all getty services ..." []; EvTtyRunlevel].
Proof. vm_compute. reflexivity. Qed.

(** * Further properties of the code *)

(** ** fsck *)

Lemma int_wrap_range : forall z, INT_MIN <= int_wrap z <= INT_MAX.
Proof.
  intros z. unfold int_wrap, INT_MIN, INT_MAX.
  assert (H := Z.mod_pos_bound (z + 2147483648) 4294967296 ltac:(lia)). lia.
Qed.

Lemma int_wrap_add_l : forall a b, int_wrap (int_wrap a + b) = int_wrap (a + b).
Proof.
  intros a b. unfold int_wrap.
  replace ((a + 2147483648) mod 4294967296 - 2147483648 + b + 2147483648)
    with ((a + 2147483648) mod 4294967296 + b) by lia.
  rewrite Z.add_mod_idemp_l by lia. f_equal. f_equal. lia.
Qed.

Lemma status_sum_app : forall a b, status_sum (a ++ b) = status_sum a + status_sum b.
Proof.
  induction a as [|e a IH]; intros b; cbn [app status_sum fold_right].
  - reflexivity.
  - fold (status_sum (a ++ b)) (status_sum a). rewrite IH. lia.
Qed.

(** The loop of [fsck]: the result is the wrapped sum of the statuses of the
    commands it ran, on top of the sum it started with. *)
Lemma fsck_entries_shape (E : environment) (pass : Z) :
  forall entries rc s,
    INT_MIN <= rc <= INT_MAX ->
    exists evs,
      fst (fsck_entries E pass entries rc s) = int_wrap (rc + status_sum evs)
      /\ exec (fsck_entries E pass entries rc) s = emits evs s
      /\ Forall (fsck_loop_event E) evs.
Proof.
  induction entries as [|fs rest IH]; intros rc s Hrc.
  - exists []. cbn [fsck_entries status_sum fold_right]. unfold ret, exec. cbn [fst snd].
    rewrite Z.add_0_r, int_wrap_id by exact Hrc. rewrite emits_nil. repeat split. constructor.
  - cbn [fsck_entries].
    destruct (negb (fs_passno fs =? pass)); [apply IH; exact Hrc|].
    autounfold with prims.
    change (wp (isblk <- ask (fun h => env_stat_isblk E h (fs_spec fs)) (EvStat (fs_spec fs)) ;;
                if negb isblk
                   && (negb (string_match E (fs_spec fs) "UUID=")
                       && negb (string_match E (fs_spec fs) "LABEL="))
                then
                  err <- gets (fun s0 => env_strerror E (trace s0)) ;;
                  emit (EvD "Cannot fsck %s, not a block device: %s"
                            [AStr (fs_spec fs); AStr err]) ;;
                  fsck_entries E pass rest rc
                else
                  mounted <- ask (fun h => env_ismnt E h "/proc/mounts" (fs_file fs) "rw")
                                 (EvIsmnt "/proc/mounts" (fs_file fs) "rw") ;;
                  if mounted then
                    emit (EvD "Skipping fsck of %s, already mounted rw on %s."
                              [AStr (fs_spec fs); AStr (fs_file fs)]) ;;
                    fsck_entries E pass rest rc
                  else
                    r <- ask (fun h => env_run_interactive E h
                                         (snprintf 80 (String.append "fsck -a " (fs_spec fs))))
                             (EvRunInteractive
                                (snprintf 80 (String.append "fsck -a " (fs_spec fs)))
                                (String.append "Checking filesystem "
                                               (String.substring 0 13 (fs_spec fs)))) ;;
                    fsck_entries E pass rest (int_wrap (rc + r)))
               s
               (fun a s' =>
                  exists evs,
                    a = int_wrap (rc + status_sum evs)
                    /\ s' = emits evs s
                    /\ Forall (fsck_loop_event E) evs)).
    repeat wp_step.
    all: lazymatch goal with
         | IH' : forall rc s, _ -> exists evs, _
           |- wp (fsck_entries _ _ _ ?rc') (emits ?l ?s0) _ =>
             destruct (IH' rc' (emits l s0)) as (evs & Hres & Hst & Hall);
             [first [assumption | apply int_wrap_range]|];
             unfold wp; unfold exec in Hst; rewrite Hres, Hst, emits_emits;
             exists (l ++ evs); split; [|split; [reflexivity|]]
         end.
    all: try (apply Forall_app; split; [repeat constructor | exact Hall]).
    all: rewrite status_sum_app; cbn [status_sum fold_right status_of app];
      rewrite ?int_wrap_add_l; f_equal; lia.
Qed.

Lemma wp_pair {A : Type} (m : M A) s (Q : A -> state -> Prop) a s' :
  fst (m s) = a -> exec m s = s' -> Q a s' -> wp m s Q.
Proof. intros <- <-. exact (fun H => H). Qed.

Lemma wp_run {A : Type} (m : M A) s (a : A) (s' : state) :
  wp m s (fun x y => x = a /\ y = s') -> m s = (a, s').
Proof. unfold wp. destruct (m s); cbn. intros [-> ->]. reflexivity. Qed.

(** [fsck] when fstab cannot be opened. *)
Lemma fsck_closed (E : environment) (pass : Z) (s : state) :
  env_setfsent E (trace s) = false ->
  fsck E pass s = (1, emits [EvSetfsent false; EvPe "Failed opening fstab"] s).
Proof.
  intros H. apply wp_run. unfold fsck. autounfold with prims.
  apply wp_bind, wp_ask. rewrite H. cbn [negb].
  repeat wp_step. split; reflexivity.
Qed.

(** [fsck] when fstab opens. *)
Lemma fsck_open (E : environment) (pass : Z) (s : state) :
  env_setfsent E (trace s) = true ->
  exists evs,
    fsck E pass s
    = (int_wrap (status_sum evs), emits (EvSetfsent true :: evs ++ [EvEndfsent]) s)
    /\ Forall (fsck_loop_event E) evs.
Proof.
  intros H.
  destruct (fsck_entries_shape E pass (env_fstab E (trace s ++ [EvSetfsent true])) 0
              (emits [EvSetfsent true] s)) as (evs & Hres & Hst & Hall).
  { unfold INT_MIN, INT_MAX. lia. }
  exists evs. split; [|exact Hall].
  apply wp_run. unfold fsck. autounfold with prims.
  apply wp_bind, wp_ask. rewrite H. cbn [negb].
  do 2 wp_step. apply wp_bind.
  apply (wp_pair _ _ _ _ _ Hres Hst). wp_tidy.
  repeat wp_step. cbn [Z.add]. split; reflexivity.
Qed.

Lemma loop_events_statuses :
  forall E evs,
    Forall (fsck_loop_event E) evs ->
    (forall h cmd, env_run_interactive E h cmd = 0) ->
    status_sum evs = 0.
Proof.
  intros E evs Hall Hzero. induction Hall as [|e evs He _ IH]; [reflexivity|].
  cbn [status_sum fold_right]. fold (status_sum evs). rewrite IH.
  destruct He; cbn [status_of]; rewrite ?Hzero; reflexivity.
Qed.

(** X1.  fsck, the result.  When fstab opens, [fsck] brackets its loop between
    setfsent and endfsent and returns the sum of the exit statuses of the
    checks it ran, wrapped into an int; it returns 0 when every check exits
    with 0. *)
Theorem fsck_returns_the_wrapped_sum :
  forall (E : environment) (pass : Z) (s : state),
    env_setfsent E (trace s) = true ->
    exists evs,
      fsck E pass s
      = (int_wrap (status_sum evs), emits (EvSetfsent true :: evs ++ [EvEndfsent]) s)
      /\ Forall (fsck_loop_event E) evs
      /\ ((forall h cmd, env_run_interactive E h cmd = 0) -> fst (fsck E pass s) = 0).
Proof.
  intros E pass s H. destruct (fsck_open E pass s H) as (evs & Heq & Hall).
  exists evs. split; [exact Heq|]. split; [exact Hall|].
  intros Hzero. rewrite Heq. cbn [fst].
  now rewrite (loop_events_statuses E evs Hall Hzero).
Qed.

(** The witness: fstab opens. *)
Lemma fsck_returns_the_wrapped_sum_witness :
  let E := sample_env false 0 0 (fun _ => 0) (sample_fstab "rw") all_fine never_completed in
  env_setfsent E (trace (initial_state E)) = true
  /\ fst (fsck E 1 (initial_state E)) = 0.
Proof.
  cbv zeta. split; [reflexivity|].
  destruct (fsck_returns_the_wrapped_sum
              (sample_env false 0 0 (fun _ => 0) (sample_fstab "rw") all_fine never_completed) 1
              (initial_state
                 (sample_env false 0 0 (fun _ => 0) (sample_fstab "rw") all_fine
                    never_completed)) eq_refl) as (evs & _ & _ & Hzero).
  apply Hzero. reflexivity.
Defined.

(** [fs_remount_root] when fstab cannot be opened: it returns at once. *)
Lemma fs_remount_root_closed (E : environment) (fsckerr : Z) (s : state) :
  env_setfsent E (trace s) = false ->
  exec (fs_remount_root E fsckerr) s = emits [EvSetfsent false] s.
Proof.
  intros H. apply wp_exec. unfold fs_remount_root. autounfold with prims.
  apply wp_bind, wp_ask. rewrite H. cbn [negb]. apply wp_ret. reflexivity.
Qed.

(** X2.  fstab that cannot be opened.  When setfsent fails, [fsck_all] gives up
    in pass 1: it logs the failure, returns 1 and runs no check.  [fs_init]
    then tries fstab once more for the remount, leaves / alone without a
    message, and goes on to the rootfs-up hook and mount -na. *)
Theorem unreadable_fstab_stops_the_checks :
  forall (E : environment) (s : state),
    (forall h, env_setfsent E h = false) ->
    fsck_all E s = (1, emits [EvSetfsent false; EvPe "Failed opening fstab"] s)
    /\ (rescue s = 0 ->
        exists rc,
          exec (fs_init E) s
          = emits ([EvSetfsent false; EvPe "Failed opening fstab"; EvSetfsent false]
                   ++ mount_events E rc) s).
Proof.
  intros E s Hclosed.
  assert (Hall : fsck_all E s
                 = (1, emits [EvSetfsent false; EvPe "Failed opening fstab"] s)).
  { unfold fsck_all. cbn [Z.to_nat Z.sub Z.add Z.opp Z.pos_sub Pos.to_nat Pos.iter_op
                          Pos.pred_double Init.Nat.add fsck_passes].
    change (Pos.to_nat 9) with 9%nat. cbn [fsck_passes]. unfold bind. cbv zeta.
    rewrite (fsck_closed E 1 s (Hclosed _)). reflexivity. }
  split; [exact Hall|]. intros Hr.
  apply wp_exec. unfold fs_init. autounfold with prims.
  do 3 wp_step. rewrite Hr. cbn [Z.eqb].
  wp_step.
  apply (wp_pair _ _ _ _ _ (f_equal fst Hall) (f_equal snd Hall)). cbn [fst snd].
  apply (wp_frame _ _ _ _ (fs_remount_root_closed E 1 _ (Hclosed _))). wp_tidy.
  repeat wp_step_any.
  all: eexists; unfold mount_events.
  all: match goal with H : negb (_ =? 0) = _ |- _ =>
         apply (f_equal negb) in H; rewrite negb_involutive in H; cbn [negb] in H; rewrite H
       end.
  all: evs_norm; reflexivity.
Qed.

(** The witness: setfsent always fails. *)
Lemma unreadable_fstab_stops_the_checks_witness :
  let E := with_setfsent (fun _ => false) (plain_env never_completed) in
  fst (fsck_all E (initial_state E)) = 1
  /\ commands (trace (exec (fsck_all E) (initial_state E))) = 0%nat.
Proof.
  cbv zeta.
  destruct (unreadable_fstab_stops_the_checks
              (with_setfsent (fun _ => false) (plain_env never_completed))
              (initial_state (with_setfsent (fun _ => false) (plain_env never_completed)))
              (fun _ => eq_refl)) as (Hall & _).
  unfold exec. rewrite Hall. split; reflexivity.
Defined.

Lemma fsck_entries_none (E : environment) (pass : Z) :
  forall entries rc s,
    Forall (fun fs => fs_passno fs <> pass) entries ->
    fsck_entries E pass entries rc s = (rc, s).
Proof.
  induction entries as [|fs rest IH]; intros rc s Hall; [reflexivity|].
  inversion Hall as [|? ? Hfs Hrest]; subst. cbn [fsck_entries].
  apply Z.eqb_neq in Hfs. rewrite Hfs. cbn [negb]. now apply IH.
Qed.

Lemma fsck_idle (E : environment) (pass : Z) (s : state) :
  (forall h, env_setfsent E h = true) ->
  (forall h, Forall outside_passes (env_fstab E h)) ->
  1 <= pass <= 9 ->
  fsck E pass s = (0, emits idle_pass s).
Proof.
  intros Hopen Hout Hpass. apply wp_run. unfold fsck. autounfold with prims.
  apply wp_bind, wp_ask. rewrite Hopen. cbn [negb].
  do 2 wp_step. apply wp_bind.
  assert (Hnone : fsck_entries E pass (env_fstab E (trace s ++ [EvSetfsent true])) 0
                    (emits [EvSetfsent true] s)
                  = (0, emits [EvSetfsent true] s)).
  { apply fsck_entries_none. eapply Forall_impl; [|apply Hout].
    unfold outside_passes. intros fs Hfs. lia. }
  apply (wp_pair _ _ _ _ _ (f_equal fst Hnone) (f_equal snd Hnone)). cbn [fst snd].
  repeat wp_step. split; reflexivity.
Qed.

Lemma fsck_passes_idle (E : environment) :
  (forall h, env_setfsent E h = true) ->
  (forall h, Forall outside_passes (env_fstab E h)) ->
  forall todo pass s,
    1 <= pass ->
    pass + Z.of_nat todo <= 10 ->
    fsck_passes E todo pass 0 s = (0, emits (List.concat (repeat idle_pass todo)) s).
Proof.
  intros Hopen Hout. induction todo as [|todo IH]; intros pass s Hlo Hhi.
  - cbn [fsck_passes repeat List.concat]. unfold ret. now rewrite emits_nil.
  - cbn [fsck_passes repeat List.concat]. unfold bind. cbv zeta.
    rewrite (fsck_idle E pass s Hopen Hout ltac:(lia)). cbn [fst snd Z.eqb negb].
    rewrite IH by lia. now rewrite emits_emits.
Qed.

(** X3.  the passes of fsck_all.  An entry of fstab whose pass number is not
    one of 1..9 is never checked: when fstab has only such entries, [fsck_all]
    opens and closes fstab nine times, runs no check, asks nothing about any
    entry, and returns 0. *)
Theorem entries_outside_the_passes_are_not_checked :
  forall (E : environment) (s : state),
    (forall h, env_setfsent E h = true) ->
    (forall h, Forall outside_passes (env_fstab E h)) ->
    fsck_all E s = (0, emits (List.concat (repeat idle_pass 9)) s).
Proof.
  intros E s Hopen Hout. unfold fsck_all.
  apply (fsck_passes_idle E Hopen Hout (Z.to_nat (10 - 1)) 1 s);
    [lia | vm_compute; intros H; discriminate H].
Qed.

(** The witness: proc with pass number 0 and a disk with pass number 12. *)
Lemma entries_outside_the_passes_are_not_checked_witness :
  let E := sample_env false 0 0 (fun _ => 0) unchecked_fstab sda1_damaged never_completed in
  fsck_all E (initial_state E)
  = (0, emits (List.concat (repeat idle_pass 9)) (initial_state E)).
Proof.
  apply (entries_outside_the_passes_are_not_checked
           (sample_env false 0 0 (fun _ => 0) unchecked_fstab sda1_damaged never_completed)).
  - intros h. reflexivity.
  - intros h. repeat constructor; unfold outside_passes; cbn; lia.
Defined.

(** ** fs_init *)

Lemma fstab_opens_app : forall a b, fstab_opens (a ++ b) = (fstab_opens a + fstab_opens b)%nat.
Proof. intros. unfold fstab_opens. now rewrite filter_app, length_app. Qed.

Lemma fstab_closes_app :
  forall a b, fstab_closes (a ++ b) = (fstab_closes a + fstab_closes b)%nat.
Proof. intros. unfold fstab_closes. now rewrite filter_app, length_app. Qed.

Lemma commands_app : forall a b, commands (a ++ b) = (commands a + commands b)%nat.
Proof. intros. unfold commands. now rewrite filter_app, length_app. Qed.

Lemma hook_events_no_fstab :
  forall E h,
    fstab_opens (hook_events E h) = 0%nat
    /\ fstab_closes (hook_events E h) = 0%nat
    /\ commands (hook_events E h) = 0%nat.
Proof.
  intros E h. unfold hook_events. induction (env_hooks E h) as [|c l IH]; [repeat split|].
  exact IH.
Qed.

Lemma loop_events_no_fstab :
  forall E evs,
    Forall (fsck_loop_event E) evs ->
    fstab_opens evs = 0%nat /\ fstab_closes evs = 0%nat.
Proof.
  intros E evs Hall. induction Hall as [|e evs He _ [IHo IHc]]; [split; reflexivity|].
  change (e :: evs) with ([e] ++ evs). rewrite fstab_opens_app, fstab_closes_app, IHo, IHc.
  destruct He; split; reflexivity.
Qed.

Lemma mount_events_no_fstab :
  forall E rc,
    fstab_opens (mount_events E rc) = 0%nat
    /\ fstab_closes (mount_events E rc) = 0%nat
    /\ commands (mount_events E rc) = 1%nat.
Proof.
  intros E rc. unfold mount_events.
  destruct (hook_events_no_fstab E HOOK_ROOTFS_UP) as (Ho1 & Hc1 & Hm1).
  destruct (hook_events_no_fstab E HOOK_MOUNT_ERROR) as (Ho2 & Hc2 & Hm2).
  destruct (hook_events_no_fstab E HOOK_MOUNT_POST) as (Ho3 & Hc3 & Hm3).
  repeat rewrite ?fstab_opens_app, ?fstab_closes_app, ?commands_app.
  rewrite Ho1, Hc1, Hm1, Ho3, Hc3, Hm3.
  destruct (rc =? 0); rewrite ?Ho2, ?Hc2, ?Hm2; repeat split; reflexivity.
Qed.

Lemma fsck_balanced (E : environment) (pass : Z) (s : state) :
  exists evs,
    exec (fsck E pass) s = emits evs s
    /\ fstab_opens evs = fstab_closes evs
    /\ (fstab_opens evs <= 1)%nat.
Proof.
  destruct (env_setfsent E (trace s)) eqn:Hopen.
  - destruct (fsck_open E pass s Hopen) as (evs & Heq & Hall).
    destruct (loop_events_no_fstab E evs Hall) as (Ho & Hc).
    eexists. split; [unfold exec; rewrite Heq; reflexivity|].
    change (EvSetfsent true :: evs ++ [EvEndfsent])
      with ([EvSetfsent true] ++ evs ++ [EvEndfsent]).
    rewrite !fstab_opens_app, !fstab_closes_app, Ho, Hc. cbn. lia.
  - eexists. split; [unfold exec; rewrite (fsck_closed E pass s Hopen); reflexivity|].
    cbn. lia.
Qed.

Lemma fsck_passes_balanced (E : environment) :
  forall todo pass rc s,
  exists evs,
    exec (fsck_passes E todo pass rc) s = emits evs s
    /\ fstab_opens evs = fstab_closes evs
    /\ (fstab_opens evs <= todo)%nat.
Proof.
  induction todo as [|todo IH]; intros pass rc s.
  - exists []. split; [symmetry; apply emits_nil | cbn; lia].
  - cbn [fsck_passes]. unfold exec, bind. cbv zeta.
    destruct (fsck_balanced E pass s) as (e1 & H1 & Hb1 & Hl1). unfold exec in H1.
    rewrite H1.
    destruct (negb (fst (fsck E pass s) =? 0)).
    + exists e1. cbn [ret snd]. repeat split; [exact Hb1 | lia].
    + destruct (IH (pass + 1) (fst (fsck E pass s)) (emits e1 s)) as (e2 & H2 & Hb2 & Hl2).
      unfold exec in H2. rewrite H2, emits_emits.
      exists (e1 ++ e2). rewrite fstab_opens_app, fstab_closes_app.
      repeat split; lia.
Qed.

Lemma remount_events_balanced :
  forall fsckerr ok entries rc,
    fstab_opens (remount_events fsckerr ok entries rc)
    = fstab_closes (remount_events fsckerr ok entries rc)
    /\ (fstab_opens (remount_events fsckerr ok entries rc) <= 1)%nat.
Proof.
  intros. unfold remount_events.
  destruct ok, (root_writable entries), (fsckerr =? 0); cbn; lia.
Qed.

(** X4.  fstab is closed as often as it is opened.  Whatever the environment
    answers, in [fs_init] every setfsent that succeeds is followed by one
    endfsent, none is called without it, and fstab is opened at most ten
    times: once per pass and once for the remount. *)
Theorem fstab_is_closed_as_often_as_opened :
  forall (E : environment) (s : state),
  exists evs,
    exec (fs_init E) s = emits evs s
    /\ fstab_opens evs = fstab_closes evs
    /\ (fstab_opens evs <= 10)%nat.
Proof.
  intros E s. destruct (Z.eq_dec (rescue s) 0) as [Hr|Hr].
  - destruct (fs_init_checked E s Hr) as (ok & rrc & rc & H).
    destruct (fsck_passes_balanced E (Z.to_nat (10 - 1)) 1 0 s) as (evs & Heq & Hb & Hl).
    fold (fsck_all E) in Heq. rewrite Heq in H. rewrite emits_emits in H.
    eexists. split; [exact H|].
    match goal with
    | |- context [remount_events ?a ?b ?c ?d] =>
        destruct (remount_events_balanced a b c d) as (Hrb & Hrl)
    end.
    destruct (mount_events_no_fstab E rc) as (Hmo & Hmc & _).
    rewrite !fstab_opens_app, !fstab_closes_app, Hmo, Hmc.
    change (Z.to_nat (10 - 1)) with 9%nat in Hl. lia.
  - destruct (fs_init_rescue E s Hr) as (rc & H).
    destruct (mount_events_no_fstab E rc) as (Hmo & Hmc & _).
    eexists. split; [exact H|]. rewrite Hmo, Hmc. lia.
Qed.

(** X5.  fs_init in rescue mode.  With the rescue flag set, [fs_init] opens no
    fstab, checks nothing and remounts nothing: it runs the rootfs-up hook and
    mount -na at once, and mount -na is the only command it runs through
    run_interactive. *)
Theorem rescue_mode_checks_nothing :
  forall (E : environment) (s : state),
    rescue s <> 0 ->
    exists rc,
      exec (fs_init E) s = emits (mount_events E rc) s
      /\ fstab_opens (mount_events E rc) = 0%nat
      /\ commands (mount_events E rc) = 1%nat.
Proof.
  intros E s Hr. destruct (fs_init_rescue E s Hr) as (rc & H).
  destruct (mount_events_no_fstab E rc) as (Hmo & _ & Hmm).
  exists rc. repeat split; assumption.
Qed.

(** The witness: the rescue flag is 1 and the check of / would fail. *)
Lemma rescue_mode_checks_nothing_witness :
  let E := sample_env false 1 0 (fun _ => 0) (sample_fstab "rw") sda1_damaged never_completed in
  rescue (set_rescue 1 (initial_state E)) <> 0
  /\ commands (trace (exec (fs_init E) (set_rescue 1 (initial_state E)))) = 1%nat.
Proof.
  cbv zeta. split; [discriminate|].
  destruct (rescue_mode_checks_nothing
              (sample_env false 1 0 (fun _ => 0) (sample_fstab "rw") sda1_damaged
                 never_completed)
              (set_rescue 1
                 (initial_state
                    (sample_env false 1 0 (fun _ => 0) (sample_fstab "rw") sda1_damaged
                       never_completed)))) as (rc & Heq & _ & Hm).
  - discriminate.
  - rewrite Heq. exact Hm.
Defined.

(** X6.  fs_init after clean checks.  Outside rescue mode, when [fsck_all]
    returns 0, [fs_remount_root] prints no advisory message; it runs the
    remount of / exactly when fstab could be opened and lists / with a type
    other than "ro", and the rootfs-up hook and mount -na follow in either
    case. *)
Theorem clean_checks_remount_root :
  forall (E : environment) (s : state),
    rescue s = 0 ->
    fst (fsck_all E s) = 0 ->
    exists ok rrc rc,
      exec (fs_init E) s
      = emits ((EvSetfsent ok
                :: (if ok then
                      (if root_writable
                            (env_fstab E (trace (exec (fsck_all E) s) ++ [EvSetfsent ok]))
                       then [EvRunInteractive "mount -n -o remount,rw /"
                                              "Remounting / as read-write" rrc]
                       else [])
                      ++ [EvEndfsent]
                    else []))
               ++ mount_events E rc)
          (exec (fsck_all E) s).
Proof.
  intros E s Hr Hok.
  destruct (fs_init_checked E s Hr) as (ok & rrc & rc & H).
  exists ok, rrc, rc. rewrite H. unfold remount_events. now rewrite Hok.
Qed.

(** The witness: the usual machine, whose checks all end with 0. *)
Lemma clean_checks_remount_root_witness :
  let E := plain_env never_completed in
  rescue (initial_state E) = 0
  /\ fst (fsck_all E (initial_state E)) = 0
  /\ commands (trace (exec (fs_init E) (initial_state E))) = 4%nat.
Proof.
  cbv zeta. split; [reflexivity|]. split; [vm_compute; reflexivity|].
  destruct (clean_checks_remount_root (plain_env never_completed)
              (initial_state (plain_env never_completed)) eq_refl)
    as (ok & rrc & rc & Heq).
  - vm_compute. reflexivity.
  - vm_compute. reflexivity.
Defined.

(** ** The entries of a pass *)

Lemma fsck_entries_blocks (E : environment) (pass : Z) :
  forall entries rc s,
  exists blocks,
    exec (fsck_entries E pass entries rc) s = emits (List.concat blocks) s
    /\ Forall2 (entry_events E) (filter (in_pass pass) entries) blocks.
Proof.
  induction entries as [|fs rest IH]; intros rc s.
  - exists []. split; [symmetry; apply emits_nil | constructor].
  - cbn [fsck_entries filter]. unfold in_pass at 1.
    destruct (fs_passno fs =? pass) eqn:Hp; cbn [negb]; [|apply IH].
    autounfold with prims. apply wp_exec.
    repeat wp_step_any.
    all: lazymatch goal with
         | IH' : forall rc s, exists blocks, _
           |- wp (fsck_entries _ _ _ ?rc') (emits ?l ?s0) _ =>
             unfold wp; destruct (IH' rc' (emits l s0)) as (blocks & Heq & Hall);
             unfold exec in Heq; rewrite Heq, emits_emits;
             exists (l :: blocks); split; [reflexivity|]; constructor; [|exact Hall]
         end.
    all: match goal with
         | H : negb ?r && _ = _ |- _ =>
             assert (Hc : checkable E r (fs_spec fs)
                          = negb (negb r && (negb (string_match E (fs_spec fs) "UUID=")
                                             && negb (string_match E (fs_spec fs) "LABEL="))))
               by (unfold checkable;
                   destruct r, (string_match E (fs_spec fs) "UUID="),
                     (string_match E (fs_spec fs) "LABEL="); reflexivity);
             rewrite H in Hc; cbn [negb] in Hc
         end.
    + destruct r; [discriminate Heqb|]. now apply ee_not_block.
    + now apply ee_mounted.
    + now apply ee_checked.
Qed.

Lemma entry_events_commands :
  forall E fs l, entry_events E fs l -> (commands l <= 1)%nat.
Proof. intros E fs l H. destruct H; cbn; lia. Qed.

Lemma blocks_commands :
  forall E fss blocks,
    Forall2 (entry_events E) fss blocks ->
    (commands (List.concat blocks) <= List.length fss)%nat.
Proof.
  intros E fss blocks H. induction H as [|fs l fss blocks Hl _ IH]; [cbn; lia|].
  cbn [List.concat List.length]. rewrite commands_app.
  apply entry_events_commands in Hl. lia.
Qed.

(** X7.  fsck, entry by entry.  When fstab opens, [fsck] handles the entries of
    its pass one by one, each once and in the order of fstab, and touches no
    other entry.  For each it asks stat first; an entry that is neither a
    block device nor named by UUID= or LABEL= is skipped with a debug line; any
    other is looked up in /proc/mounts, skipped when it is mounted read-write,
    and checked otherwise.  So no check is run on a filesystem that is reported
    as mounted read-write. *)
Theorem fsck_handles_each_entry_of_its_pass_once :
  forall (E : environment) (pass : Z) (s : state),
    env_setfsent E (trace s) = true ->
    exists blocks,
      exec (fsck E pass) s
      = emits ([EvSetfsent true] ++ List.concat blocks ++ [EvEndfsent]) s
      /\ Forall2 (entry_events E)
                 (filter (in_pass pass) (env_fstab E (trace s ++ [EvSetfsent true])))
                 blocks.
Proof.
  intros E pass s Hopen.
  destruct (fsck_entries_blocks E pass (env_fstab E (trace s ++ [EvSetfsent true])) 0
              (emits [EvSetfsent true] s)) as (blocks & Heq & Hall).
  exists blocks. split; [|exact Hall].
  apply wp_exec. unfold fsck. autounfold with prims.
  apply wp_bind, wp_ask. rewrite Hopen. cbn [negb].
  do 2 wp_step. apply wp_bind.
  apply (wp_frame _ _ _ _ Heq). wp_tidy.
  repeat wp_step. reflexivity.
Qed.

(** The witness: pass 1 on the usual machine checks /dev/sda1 and leaves
    /dev/sda2 to pass 2. *)
Lemma fsck_handles_each_entry_of_its_pass_once_witness :
  let E := plain_env never_completed in
  env_setfsent E (trace (initial_state E)) = true
  /\ exists blocks,
       exec (fsck E 1) (initial_state E)
       = emits ([EvSetfsent true] ++ List.concat blocks ++ [EvEndfsent]) (initial_state E)
       /\ List.length blocks = 1%nat.
Proof.
  cbv zeta. split; [reflexivity|].
  destruct (fsck_handles_each_entry_of_its_pass_once (plain_env never_completed) 1
              (initial_state (plain_env never_completed)) eq_refl) as (blocks & Heq & Hall).
  exists blocks. split; [exact Heq|].
  apply Forall2_length in Hall. rewrite <- Hall. reflexivity.
Defined.

Lemma due_in_first :
  forall pass n fs,
    due_in pass (S n) fs = in_pass pass fs || due_in (pass + 1) n fs
    /\ (in_pass pass fs = true -> due_in (pass + 1) n fs = false).
Proof.
  intros pass n fs. unfold in_pass, due_in. rewrite Nat2Z.inj_succ.
  destruct (Z.eqb_spec (fs_passno fs) pass), (Z.leb_spec (pass + 1) (fs_passno fs)),
    (Z.ltb_spec (fs_passno fs) (pass + 1 + Z.of_nat n)), (Z.leb_spec pass (fs_passno fs)),
    (Z.ltb_spec (fs_passno fs) (pass + Z.succ (Z.of_nat n)));
    cbn [andb orb]; split; try reflexivity; try discriminate; lia.
Qed.

Lemma due_in_split :
  forall pass n l,
    (List.length (filter (in_pass pass) l) + List.length (filter (due_in (pass + 1) n) l)
     = List.length (filter (due_in pass (S n)) l))%nat.
Proof.
  intros pass n l. induction l as [|fs l IH]; [reflexivity|].
  cbn [filter]. destruct (due_in_first pass n fs) as (Heq & Hex). rewrite Heq.
  destruct (in_pass pass fs); [rewrite (Hex eq_refl)|];
    destruct (due_in (pass + 1) n fs); cbn [orb List.length]; lia.
Qed.

Lemma fsck_commands (E : environment) (table : list fstab) (pass : Z) (s : state) :
  (forall h, env_fstab E h = table) ->
  exists evs,
    exec (fsck E pass) s = emits evs s
    /\ (commands evs <= List.length (filter (in_pass pass) table))%nat.
Proof.
  intros Htable. destruct (env_setfsent E (trace s)) eqn:Hopen.
  - destruct (fsck_entries_blocks E pass (env_fstab E (trace s ++ [EvSetfsent true])) 0
                (emits [EvSetfsent true] s)) as (blocks & Heq & Hall).
    apply blocks_commands in Hall. rewrite Htable in Hall.
    exists ([EvSetfsent true] ++ List.concat blocks ++ [EvEndfsent]).
    split.
    + apply wp_exec. unfold fsck. autounfold with prims.
      apply wp_bind, wp_ask. rewrite Hopen. cbn [negb].
      do 2 wp_step. apply wp_bind.
      apply (wp_frame _ _ _ _ Heq). wp_tidy.
      repeat wp_step. reflexivity.
    + rewrite !commands_app. cbn. cbn in Hall. lia.
  - eexists. split; [unfold exec; rewrite (fsck_closed E pass s Hopen); reflexivity|].
    cbn. lia.
Qed.

Lemma fsck_passes_commands (E : environment) (table : list fstab) :
  (forall h, env_fstab E h = table) ->
  forall todo pass rc s,
  exists evs,
    exec (fsck_passes E todo pass rc) s = emits evs s
    /\ (commands evs <= List.length (filter (due_in pass todo) table))%nat.
Proof.
  intros Htable. induction todo as [|todo IH]; intros pass rc s.
  - exists []. split; [symmetry; apply emits_nil | cbn; lia].
  - cbn [fsck_passes]. unfold exec, bind. cbv zeta.
    destruct (fsck_commands E table pass s Htable) as (e1 & H1 & Hc1). unfold exec in H1.
    rewrite H1. rewrite <- due_in_split.
    destruct (negb (fst (fsck E pass s) =? 0)).
    + exists e1. cbn [ret snd]. split; [reflexivity | lia].
    + destruct (IH (pass + 1) (fst (fsck E pass s)) (emits e1 s)) as (e2 & H2 & Hc2).
      unfold exec in H2. rewrite H2, emits_emits.
      exists (e1 ++ e2). rewrite commands_app. split; [reflexivity | lia].
Qed.

(** X8.  fsck_all, the number of checks.  With an fstab that stays the same
    during the passes, [fsck_all] runs at most one check for each entry whose
    pass number is one of 1..9, and none for any other entry: no filesystem
    is checked a second time in a later pass. *)
Theorem fsck_all_checks_each_entry_at_most_once :
  forall (E : environment) (table : list fstab) (s : state),
    (forall h, env_fstab E h = table) ->
    exists evs,
      exec (fsck_all E) s = emits evs s
      /\ (commands evs <= List.length (filter (due_in 1 9) table))%nat.
Proof.
  intros E table s Htable.
  apply (fsck_passes_commands E table Htable (Z.to_nat (10 - 1)) 1 0 s).
Qed.

(** The witness: the usual machine, with two entries to check. *)
Lemma fsck_all_checks_each_entry_at_most_once_witness :
  let E := plain_env never_completed in
  exists evs,
    exec (fsck_all E) (initial_state E) = emits evs (initial_state E)
    /\ (commands evs <= 2)%nat.
Proof.
  apply (fsck_all_checks_each_entry_at_most_once (plain_env never_completed)
           (sample_fstab "rw") (initial_state (plain_env never_completed))).
  intros h. reflexivity.
Defined.

(** ** The command line of a check *)

Lemma substring_length :
  forall n s, (String.length (String.substring 0 n s) <= n)%nat.
Proof.
  induction n as [|n IH]; intros s; destruct s as [|c s]; cbn; try lia.
  specialize (IH s). lia.
Qed.

Lemma substring_whole :
  forall n s, (String.length s <= n)%nat -> String.substring 0 n s = s.
Proof.
  induction n as [|n IH]; intros s Hs; destruct s as [|c s]; cbn in *; try reflexivity;
    try lia.
  f_equal. apply IH. lia.
Qed.

Lemma append_length :
  forall a b, String.length (String.append a b) = (String.length a + String.length b)%nat.
Proof. induction a as [|c a IH]; intros b; cbn; [reflexivity | now rewrite IH]. Qed.

Lemma fsck_command_cut :
  forall spec, fsck_command spec = String.append "fsck -a " (String.substring 0 71 spec).
Proof. intros spec. reflexivity. Qed.

(** X9.  fsck, the command line.  The command of a check is built in a buffer
    of 80 bytes: it never has more than 79 characters; it is "fsck -a "
    followed by the device when the device has at most 71 characters, and
    followed by the first 71 characters of the device otherwise, so that a
    longer device name is cut.  The progress text shows at most the first 13
    characters of the device. *)
Theorem fsck_command_fits_the_buffer :
  forall spec : string,
    (String.length (fsck_command spec) <= 79)%nat
    /\ ((String.length spec <= 71)%nat ->
        fsck_command spec = String.append "fsck -a " spec)
    /\ ((71 < String.length spec)%nat ->
        fsck_command spec = String.append "fsck -a " (String.substring 0 71 spec)
        /\ fsck_command spec <> String.append "fsck -a " spec)
    /\ (String.length (fsck_description spec) <= 33)%nat.
Proof.
  intros spec. rewrite fsck_command_cut. repeat split.
  - rewrite append_length. assert (H := substring_length 71 spec). cbn. cbn in H. lia.
  - intros H. now rewrite substring_whole.
  - intros Heq. apply (f_equal String.length) in Heq. rewrite !append_length in Heq.
    assert (Hs := substring_length 71 spec). lia.
  - unfold fsck_description. rewrite append_length.
    assert (H := substring_length 13 spec). cbn. cbn in H. lia.
Qed.

(** The witness: a device path of 81 characters loses its last 10. *)
Lemma fsck_command_fits_the_buffer_witness :
  (71 < String.length long_spec)%nat
  /\ fsck_command long_spec
     = "fsck -a /dev/disk/by-id/ata-EXAMPLE_DISK_MODEL_0123456789_SERIALNUMBER012345678"%string.
Proof.
  split; [vm_compute; lia|].
  destruct (fsck_command_fits_the_buffer long_spec) as (_ & _ & Hcut & _).
  destruct Hcut as (Heq & _); [vm_compute; lia|].
  rewrite Heq. reflexivity.
Defined.

(** ** The process that is not process 1 *)

(** X10.  main outside process 1.  A process whose pid is not 1 only runs the
    client: it reads no command line, forks nothing, runs no hook, schedules
    no work and never enters the event loop; the globals are left as they
    were. *)
Theorem other_processes_run_the_client :
  forall (E : environment) (wait_fuel loop_fuel : nat) (s : state),
    env_getpid E (trace s) <> 1 ->
    main E wait_fuel loop_fuel s
    = Returned (emits [EvGetpid (env_getpid E (trace s)); EvClient] s).
Proof.
  intros E wf lf s Hpid. unfold main, getpid, ask, client, emit, modify, exec.
  cbv zeta. cbn [fst snd]. apply Z.eqb_neq in Hpid. rewrite Hpid. cbn [negb].
  now rewrite emits_emits.
Qed.

(** The witness: the usual machine, asked from process 42. *)
Lemma other_processes_run_the_client_witness :
  let E := with_getpid 42 (plain_env never_completed) in
  env_getpid E (trace (initial_state E)) <> 1
  /\ main E 5 200 (initial_state E)
     = Returned (emits [EvGetpid 42; EvClient] (initial_state E)).
Proof.
  cbv zeta. split; [discriminate|].
  apply (other_processes_run_the_client (with_getpid 42 (plain_env never_completed)) 5 200
           (initial_state (with_getpid 42 (plain_env never_completed)))).
  discriminate.
Defined.

(** ** The parent of the fork *)

Lemma wait_events_length : forall E n h, List.length (wait_events E n h) = n.
Proof. induction n as [|n IH]; intros h; cbn [wait_events List.length]; auto. Qed.

Lemma reap_waiting (E : environment) (pid : Z) :
  (forall h, env_waitpid E h <> pid) ->
  forall fuel s, reap E fuel pid s = Waiting (emits (wait_events E fuel (trace s)) s).
Proof.
  intros Hno. induction fuel as [|fuel IH]; intros s.
  - cbn [reap wait_events]. now rewrite emits_nil.
  - cbn [reap wait_events]. unfold waitpid, ask. cbv zeta. cbn [fst snd].
    specialize (Hno (trace s)). apply Z.eqb_neq in Hno. rewrite Hno.
    rewrite IH, emits_emits. reflexivity.
Qed.

(** X11.  emergency_shell, the waiting parent.  As long as waitpid does not
    answer the pid of the child, the parent does nothing but call waitpid
    again: whatever the number of turns it is given, it has not left the loop,
    it has made exactly that many calls, and it has not started the shell. *)
Theorem the_parent_polls_while_the_child_lives :
  forall (E : environment) (fuel : nat) (s : state),
    EMERGENCY_SHELL E = true ->
    env_fork E (trace s) <> 0 ->
    (forall h, env_waitpid E h <> env_fork E (trace s)) ->
    emergency_shell E fuel s
    = Waiting (emits ([EvFork (env_fork E (trace s))]
                      ++ wait_events E fuel (trace s ++ [EvFork (env_fork E (trace s))])) s)
    /\ List.length (wait_events E fuel (trace s ++ [EvFork (env_fork E (trace s))])) = fuel.
Proof.
  intros E fuel s Hem Hfork Hno. split; [|apply wait_events_length].
  unfold emergency_shell, fork, ask. cbv zeta. cbn [fst snd]. rewrite Hem.
  apply Z.eqb_neq in Hfork. rewrite Hfork. cbn [negb].
  rewrite (reap_waiting E _ Hno), emits_emits. reflexivity.
Qed.

(** The witness: the child has pid 7 and waitpid keeps answering 0. *)
Lemma the_parent_polls_while_the_child_lives_witness :
  let E := sample_env true 0 7 (fun _ => 0) (sample_fstab "rw") all_fine never_completed in
  emergency_shell E 3 (initial_state E)
  = Waiting (emits [EvFork 7; EvWaitpid 0; EvWaitpid 0; EvWaitpid 0] (initial_state E)).
Proof.
  cbv zeta.
  apply (proj1 (the_parent_polls_while_the_child_lives
                  (sample_env true 0 7 (fun _ => 0) (sample_fstab "rw") all_fine
                     never_completed) 3
                  (initial_state
                     (sample_env true 0 7 (fun _ => 0) (sample_fstab "rw") all_fine
                        never_completed))
                  eq_refl ltac:(discriminate) ltac:(discriminate))).
Defined.

(** X12.  emergency_shell, a fork that fails.  The answer -1 of a failed fork
    is not 0, so the process takes the branch of the parent and waits for the
    pid -1.  With no child to wait for, waitpid answers -1 as well: the loop
    ends at its first turn, and the process prints the lines about the crash
    and calls execl on the shell, without having run anything of the boot.
    It is replaced by the shell when execl succeeds; when execl fails the
    function returns. *)
Theorem a_failed_fork_takes_the_branch_of_the_parent :
  forall (E : environment) (fuel : nat) (s : state),
    EMERGENCY_SHELL E = true ->
    env_fork E (trace s) = -1 ->
    env_waitpid E (trace s ++ [EvFork (-1)]) = -1 ->
    (0 < fuel)%nat ->
    (env_execl E (trace s ++ [EvFork (-1); EvWaitpid (-1)] ++ shell_prelude) = true ->
     emergency_shell E fuel s
     = Replaced (emits ([EvFork (-1); EvWaitpid (-1)] ++ shell_events E true) s))
    /\ (env_execl E (trace s ++ [EvFork (-1); EvWaitpid (-1)] ++ shell_prelude) = false ->
        emergency_shell E fuel s
        = Returned (emits ([EvFork (-1); EvWaitpid (-1)] ++ shell_events E false) s)).
Proof.
  intros E fuel s Hem Hfork Hwait Hfuel.
  unfold emergency_shell, fork, ask. cbv zeta. cbn [fst snd]. rewrite Hem, Hfork.
  cbn [Z.eqb negb].
  rewrite (reap_found E (-1) 0 fuel (emits [EvFork (-1)] s) Hfuel).
  - rewrite become_shell_answer.
    fold (exec (become_shell E)
            (emits (wait_events E 1 (trace (emits [EvFork (-1)] s)))
               (emits [EvFork (-1)] s))).
    rewrite become_shell_exec, !emits_emits. cbn [wait_events trace emits app].
    rewrite Hwait.
    assert (Hh : (trace s ++ [EvFork (-1); EvWaitpid (-1)]) ++ shell_prelude
                 = trace s ++ EvFork (-1) :: EvWaitpid (-1) :: shell_prelude)
      by (rewrite <- app_assoc; reflexivity).
    rewrite Hh. split; intros ->; reflexivity.
  - intros i Hi. lia.
  - cbn [wait_events trace emits]. rewrite app_nil_r. exact Hwait.
Qed.

(** The witness: fork and waitpid both answer -1, and execl succeeds. *)
Lemma a_failed_fork_takes_the_branch_of_the_parent_witness :
  let E := sample_env true 0 (-1) (fun _ => -1) (sample_fstab "rw") all_fine never_completed in
  emergency_shell E 1 (initial_state E)
  = Replaced (emits ([EvFork (-1); EvWaitpid (-1)] ++ shell_events E true) (initial_state E)).
Proof.
  cbv zeta.
  apply (proj1 (a_failed_fork_takes_the_branch_of_the_parent
                  (sample_env true 0 (-1) (fun _ => -1) (sample_fstab "rw") all_fine
                     never_completed) 1
                  (initial_state
                     (sample_env true 0 (-1) (fun _ => -1) (sample_fstab "rw") all_fine
                        never_completed))
                  eq_refl eq_refl eq_refl (Nat.lt_0_succ 0))).
  reflexivity.
Defined.

Lemma reap_events (E : environment) (pid : Z) :
  forall fuel s,
  exists n,
    (n <= fuel)%nat
    /\ (reap E fuel pid s = Returned (emits (wait_events E n (trace s)) s)
        \/ reap E fuel pid s = Waiting (emits (wait_events E n (trace s)) s)).
Proof.
  induction fuel as [|fuel IH]; intros s.
  - exists 0%nat. split; [lia|]. right. cbn [reap wait_events]. now rewrite emits_nil.
  - cbn [reap]. unfold waitpid, ask. cbv zeta. cbn [fst snd].
    destruct (env_waitpid E (trace s) =? pid).
    + exists 1%nat. split; [lia|]. left. reflexivity.
    + destruct (IH (emits [EvWaitpid (env_waitpid E (trace s))] s)) as (n & Hn & H).
      exists (S n). split; [lia|]. cbn [wait_events].
      rewrite emits_emits in H. exact H.
Qed.

Lemma wait_events_early :
  forall E n h, forallb early_call (wait_events E n h) = true.
Proof.
  induction n as [|n IH]; intros h; cbn [wait_events forallb early_call andb]; auto.
Qed.

Lemma setup_events_early :
  forall E resc debug, forallb early_call (setup_events E resc debug) = true.
Proof. intros. unfold setup_events. destruct (resc =? 0), debug; reflexivity. Qed.

Lemma early_calls_fire_no_hook :
  forall evs,
    forallb early_call evs = true ->
    hooks_fired evs = [] /\ ~ In EvPluginInit evs /\ ~ In EvUevRun evs.
Proof.
  induction evs as [|e evs IH]; intros H; [repeat split; intros []|].
  cbn [forallb] in H. apply andb_prop in H. destruct H as (He & Hevs).
  destruct (IH Hevs) as (Hh & Hp & Hu).
  change (e :: evs) with ([e] ++ evs). rewrite hooks_fired_app, Hh.
  destruct e; try discriminate He; repeat split; try reflexivity;
    intros [Heq|Hin]; try discriminate Heq; auto.
Qed.

(** The parent of the fork: it is still waiting, or it has called execl, and
    then it is replaced by the shell or, when execl failed, it has returned. *)
Lemma emergency_shell_parent (E : environment) (fuel : nat) (s : state) :
  EMERGENCY_SHELL E = true ->
  env_fork E (trace s) <> 0 ->
  exists n,
    (n <= fuel)%nat
    /\ (emergency_shell E fuel s
        = Waiting (emits ([EvFork (env_fork E (trace s))]
                          ++ wait_events E n (trace s ++ [EvFork (env_fork E (trace s))])) s)
        \/ (env_execl E (shell_history E s (env_fork E (trace s)) n) = true
            /\ emergency_shell E fuel s
               = Replaced (emits ([EvFork (env_fork E (trace s))]
                                  ++ wait_events E n
                                       (trace s ++ [EvFork (env_fork E (trace s))])
                                  ++ shell_events E true) s))
        \/ (env_execl E (shell_history E s (env_fork E (trace s)) n) = false
            /\ emergency_shell E fuel s
               = Returned (emits ([EvFork (env_fork E (trace s))]
                                  ++ wait_events E n
                                       (trace s ++ [EvFork (env_fork E (trace s))])
                                  ++ shell_events E false) s))).
Proof.
  intros Hem Hfork. unfold emergency_shell, fork, ask. cbv zeta. cbn [fst snd].
  rewrite Hem. apply Z.eqb_neq in Hfork. rewrite Hfork. cbn [negb].
  destruct (reap_events E (env_fork E (trace s)) fuel
              (emits [EvFork (env_fork E (trace s))] s)) as (n & Hn & [Hr|Hr]);
    rewrite Hr; exists n; (split; [exact Hn|]); cbn [trace emits].
  - right. rewrite become_shell_answer.
    fold (exec (become_shell E)
            (emits (wait_events E n (trace s ++ [EvFork (env_fork E (trace s))]))
               (emits [EvFork (env_fork E (trace s))] s))).
    rewrite become_shell_exec, !emits_emits. cbn [trace emits].
    assert (Hh : (trace s ++ [EvFork (env_fork E (trace s))]
                  ++ wait_events E n (trace s ++ [EvFork (env_fork E (trace s))]))
                 ++ shell_prelude
                 = shell_history E s (env_fork E (trace s)) n)
      by (unfold shell_history; now rewrite <- !app_assoc).
    rewrite Hh.
    destruct (env_execl E (shell_history E s (env_fork E (trace s)) n));
      [left | right]; (split; [reflexivity|]); f_equal; f_equal;
      now rewrite <- !app_assoc.
  - left. rewrite emits_emits. reflexivity.
Qed.

(** ** The gate, whatever service_completed answers *)

Lemma gate_outcome_eq :
  forall E w s o o', gate_outcome E w s o -> o = o' -> gate_outcome E w s o'.
Proof. intros E w s o o' H <-. exact H. Qed.

Lemma gate_end (E : environment) (w : wq) :
  cb w = cb_final_worker ->
  forall s t fuel,
    pending s = [(t, w)] ->
    INT_MIN < cnt s <= INT_MAX ->
    cnt s <= 0 \/ env_service_completed E (trace s ++ step_events) = true ->
    exists isdir a rc clk,
      uev_run E (S fuel) s
      = Returned (mk_state (trace s ++ gate_tail E s 0 isdir a rc) (rescue s) (cfglevel s)
                           (runparts s) (cnt s - 1) (conds s) clk []).
Proof.
  intros Hcb s t fuel Hpend Hcnt Hend.
  rewrite (uev_run_dispatch E fuel s t w [] Hpend).
  unfold run_callback. rewrite Hcb, final_worker_exec.
  cbn [cnt clock pending trace set_clock set_pending].
  assert (Hw : int_wrap (cnt s - 1) = cnt s - 1)
    by (apply int_wrap_id; unfold INT_MIN, INT_MAX in *; lia).
  unfold gate_tail. cbn [Z.of_nat]. rewrite Z.sub_0_r, Hw.
  destruct (0 <? cnt s) eqn:Hpos.
  - destruct Hend as [Hle|Hyes]; [apply Z.ltb_lt in Hpos; lia|].
    rewrite Hyes.
    match goal with
    | |- context [exec (finalize E) ?x] =>
        destruct (finalize_exec E x) as (isdir & a & rc & Hfin)
    end.
    rewrite Hfin. exists isdir, a, rc, (Z.max (clock s) t).
    rewrite uev_run_idle by (unfold stepped; fields; reflexivity).
    f_equal. unfold stepped. apply state_ext; fields; try reflexivity.
    + evs_eq. reflexivity.
    + exact Hw.
  - match goal with
    | |- context [exec (finalize E) ?x] =>
        destruct (finalize_exec E x) as (isdir & a & rc & Hfin)
    end.
    rewrite Hfin. exists isdir, a, rc, (Z.max (clock s) t).
    rewrite uev_run_idle by (unfold stepped; fields; reflexivity).
    f_equal. unfold stepped. apply state_ext; fields; try reflexivity.
    + evs_eq. reflexivity.
    + exact Hw.
Qed.

(** The event loop on a gate, for any number of turns and any answers. *)
Lemma gate_run (E : environment) (w : wq) :
  cb w = cb_final_worker ->
  forall fuel s t,
    pending s = [(t, w)] ->
    0 <= cnt s <= INT_MAX ->
    gate_outcome E w s (uev_run E fuel s).
Proof.
  intros Hcb. induction fuel as [|fuel IH]; intros s t Hpend Hcnt.
  - cbn [uev_run]. rewrite Hpend.
    apply (gate_outcome_eq _ _ _ _ _ (gate_waiting E w s 0 (clock s) t ltac:(lia))).
    f_equal. apply state_ext; fields; cbn [poll_rounds Z.of_nat]; rewrite ?app_nil_r;
      try reflexivity; try lia. symmetry. exact Hpend.
  - destruct (0 <? cnt s) eqn:Hpos;
      [destruct (env_service_completed E (trace s ++ step_events)) eqn:Hdone|].
    2:{ rewrite (uev_run_dispatch E fuel s t w [] Hpend).
        unfold run_callback. rewrite Hcb.
        rewrite final_worker_again
          by (cbn [cnt trace set_clock set_pending]; assumption).
        cbn [cnt clock pending trace rescue cfglevel runparts conds set_clock set_pending
             enqueue].
        apply Z.ltb_lt in Hpos.
        rewrite (int_wrap_id (cnt s - 1)) by (unfold INT_MIN, INT_MAX in *; lia).
        match goal with
        | |- gate_outcome E w s (uev_run E fuel ?s') =>
            assert (IH' := IH s' (Z.max (clock s) t + delay w) eq_refl);
            cbn [cnt trace rescue cfglevel runparts conds] in IH';
            specialize (IH' ltac:(unfold INT_MAX in *; lia));
            destruct IH' as [n clk t' Hn | n isdir a rc clk Hn];
            cbn [cnt trace rescue cfglevel runparts conds] in Hn |- *
        end.
        - apply (gate_outcome_eq _ _ _ _ _ (gate_waiting E w s (S n) clk t' ltac:(lia))).
          f_equal. apply state_ext; fields; try reflexivity; try lia.
          cbn [poll_rounds]. unfold poll_round. evs_eq. reflexivity.
        - apply (gate_outcome_eq _ _ _ _ _
                   (gate_done E w s (S n) isdir a rc clk ltac:(lia))).
          f_equal. apply state_ext; fields; try reflexivity; try lia.
          cbn [poll_rounds]. unfold poll_round, gate_tail. fields.
          replace (cnt s - Z.of_nat (S n)) with (cnt s - 1 - Z.of_nat n) by lia.
          evs_eq. reflexivity. }
    all: destruct (gate_end E w Hcb s t fuel Hpend ltac:(unfold INT_MIN, INT_MAX in *; lia))
      as (isdir & a & rc & clk & Hrun);
      [first [right; exact Hdone | left; apply Z.ltb_ge in Hpos; exact Hpos]|].
    all: rewrite Hrun.
    all: apply (gate_outcome_eq _ _ _ _ _ (gate_done E w s 0 isdir a rc clk ltac:(lia))).
    all: f_equal; apply state_ext; fields; cbn [poll_rounds Z.of_nat app];
      try reflexivity; try lia.
Qed.

Lemma gate_tail_polls :
  forall E s n isdir a rc,
    polls (gate_tail E s n isdir a rc) = if 0 <? cnt s - Z.of_nat n then 1%nat else 0%nat.
Proof.
  intros. unfold gate_tail. rewrite !polls_app.
  destruct (finalize_events_quiet E (runparts s) (rescue s) (cfglevel s) isdir a rc)
    as (Hp & _).
  rewrite Hp. destruct (0 <? cnt s - Z.of_nat n); reflexivity.
Qed.

Lemma gate_outcome_bounds :
  forall E w s o,
    gate_outcome E w s o ->
    exists evs,
      trace (outcome_state o) = trace s ++ evs
      /\ Z.of_nat (polls evs) <= cnt s
      /\ -1 <= cnt (outcome_state o) <= cnt s.
Proof.
  intros E w s o H. destruct H as [n clk t Hn | n isdir a rc clk Hn];
    cbn [outcome_state trace cnt]; eexists; (split; [reflexivity|]).
  - destruct (poll_rounds_quiet w n (cnt s)) as (Hp & _). rewrite Hp. lia.
  - rewrite polls_app, gate_tail_polls.
    destruct (poll_rounds_quiet w n (cnt s)) as (Hp & _). rewrite Hp.
    destruct (Z.ltb_spec 0 (cnt s - Z.of_nat n)); lia.
Qed.

(** The event loop entered by [main]: the first turn runs [crank_worker],
    the gate follows. *)
Lemma loop_run (E : environment) (sb : state) (fuel : nat) :
  pending sb = [(0, crank); (1000, final)] ->
  0 <= cnt sb <= INT_MAX ->
  gate_outcome E final
    (emits [EvSmInit; EvSmStep] (set_clock (Z.max (clock sb) 0) (set_pending [(1000, final)] sb)))
    (uev_run E (S fuel) sb).
Proof.
  intros Hpend Hcnt.
  rewrite (uev_run_dispatch E fuel sb 0 crank [(1000, final)] Hpend).
  unfold run_callback. cbn [cb crank]. rewrite crank_worker_exec.
  apply (gate_run E final eq_refl fuel _ 1000); [reflexivity|].
  cbn [cnt emits set_clock set_pending]. exact Hcnt.
Qed.

Lemma emergency_shell_continues (E : environment) (fuel : nat) (s : state) :
  continues E ->
  emergency_shell E fuel s = Returned (emits (fork_events E) s).
Proof.
  intros Hcont. unfold emergency_shell, fork_events, fork, ask.
  destruct (EMERGENCY_SHELL E) eqn:Hem.
  - destruct Hcont as [Hc|Hc]; [congruence|].
    cbv zeta. cbn [fst snd]. rewrite Hc. reflexivity.
  - now rewrite emits_nil.
Qed.

(** The calls of the filesystem checks are none of the boot calls of
    [main]. *)
Lemma fs_calls_quiet :
  forall evs, forallb fs_call evs = true -> quiet evs /\ filter boot_call evs = [].
Proof.
  induction evs as [|e evs IH]; intros H; [split; [apply quiet_nil | reflexivity]|].
  cbn [forallb] in H. apply andb_prop in H. destruct H as (He & Hevs).
  destruct (IH Hevs) as (Hq & Hf).
  change (e :: evs) with ([e] ++ evs). rewrite filter_app, Hf.
  split.
  - apply quiet_app; [|exact Hq].
    destruct e; try discriminate He; try (repeat split; reflexivity).
    destruct args; [discriminate He | repeat split; reflexivity].
  - destruct e; try discriminate He; reflexivity.
Qed.

Lemma loop_events_fs_calls :
  forall E evs, Forall (fsck_loop_event E) evs -> forallb fs_call evs = true.
Proof.
  intros E evs Hall. induction Hall as [|e evs He _ IH]; [reflexivity|].
  cbn [forallb]. rewrite IH. destruct He; reflexivity.
Qed.

Lemma fsck_fs_calls (E : environment) (pass : Z) (s : state) :
  exists evs, exec (fsck E pass) s = emits evs s /\ forallb fs_call evs = true.
Proof.
  destruct (env_setfsent E (trace s)) eqn:Hopen.
  - destruct (fsck_open E pass s Hopen) as (evs & Heq & Hall).
    eexists. split; [unfold exec; rewrite Heq; reflexivity|].
    change (EvSetfsent true :: evs ++ [EvEndfsent])
      with ([EvSetfsent true] ++ evs ++ [EvEndfsent]).
    rewrite !forallb_app, (loop_events_fs_calls E evs Hall). reflexivity.
  - eexists. split; [unfold exec; rewrite (fsck_closed E pass s Hopen); reflexivity|].
    reflexivity.
Qed.

Lemma fsck_passes_fs_calls (E : environment) :
  forall todo pass rc s,
  exists evs,
    exec (fsck_passes E todo pass rc) s = emits evs s /\ forallb fs_call evs = true.
Proof.
  induction todo as [|todo IH]; intros pass rc s.
  - exists []. split; [symmetry; apply emits_nil | reflexivity].
  - cbn [fsck_passes]. unfold exec, bind. cbv zeta.
    destruct (fsck_fs_calls E pass s) as (e1 & H1 & Hc1). unfold exec in H1.
    rewrite H1.
    destruct (negb (fst (fsck E pass s) =? 0)).
    + exists e1. cbn [ret snd]. split; [reflexivity | exact Hc1].
    + destruct (IH (pass + 1) (fst (fsck E pass s)) (emits e1 s)) as (e2 & H2 & Hc2).
      unfold exec in H2. rewrite H2, emits_emits.
      exists (e1 ++ e2). rewrite forallb_app, Hc1, Hc2. split; reflexivity.
Qed.

Lemma remount_events_fs_calls :
  forall fsckerr ok entries rc,
    forallb fs_call (remount_events fsckerr ok entries rc) = true.
Proof.
  intros. unfold remount_events.
  destruct ok, (root_writable entries), (fsckerr =? 0); reflexivity.
Qed.

(** [fs_init]: the checks and the remount, then the mount events. *)
Lemma fs_init_calls (E : environment) (s : state) :
  exists fsevs rc,
    exec (fs_init E) s = emits (fsevs ++ mount_events E rc) s
    /\ forallb fs_call fsevs = true
    /\ (rescue s <> 0 -> fsevs = []).
Proof.
  destruct (Z.eq_dec (rescue s) 0) as [Hr|Hr].
  - destruct (fs_init_checked E s Hr) as (ok & rrc & rc & H).
    destruct (fsck_passes_fs_calls E (Z.to_nat (10 - 1)) 1 0 s) as (evs & Heq & Hc).
    fold (fsck_all E) in Heq. rewrite Heq in H. rewrite emits_emits, app_assoc in H.
    eexists; exists rc. split; [exact H|]. split.
    + rewrite forallb_app, Hc. apply remount_events_fs_calls.
    + intros Hne. contradiction.
  - destruct (fs_init_rescue E s Hr) as (rc & H).
    exists [], rc. split; [exact H|]. split; reflexivity.
Qed.

(** [main_boot], with what the rescue flag leaves out of [fs_init]. *)
Lemma main_boot_shape (E : environment) (s : state) :
  exists silent fsevs rc,
    exec (main_boot E) s
    = mk_state (trace s ++ boot_events E silent fsevs rc)
               (rescue s)
               (match env_conf_runlevel E with Some l => l | None => cfglevel s end)
               (env_conf_runparts E)
               (cnt s)
               (Some (boot_conds E))
               (clock s)
               (enqueue (clock s + 1000) final (enqueue (clock s + 0) crank (pending s)))
    /\ quiet fsevs
    /\ (rescue s <> 0 -> fsevs = [])
    /\ forallb fs_call fsevs = true.
Proof.
  destruct (banner_exec E (emits [EvPluginInit] s)) as (silent & Hb).
  destruct (fs_init_calls E
              (emits ([EvPluginInit] ++ banner_events E silent ++ [EvSigInit; EvCgroupInit])
                 s))
    as (fsevs & rc & Hfs & Hcalls & Hnone).
  cbn [rescue emits] in Hnone.
  exists silent, fsevs, rc.
  split; [|split; [apply fs_calls_quiet, Hcalls | split; assumption]].
  apply wp_exec. unfold main_boot. autounfold with prims.
  do 2 wp_step. wp_step. apply (wp_frame _ _ _ _ Hb). wp_tidy.
  do 5 wp_step.
  rewrite <- app_assoc.
  apply (wp_frame _ _ _ _ Hfs). wp_tidy.
  unfold conf_init, cond_init, cond_set_oneshot, schedule_work.
  autounfold with prims.
  repeat wp_step.
  unfold boot_events, config_events, boot_conds.
  cbn [existsb orb delay crank final]. rewrite orb_false_r.
  apply state_ext; fields; try reflexivity.
  all: try solve [now evs_norm].
  all: now destruct (String.eqb (plugin_hook_str E HOOK_ROOTFS_UP)
                                (plugin_hook_str E HOOK_BANNER)).
Qed.

(** [main] as process 1, once [emergency_shell] has returned: the state in
    which the event loop is entered. *)
Lemma main_enters_loop (E : environment) (wait_fuel loop_fuel : nat) (fevs : list event) :
  env_getpid E [] = 1 ->
  emergency_shell E wait_fuel (exec (main_setup E) (emits [EvGetpid 1] (initial_state E)))
  = Returned (emits fevs (exec (main_setup E) (emits [EvGetpid 1] (initial_state E)))) ->
  exists debug silent fsevs rc sb,
    main E wait_fuel loop_fuel (initial_state E) = uev_run E loop_fuel sb
    /\ trace sb
       = [EvGetpid 1]
         ++ setup_events E (env_cmdline_rescue E) debug
         ++ fevs
         ++ boot_events E silent fsevs rc
    /\ quiet fsevs
    /\ (env_cmdline_rescue E <> 0 -> fsevs = [])
    /\ pending sb = [(0, crank); (1000, final)]
    /\ cnt sb = 120
    /\ rescue sb = env_cmdline_rescue E
    /\ runparts sb = env_conf_runparts E
    /\ cfglevel sb = match env_conf_runlevel E with Some l => l | None => RUNLEVEL E end
    /\ trace (exec (main_setup E) (emits [EvGetpid 1] (initial_state E)))
       = [EvGetpid 1] ++ setup_events E (env_cmdline_rescue E) debug
    /\ forallb fs_call fsevs = true.
Proof.
  intros Hpid Hes. unfold main, getpid, ask. cbv zeta.
  cbn [fst snd trace initial_state]. rewrite Hpid. cbn [Z.eqb Pos.eqb negb].
  fold (initial_state E). rewrite Hes.
  destruct (main_setup_exec E (emits [EvGetpid 1] (initial_state E))) as (debug & Hsetup).
  rewrite Hsetup.
  match goal with
  | |- context [exec (main_boot E) ?s] =>
      destruct (main_boot_shape E s) as (silent & fsevs & rc & Hboot & Hq & Hnone & Hcalls)
  end.
  exists debug, silent, fsevs, rc. eexists. split; [reflexivity|].
  rewrite Hboot.
  cbn [trace emits set_rescue cnt conds clock pending rescue runparts cfglevel
       initial_state app enqueue] in Hnone |- *.
  split; [evs_eq; reflexivity|]. split; [exact Hq|]. split; [exact Hnone|].
  repeat split. exact Hcalls.
Qed.

(** X14.  the budget of the gate.  Whatever the environment answers, and at any
    moment of the life of the process, service_completed has been asked at
    most 120 times, and the counter of [final_worker] is between -1 and 120:
    the decrement done at every run never takes it further down, so it never
    wraps around. *)
Theorem the_gate_stays_within_its_budget :
  forall (E : environment) (wait_fuel loop_fuel : nat),
    (polls (trace (outcome_state (main E wait_fuel loop_fuel (initial_state E)))) <= 120)%nat
    /\ -1 <= cnt (outcome_state (main E wait_fuel loop_fuel (initial_state E))) <= 120.
Proof.
  intros E wf lf.
  destruct (Z.eq_dec (env_getpid E []) 1) as [Hpid|Hpid].
  2:{ unfold main, getpid, ask. cbv zeta. cbn [fst snd trace initial_state].
      apply Z.eqb_neq in Hpid. rewrite Hpid. cbn. lia. }
  destruct (main_setup_exec E (emits [EvGetpid 1] (initial_state E))) as (debug & Hsetup).
  destruct (emergency_shell_frame E wf
              (exec (main_setup E) (emits [EvGetpid 1] (initial_state E))))
    as (fevs & Hes & Hqf).
  destruct (emergency_shell E wf (exec (main_setup E) (emits [EvGetpid 1] (initial_state E))))
    as [s|s|s] eqn:Hout; cbn [outcome_state] in Hes.
  - rewrite Hes in Hout.
    destruct (main_enters_loop E wf lf fevs Hpid Hout)
      as (dbg & silent & fsevs & rc & sb & Hmain & Htr & Hq & _ & Hpend & Hcnt & _).
    rewrite Hmain.
    assert (Hpre : polls (trace sb) = 0%nat).
    { rewrite Htr.
      destruct (setup_events_quiet E (env_cmdline_rescue E) dbg) as (Hsp & _).
      destruct (boot_events_counts E silent fsevs rc Hq) as (Hbp & _).
      destruct Hqf as (Hfp & _).
      rewrite !polls_app, Hsp, Hbp, Hfp. reflexivity. }
    destruct lf as [|lf].
    + cbn [uev_run]. rewrite Hpend. cbn [outcome_state]. rewrite Hpre, Hcnt. lia.
    + destruct (gate_outcome_bounds _ _ _ _
                  (loop_run E sb lf Hpend ltac:(rewrite Hcnt; unfold INT_MAX; lia)))
        as (evs & Hevs & Hp & Hc).
      cbn [trace cnt emits set_clock set_pending] in Hevs, Hp, Hc.
      rewrite Hevs, !polls_app, Hpre. rewrite Hcnt in Hp, Hc. cbn [polls filter is_poll
        List.length]. lia.
  - unfold main, getpid, ask. cbv zeta. cbn [fst snd trace initial_state].
    rewrite Hpid. cbn [Z.eqb Pos.eqb negb]. fold (initial_state E).
    rewrite Hout. cbn [outcome_state]. rewrite Hes, Hsetup.
    cbn [trace cnt emits set_rescue initial_state app].
    destruct (setup_events_quiet E (env_cmdline_rescue E) debug) as (Hsp & _).
    destruct Hqf as (Hfp & _).
    change (EvGetpid 1 :: ?l) with ([EvGetpid 1] ++ l).
    rewrite !polls_app, Hsp, Hfp. cbn. lia.
  - unfold main, getpid, ask. cbv zeta. cbn [fst snd trace initial_state].
    rewrite Hpid. cbn [Z.eqb Pos.eqb negb]. fold (initial_state E).
    rewrite Hout. cbn [outcome_state]. rewrite Hes, Hsetup.
    cbn [trace cnt emits set_rescue initial_state app].
    destruct (setup_events_quiet E (env_cmdline_rescue E) debug) as (Hsp & _).
    destruct Hqf as (Hfp & _).
    change (EvGetpid 1 :: ?l) with ([EvGetpid 1] ++ l).
    rewrite !polls_app, Hsp, Hfp. cbn. lia.
Qed.

(** The witness of the budget: service_completed never answers yes, and the
    gate gives up after 120 polls with the counter at -1. *)
Example the_gate_gives_up_after_its_budget :
  let s' := outcome_state (main (plain_env never_completed) 0 500
                             (initial_state (plain_env never_completed))) in
  polls (trace s') = 120%nat /\ cnt s' = -1.
Proof. vm_compute. split; reflexivity. Qed.

(** ** The parent of the fork in main *)

(** X13.  main in the parent of the fork.  With the emergency shell compiled
    in, the process that fork answers with a pid other than 0 boots only after
    a failed execl.  Either it is still waiting or it has been replaced by the
    shell, and then all it has called is the set-up of the environment, fork,
    waitpid and what starts the shell: no plugin is loaded, no hook has run, no
    work is scheduled and the event loop was not entered.  Or execl has failed:
    then [emergency_shell] has returned and the parent goes on with the boot as
    well, and everything of the boot comes after the failed execl. *)
Theorem the_parent_boots_only_after_a_failed_execl :
  forall (E : environment) (wait_fuel loop_fuel : nat),
    env_getpid E [] = 1 ->
    EMERGENCY_SHELL E = true ->
    (forall h, env_fork E h <> 0) ->
    (exists s',
        (main E wait_fuel loop_fuel (initial_state E) = Replaced s'
         \/ main E wait_fuel loop_fuel (initial_state E) = Waiting s')
        /\ forallb early_call (trace s') = true
        /\ hooks_fired (trace s') = []
        /\ ~ In EvPluginInit (trace s')
        /\ ~ In EvUevRun (trace s')
        /\ pending s' = [])
    \/ (exists pre post,
           trace (outcome_state (main E wait_fuel loop_fuel (initial_state E)))
           = pre ++ EvExecl (PATH_BSHELL E) false :: EvPluginInit :: post
           /\ env_execl E pre = false
           /\ forallb early_call pre = true).
Proof.
  intros E wf lf Hpid Hem Hfork.
  destruct (main_setup_exec E (emits [EvGetpid 1] (initial_state E))) as (debug & Hsetup).
  destruct (emergency_shell_parent E wf
              (exec (main_setup E) (emits [EvGetpid 1] (initial_state E))) Hem (Hfork _))
    as (n & _ & Hes).
  set (pid := env_fork E (trace (exec (main_setup E) (emits [EvGetpid 1] (initial_state E)))))
    in *.
  assert (Hearly : forall tail,
             forallb early_call tail = true ->
             forallb early_call
               (trace (emits ([EvFork pid]
                              ++ wait_events E n
                                   (trace (exec (main_setup E)
                                             (emits [EvGetpid 1] (initial_state E)))
                                    ++ [EvFork pid])
                              ++ tail)
                         (exec (main_setup E) (emits [EvGetpid 1] (initial_state E)))))
             = true).
  { intros tail Htail. rewrite Hsetup.
    cbn [trace emits set_rescue initial_state app forallb early_call andb].
    rewrite forallb_app, setup_events_early. cbn [forallb early_call andb].
    rewrite forallb_app, wait_events_early. exact Htail. }
  destruct Hes as [Hw | [(Hok & Hr) | (Hfail & Hr)]].
  - left. eexists. split.
    + right. unfold main, getpid, ask. cbv zeta. cbn [fst snd trace initial_state].
      rewrite Hpid. cbn [Z.eqb Pos.eqb negb]. fold (initial_state E). rewrite Hw.
      reflexivity.
    + assert (He := Hearly [] eq_refl). rewrite app_nil_r in He.
      destruct (early_calls_fire_no_hook _ He) as (Hh & Hp & Hu).
      split; [exact He|]. split; [exact Hh|]. split; [exact Hp|]. split; [exact Hu|].
      rewrite Hsetup. reflexivity.
  - left. eexists. split.
    + left. unfold main, getpid, ask. cbv zeta. cbn [fst snd trace initial_state].
      rewrite Hpid. cbn [Z.eqb Pos.eqb negb]. fold (initial_state E). rewrite Hr.
      reflexivity.
    + assert (He := Hearly (shell_events E true) eq_refl).
      destruct (early_calls_fire_no_hook _ He) as (Hh & Hp & Hu).
      split; [exact He|]. split; [exact Hh|]. split; [exact Hp|]. split; [exact Hu|].
      rewrite Hsetup. reflexivity.
  - right.
    destruct (main_enters_loop E wf lf _ Hpid Hr)
      as (dbg & silent & fsevs & rc & sb & Hmain & Htr & _ & _ & Hpend & _ & _ & _ & _
          & Hs0 & _).
    destruct (loop_after_boot_any E sb lf Hpend) as (evs & Hloop & _).
    rewrite Hmain, Hloop.
    exists (shell_history E (exec (main_setup E) (emits [EvGetpid 1] (initial_state E)))
              pid n).
    eexists. split; [|split; [exact Hfail|]].
    + rewrite Htr. unfold shell_history, shell_events, boot_events.
      rewrite Hs0. evs_eq. reflexivity.
    + unfold shell_history.
      assert (He := Hearly shell_prelude eq_refl).
      cbn [trace emits] in He. rewrite <- ?app_assoc in He. exact He.
Qed.

(** The witness: the parent of a child with pid 7 that ends at the third
    waitpid; execl succeeds, and the parent is replaced by the shell. *)
Lemma the_parent_boots_only_after_a_failed_execl_witness :
  let E := sample_env true 0 7 (child_ends_at_third 7) (sample_fstab "rw") all_fine
             never_completed in
  exists s',
    main E 5 200 (initial_state E) = Replaced s'
    /\ hooks_fired (trace s') = [].
Proof.
  cbv zeta.
  destruct (the_parent_boots_only_after_a_failed_execl
              (sample_env true 0 7 (child_ends_at_third 7) (sample_fstab "rw") all_fine
                 never_completed) 5 200 eq_refl eq_refl)
    as [(s' & Hmain & _ & Hh & _) | (pre & post & _ & Hfail & _)].
  - intros h. discriminate.
  - exists s'. split; [|exact Hh].
    destruct Hmain as [Hmain|Hmain]; [exact Hmain|].
    vm_compute in Hmain. discriminate Hmain.
  - discriminate Hfail.
Defined.

(** With a failing execl both processes boot: the parent of the same fork
    goes on to the event loop and runs the hooks of the boot after the child
    has ended. *)
Example both_processes_boot_when_execl_fails :
  let E := with_execl (fun _ => false)
             (sample_env true 0 7 (child_ends_at_third 7) (sample_fstab "rw") all_fine
                (completed_from 1)) in
  exists s',
    main E 5 200 (initial_state E) = Returned s'
    /\ hooks_fired (trace s')
       = [HOOK_BANNER; HOOK_ROOTFS_UP; HOOK_MOUNT_POST; HOOK_BASEFS_UP; HOOK_SVC_UP;
          HOOK_SYSTEM_UP]
    /\ In (EvExecl "/bin/sh" false) (trace s').
Proof.
  eexists. split; [vm_compute; reflexivity|]. split; [reflexivity|].
  vm_compute. tauto.
Qed.

(** ** The first turn of the event loop *)

Lemma poll_rounds_no_sm_init :
  forall w n c, existsb is_sm_init (poll_rounds w n c) = false.
Proof. induction n as [|n IH]; intros c; [reflexivity|]. cbn. apply IH. Qed.

Lemma hook_events_no_sm_init :
  forall E h, existsb is_sm_init (hook_events E h) = false.
Proof.
  intros E h. unfold hook_events. cbn [existsb is_sm_init orb].
  induction (env_hooks E h) as [|c l IH]; [reflexivity | exact IH].
Qed.

Lemma gate_tail_no_sm_init :
  forall E s n isdir a rc, existsb is_sm_init (gate_tail E s n isdir a rc) = false.
Proof.
  intros. unfold gate_tail, finalize_events, runparts_events, rc_local_events.
  rewrite !existsb_app, !hook_events_no_sm_init.
  destruct (0 <? cnt s - Z.of_nat n), (runparts s) as [dir|];
    try destruct (isdir && (rescue s =? 0)); destruct ((a =? 0) && (rescue s =? 0));
    reflexivity.
Qed.

Lemma boot_events_ends_at_the_loop :
  forall E silent fsevs rc,
    exists pre, boot_events E silent fsevs rc = pre ++ [EvUevRun]
                /\ (quiet fsevs -> steps pre = 0%nat /\ polls pre = 0%nat).
Proof.
  intros. unfold boot_events, config_events.
  eexists. split.
  - rewrite !app_assoc.
    change [EvConfMonitor; EvD "Starting initctl API responder ..." []; EvApiInit; EvUmask 18;
            EvD "Starting the big state machine ..." []; EvScheduleWork crank;
            EvD "Starting bootstrap finalize timer ..." []; EvScheduleWork final;
            EvD "Entering main loop ..." []; EvUevRun]
      with ([EvConfMonitor; EvD "Starting initctl API responder ..." []; EvApiInit;
             EvUmask 18; EvD "Starting the big state machine ..." []; EvScheduleWork crank;
             EvD "Starting bootstrap finalize timer ..." []; EvScheduleWork final;
             EvD "Entering main loop ..." []] ++ [EvUevRun]).
    rewrite !app_assoc. reflexivity.
  - intros (Hp & Hs & _).
    destruct (mount_events_fired E rc) as (Hmp & Hms & _).
    destruct (banner_events_counts E silent) as (Hbp & _).
    repeat rewrite ?steps_app, ?polls_app.
    rewrite Hp, Hs, Hmp, Hms, Hbp, !hook_events_steps, !hook_events_polls.
    unfold banner_events. rewrite steps_app, hook_events_steps.
    destruct silent; split; reflexivity.
Qed.

(** X15.  the first turn of the event loop.  In process 1, in the process that
    goes on after [emergency_shell], the first thing the event loop runs is
    [crank_worker]: sm_init and sm_step come right after the loop is entered,
    before any service is stepped and before service_completed is asked; and
    sm_init is not called again later, since [crank_worker] does not resubmit
    itself. *)
Theorem the_state_machine_starts_first :
  forall (E : environment) (wait_fuel loop_fuel : nat),
    env_getpid E [] = 1 ->
    continues E ->
    (0 < loop_fuel)%nat ->
    exists pre post,
      trace (outcome_state (main E wait_fuel loop_fuel (initial_state E)))
      = pre ++ [EvUevRun; EvSmInit; EvSmStep] ++ post
      /\ steps pre = 0%nat
      /\ polls pre = 0%nat
      /\ existsb is_sm_init post = false.
Proof.
  intros E wf lf Hpid Hcont Hfuel.
  destruct (main_enters_loop E wf lf (fork_events E) Hpid
              (emergency_shell_continues E wf _ Hcont))
    as (debug & silent & fsevs & rc & sb & Hmain & Htr & Hq & _ & Hpend & Hcnt & _).
  destruct lf as [|lf]; [lia|].
  assert (Hgo := loop_run E sb lf Hpend ltac:(rewrite Hcnt; unfold INT_MAX; lia)).
  destruct (boot_events_ends_at_the_loop E silent fsevs rc) as (bpre & Hb & Hcounts).
  destruct (Hcounts Hq) as (Hbs & Hbp).
  destruct (setup_events_quiet E (env_cmdline_rescue E) debug) as (Hsp & Hss & _).
  destruct (fork_events_quiet E) as (Hfp & Hfs & _).
  rewrite Hmain.
  exists ([EvGetpid 1] ++ setup_events E (env_cmdline_rescue E) debug ++ fork_events E ++ bpre).
  destruct Hgo as [n clk t Hn | n isdir a rc' clk Hn];
    cbn [outcome_state trace emits set_clock set_pending]; rewrite Htr, Hb.
  - exists (poll_rounds final n (cnt sb)).
    split; [evs_eq; reflexivity|].
    rewrite !steps_app, !polls_app, Hsp, Hss, Hfp, Hfs, Hbs, Hbp.
    repeat split. apply poll_rounds_no_sm_init.
  - exists (poll_rounds final n (cnt sb)
            ++ gate_tail E
                 (emits [EvSmInit; EvSmStep]
                    (set_clock (Z.max (clock sb) 0) (set_pending [(1000, final)] sb)))
                 n isdir a rc').
    split; [cbn [cnt emits set_clock set_pending]; evs_eq; reflexivity|].
    rewrite !steps_app, !polls_app, Hsp, Hss, Hfp, Hfs, Hbs, Hbp.
    repeat split. rewrite existsb_app, poll_rounds_no_sm_init, gate_tail_no_sm_init.
    reflexivity.
Qed.

(** The witness: the usual machine. *)
Lemma the_state_machine_starts_first_witness :
  exists pre post,
    trace (outcome_state (main (plain_env (completed_from 2)) 0 10
                            (initial_state (plain_env (completed_from 2)))))
    = pre ++ [EvUevRun; EvSmInit; EvSmStep] ++ post
    /\ steps pre = 0%nat
    /\ polls pre = 0%nat
    /\ existsb is_sm_init post = false.
Proof.
  apply (the_state_machine_starts_first (plain_env (completed_from 2)) 0 10).
  - reflexivity.
  - left. reflexivity.
  - lia.
Defined.

(** ** The boot in rescue mode *)

Lemma hook_events_in_rescue :
  forall E h, existsb left_out_in_rescue (hook_events E h) = false.
Proof.
  intros E h. unfold hook_events. cbn [existsb left_out_in_rescue orb].
  induction (env_hooks E h) as [|c l IH]; [reflexivity | exact IH].
Qed.

Lemma poll_rounds_in_rescue :
  forall w n c, existsb left_out_in_rescue (poll_rounds w n c) = false.
Proof. induction n as [|n IH]; intros c; [reflexivity|]. cbn. apply IH. Qed.

Lemma boot_events_in_rescue :
  forall E silent rc, existsb left_out_in_rescue (boot_events E silent [] rc) = false.
Proof.
  intros. unfold boot_events, banner_events, mount_events, config_events.
  rewrite !existsb_app, !hook_events_in_rescue.
  destruct silent, (rc =? 0); rewrite ?hook_events_in_rescue; reflexivity.
Qed.

Lemma gate_tail_in_rescue :
  forall E s n isdir a rc,
    rescue s <> 0 ->
    existsb left_out_in_rescue (gate_tail E s n isdir a rc) = false.
Proof.
  intros E s n isdir a rc Hr. apply Z.eqb_neq in Hr.
  unfold gate_tail, finalize_events, runparts_events, rc_local_events.
  rewrite Hr, !andb_false_r, !existsb_app, !hook_events_in_rescue.
  destruct (0 <? cnt s - Z.of_nat n), (runparts s) as [dir|]; reflexivity.
Qed.

Lemma gate_tail_entries :
  forall E s n isdir a rc, finalize_entries (gate_tail E s n isdir a rc) = 1%nat.
Proof.
  intros. unfold gate_tail. rewrite !finalize_entries_app.
  destruct (finalize_events_quiet E (runparts s) (rescue s) (cfglevel s) isdir a rc)
    as (_ & Hf & _).
  rewrite Hf. unfold resume_message.
  destruct (0 <? cnt s - Z.of_nat n), (0 <? cnt s - Z.of_nat n - 1); reflexivity.
Qed.

(** X16.  the boot in rescue mode.  With the rescue flag on the command line,
    the boot of process 1 runs to its end and leaves out, from [main] to
    [finalize]: the set-up of the screen, every check of a filesystem and the
    remount of /, the run-parts directory and rc.local.  No fstab is opened,
    and mount -na is the only command that is run. *)
Theorem a_rescue_boot_checks_nothing_and_runs_no_script :
  forall (E : environment) (wait_fuel loop_fuel : nat),
    env_getpid E [] = 1 ->
    continues E ->
    env_cmdline_rescue E <> 0 ->
    (121 < loop_fuel)%nat ->
    exists s',
      main E wait_fuel loop_fuel (initial_state E) = Returned s'
      /\ existsb left_out_in_rescue (trace s') = false
      /\ finalize_entries (trace s') = 1%nat.
Proof.
  intros E wf lf Hpid Hcont Hresc Hfuel.
  destruct (main_enters_loop E wf lf (fork_events E) Hpid
              (emergency_shell_continues E wf _ Hcont))
    as (debug & silent & fsevs & rc & sb & Hmain & Htr & Hq & Hnone & Hpend & Hcnt
        & Hr & _).
  rewrite (Hnone Hresc) in Htr.
  destruct (loop_after_boot E sb lf Hpend Hcnt Hfuel) as (s1 & evs & Hloop & _).
  destruct lf as [|lf]; [lia|].
  assert (Hgo := loop_run E sb lf Hpend ltac:(rewrite Hcnt; unfold INT_MAX; lia)).
  remember (uev_run E (S lf) sb) as o eqn:Ho.
  destruct Hgo as [n clk t Hn | n isdir a rc' clk Hn]; [discriminate Hloop|].
  eexists. split; [exact Hmain|].
  cbn [trace emits set_clock set_pending cnt]. rewrite Htr. split.
  - rewrite !existsb_app, boot_events_in_rescue, poll_rounds_in_rescue.
    rewrite gate_tail_in_rescue
      by (cbn [rescue emits set_clock set_pending]; rewrite Hr; exact Hresc).
    unfold setup_events, fork_events. apply Z.eqb_neq in Hresc. rewrite Hresc.
    destruct (EMERGENCY_SHELL E); reflexivity.
  - destruct (setup_events_quiet E (env_cmdline_rescue E) debug) as (_ & _ & Hsf & _).
    destruct (fork_events_quiet E) as (_ & _ & Hff & _).
    destruct (boot_events_counts E silent [] rc quiet_nil) as (_ & Hbf & _).
    destruct (poll_rounds_quiet final n (cnt sb)) as (_ & _ & Hpf & _).
    rewrite !finalize_entries_app, Hsf, Hff, Hbf, Hpf, gate_tail_entries. reflexivity.
Qed.

(** The witness: the usual machine booted with the rescue flag. *)
Lemma a_rescue_boot_checks_nothing_and_runs_no_script_witness :
  let E := sample_env false 1 0 (fun _ => 0) (sample_fstab "rw") all_fine never_completed in
  exists s',
    main E 0 122 (initial_state E) = Returned s'
    /\ existsb left_out_in_rescue (trace s') = false
    /\ finalize_entries (trace s') = 1%nat.
Proof.
  apply (a_rescue_boot_checks_nothing_and_runs_no_script
           (sample_env false 1 0 (fun _ => 0) (sample_fstab "rw") all_fine never_completed)
           0 122).
  - reflexivity.
  - left. reflexivity.
  - discriminate.
  - lia.
Defined.

(** ** fs_remount_root *)

Lemma find_first_root :
  forall pre fs rest,
    Forall (fun x => fs_file x <> "/"%string) pre ->
    fs_file fs = "/"%string ->
    find is_root (pre ++ fs :: rest) = Some fs.
Proof.
  intros pre fs rest Hpre Hroot.
  induction Hpre as [|x pre Hx _ IH]; cbn [app find]; unfold is_root at 1.
  - rewrite Hroot. reflexivity.
  - apply String.eqb_neq in Hx. rewrite Hx. exact IH.
Qed.

(** X17.  fs_remount_root, the entry that decides.  The search for / stops at
    the first entry of fstab whose mount point is /: that entry alone decides,
    whatever comes before or after it.  When its type is "ro" nothing is done;
    otherwise / is remounted read-write when the checks ended with 0 and the
    advisory message is printed when they did not.  fstab is closed in every
    case. *)
Theorem the_first_entry_for_root_decides :
  forall (E : environment) (fsckerr : Z) (s : state) (pre rest : list fstab) (fs : fstab),
    env_setfsent E (trace s) = true ->
    env_fstab E (trace s ++ [EvSetfsent true]) = pre ++ fs :: rest ->
    Forall (fun x => fs_file x <> "/"%string) pre ->
    fs_file fs = "/"%string ->
    exists rc,
      exec (fs_remount_root E fsckerr) s
      = emits ([EvSetfsent true]
               ++ (if String.eqb (fs_type fs) "ro" then []
                   else if fsckerr =? 0
                        then [EvRunInteractive "mount -n -o remount,rw /"
                                               "Remounting / as read-write" rc]
                        else [EvPrint 1 MSG_NO_REMOUNT])
               ++ [EvEndfsent]) s.
Proof.
  intros E fsckerr s pre rest fs Hopen Htab Hpre Hroot.
  assert (Hfind := find_first_root pre fs rest Hpre Hroot).
  apply wp_exec. unfold fs_remount_root. autounfold with prims.
  apply wp_bind, wp_ask. rewrite Hopen. cbn [negb].
  do 2 wp_step. rewrite Htab, Hfind.
  destruct (String.eqb (fs_type fs) "ro"); repeat wp_step_any.
  all: first [match goal with rc : Z |- _ => exists rc end | exists 0].
  all: try match goal with
           | H : negb (_ =? 0) = _ |- _ =>
               apply (f_equal negb) in H; rewrite negb_involutive in H;
               cbn [negb] in H; rewrite H
           end.
  all: reflexivity.
Qed.

(** The witness: / is listed read-only first and read-write after it, and it
    is left alone. *)
Lemma the_first_entry_for_root_decides_witness :
  let E := sample_env false 0 0 (fun _ => 0) root_listed_twice all_fine never_completed in
  exec (fs_remount_root E 0) (initial_state E)
  = emits [EvSetfsent true; EvEndfsent] (initial_state E).
Proof.
  cbv zeta.
  destruct (the_first_entry_for_root_decides
              (sample_env false 0 0 (fun _ => 0) root_listed_twice all_fine never_completed)
              0
              (initial_state
                 (sample_env false 0 0 (fun _ => 0) root_listed_twice all_fine
                    never_completed))
              [] (tl root_listed_twice) (hd (mk_fstab "" "" "" "" "" 0 0) root_listed_twice)
              eq_refl eq_refl (Forall_nil _) eq_refl) as (rc & Heq).
  exact Heq.
Defined.

(** ** The order of the boot phases *)

Lemma callbacks_no_boot_call :
  forall h l, filter boot_call (map (EvCallback h) l) = [].
Proof. induction l as [|c l IH]; [reflexivity | exact IH]. Qed.

Lemma hook_events_boot_calls :
  forall E h, filter boot_call (hook_events E h) = filter boot_call [EvHook h].
Proof.
  intros E h. unfold hook_events.
  change (EvHook h :: map (EvCallback h) (env_hooks E h))
    with ([EvHook h] ++ map (EvCallback h) (env_hooks E h)).
  now rewrite filter_app, callbacks_no_boot_call, app_nil_r.
Qed.

Lemma poll_rounds_boot_calls :
  forall w n c, filter boot_call (poll_rounds w n c) = repeat (EvScheduleWork w) n.
Proof.
  induction n as [|n IH]; intros c; [reflexivity|].
  cbn [poll_rounds]. rewrite filter_app, IH. reflexivity.
Qed.

Lemma gate_tail_boot_calls :
  forall E s n isdir a rc, filter boot_call (gate_tail E s n isdir a rc) = [].
Proof.
  intros. unfold gate_tail, finalize_events, runparts_events, rc_local_events.
  rewrite !filter_app, !hook_events_boot_calls.
  destruct (0 <? cnt s - Z.of_nat n), (runparts s) as [dir|];
    try destruct (isdir && (rescue s =? 0)); destruct ((a =? 0) && (rescue s =? 0));
    reflexivity.
Qed.

(** The boot calls of [main] up to the event loop are those of [boot_order],
    in its order and as many times. *)
Lemma boot_calls_in_order :
  forall E debug silent fsevs rc,
    forallb fs_call fsevs = true ->
    filter boot_call
      ([EvGetpid 1]
       ++ setup_events E (env_cmdline_rescue E) debug
       ++ fork_events E
       ++ boot_events E silent fsevs rc)
    = boot_order E.
Proof.
  intros E debug silent fsevs rc Hfs.
  destruct (fs_calls_quiet fsevs Hfs) as (_ & Hnone).
  unfold setup_events, fork_events, boot_events, banner_events, mount_events, config_events.
  rewrite !filter_app, !hook_events_boot_calls, Hnone.
  destruct (env_cmdline_rescue E =? 0), debug, (EMERGENCY_SHELL E), silent, (rc =? 0);
    rewrite ?hook_events_boot_calls; reflexivity.
Qed.

(** The event loop adds no boot call but the resubmissions of the gate. *)
Lemma loop_boot_calls (E : environment) (sb : state) (fuel : nat) :
  pending sb = [(0, crank); (1000, final)] ->
  0 <= cnt sb <= INT_MAX ->
  exists post n,
    trace (outcome_state (uev_run E fuel sb)) = trace sb ++ post
    /\ filter boot_call post = repeat (EvScheduleWork final) n.
Proof.
  intros Hpend Hcnt. destruct fuel as [|fuel].
  - exists [], 0%nat. cbn [uev_run]. rewrite Hpend. cbn [outcome_state].
    split; [now rewrite app_nil_r | reflexivity].
  - destruct (loop_run E sb fuel Hpend Hcnt) as [n clk t Hn | n isdir a rc clk Hn];
      cbn [outcome_state trace emits set_clock set_pending cnt].
    + exists ([EvSmInit; EvSmStep] ++ poll_rounds final n (cnt sb)), n.
      split; [now rewrite <- app_assoc|].
      rewrite filter_app, poll_rounds_boot_calls. reflexivity.
    + eexists ([EvSmInit; EvSmStep] ++ poll_rounds final n (cnt sb) ++ gate_tail E _ n isdir a rc),
        n.
      split; [now rewrite <- !app_assoc|].
      rewrite !filter_app, poll_rounds_boot_calls, gate_tail_boot_calls, app_nil_r.
      reflexivity.
Qed.

Lemma Subseq_filter :
  forall (p : event -> bool) l tr, Subseq l tr -> Subseq (filter p l) (filter p tr).
Proof.
  intros p l tr H. induction H as [tr | l e tr _ IH | l e tr _ IH]; cbn [filter].
  - apply Subseq_nil.
  - destruct (p e); [apply Subseq_skip|]; exact IH.
  - destruct (p e); [apply Subseq_take|]; exact IH.
Qed.

Lemma config_calls_of_boot_calls :
  forall l, filter config_call (filter boot_call l) = filter config_call l.
Proof.
  induction l as [|e l IH]; [reflexivity|].
  cbn [filter]. destruct (boot_call e) eqn:Hb; cbn [filter]; rewrite IH.
  - reflexivity.
  - destruct e; try reflexivity; try discriminate Hb.
    destruct h; try reflexivity; discriminate Hb.
Qed.

Lemma resubmissions_are_no_config_calls :
  forall w n, filter config_call (repeat (EvScheduleWork w) n) = [].
Proof. induction n as [|n IH]; [reflexivity | exact IH]. Qed.

(** C3, as amended.  In process 1, in the process that goes on after
    [emergency_shell], at any moment of the event loop: the trace is that of
    the set-up, of the fork seen from the child, of the boot phases in the
    order of the source, and of the event loop.  The checks of the filesystem
    phase sit between the control groups and the rootfs-up hook and hold none
    of the calls by which [main] marks its phases; the event loop adds none of
    them but the resubmissions of the gate.  So the marking calls of the whole
    trace are exactly those of [boot_order], each as often as listed there and
    in that order: no phase starts before the one before it is done.  In the
    configuration phase the static configuration is loaded by conf_init, then
    the condition store is set up, the two one-shot conditions are set, the
    signals are enabled and the basefs-up hook is run; the configuration of the
    directory is read only after that, by the one call of conf_monitor, so
    the order with the directory read before cond_init never occurs. *)
Theorem boot_phase_order :
  forall (E : environment) (wait_fuel loop_fuel : nat),
    env_getpid E [] = 1 ->
    continues E ->
    exists debug silent fsevs rc post n,
      trace (outcome_state (main E wait_fuel loop_fuel (initial_state E)))
      = [EvGetpid 1]
        ++ setup_events E (env_cmdline_rescue E) debug
        ++ fork_events E
        ++ boot_events E silent fsevs rc
        ++ post
      /\ forallb fs_call fsevs = true
      /\ filter boot_call post = repeat (EvScheduleWork final) n
      /\ filter boot_call
           (trace (outcome_state (main E wait_fuel loop_fuel (initial_state E))))
         = boot_order E ++ repeat (EvScheduleWork final) n
      /\ filter config_call
           (trace (outcome_state (main E wait_fuel loop_fuel (initial_state E))))
         = [EvConfInit; EvCondInit; EvSigSetup; EvHook HOOK_BASEFS_UP; EvConfMonitor]
      /\ Subseq (boot_order E)
                (trace (outcome_state (main E wait_fuel loop_fuel (initial_state E))))
      /\ ~ Subseq config_order_directory_first
                  (trace (outcome_state (main E wait_fuel loop_fuel (initial_state E)))).
Proof.
  intros E wf lf Hpid Hcont.
  destruct (main_enters_loop E wf lf (fork_events E) Hpid
              (emergency_shell_continues E wf _ Hcont))
    as (debug & silent & fsevs & rc & sb & Hmain & Htr & _ & _ & Hpend & Hcnt & _ & _ & _
        & _ & Hcalls).
  destruct (loop_boot_calls E sb lf Hpend ltac:(rewrite Hcnt; unfold INT_MAX; lia))
    as (post & n & Hloop & Hpost).
  exists debug, silent, fsevs, rc, post, n.
  rewrite Hmain, Hloop, Htr.
  assert (Hboot : filter boot_call
                    (([EvGetpid 1]
                      ++ setup_events E (env_cmdline_rescue E) debug
                      ++ fork_events E
                      ++ boot_events E silent fsevs rc) ++ post)
                  = boot_order E ++ repeat (EvScheduleWork final) n).
  { now rewrite filter_app, (boot_calls_in_order E debug silent fsevs rc Hcalls), Hpost. }
  assert (Hconf : filter config_call
                    (([EvGetpid 1]
                      ++ setup_events E (env_cmdline_rescue E) debug
                      ++ fork_events E
                      ++ boot_events E silent fsevs rc) ++ post)
                  = [EvConfInit; EvCondInit; EvSigSetup; EvHook HOOK_BASEFS_UP;
                     EvConfMonitor]).
  { rewrite <- config_calls_of_boot_calls, Hboot, filter_app,
      resubmissions_are_no_config_calls.
    reflexivity. }
  split; [evs_eq; reflexivity|]. split; [exact Hcalls|]. split; [exact Hpost|].
  split; [exact Hboot|]. split; [exact Hconf|]. split.
  - apply Subseq_app_r, boot_order_in_boot.
  - intros H. apply (Subseq_filter config_call) in H. rewrite Hconf in H.
    apply subseqb_complete in H. vm_compute in H. discriminate H.
Qed.

(** The witness of C3: the usual machine. *)
Lemma boot_phase_order_witness :
  let E := plain_env (completed_from 2) in
  exists n,
    filter boot_call (trace (outcome_state (main E 0 10 (initial_state E))))
    = boot_order E ++ repeat (EvScheduleWork final) n
    /\ filter config_call (trace (outcome_state (main E 0 10 (initial_state E))))
       = [EvConfInit; EvCondInit; EvSigSetup; EvHook HOOK_BASEFS_UP; EvConfMonitor].
Proof.
  cbv zeta.
  destruct (boot_phase_order (plain_env (completed_from 2)) 0 10 eq_refl
              (or_introl eq_refl))
    as (debug & silent & fsevs & rc & post & n & _ & _ & _ & Hboot & Hconf & _).
  exists n. split; assumption.
Defined.
